(** * Trainer, metric accumulators, EMA tracking and checkpoints

    A shallow embedding of the training core of the monocular depth
    estimation repository:

    - [trainers/base_trainer.py] ([BaseTrainer]),
    - [metrics/threshold_accuracy.py] and [metrics/log10_average_error.py],
    - the EMA averaging function and the final save of [train.py].

    Tensor elements are idealised: rationals ([Q]) where the code only adds,
    multiplies, divides and compares, and Stdlib reals ([R]) for the one
    metric that takes a logarithm.  Rounding of 32-bit floats is not part of
    the model.  Python exceptions are values of [exn]; a computation that
    raises keeps the state it had reached. *)

From Stdlib Require Import ZArith QArith Qabs Reals Lia Psatz Ascii String List.
From stdpp Require Import gmap strings list pretty.
Import ListNotations.

Set Default Proof Using "Type".
Set Warnings "-clear-no-such-hyp".

(** ** Exceptions and results *)

Inductive exn : Type :=
  | ZeroDivisionError
  | AttributeError (attr : string)
  | KeyError (key : string)
  | IndexError
  | TypeError
  | FileNotFoundError (path : string)
  | EOFError
  | UnpicklingError (path : string)
  | ValueError (msg : string)
  | RuntimeError (msg : string).

Inductive result (A : Type) : Type :=
  | Ok (a : A)
  | Raise (e : exn).
Arguments Ok {A} a.
Arguments Raise {A} e.

Definition is_ok {A} (r : result A) : bool :=
  match r with Ok _ => true | Raise _ => false end.

(** ** Rational helpers *)

Definition Qltb (a b : Q) : bool := negb (Qle_bool b a).

Definition Qsum (l : list Q) : Q := fold_right Qplus 0%Q l.

(** [torch.clamp_min(x, m)] on one element. *)
Definition Qclamp_min (m x : Q) : Q := if Qle_bool m x then x else m.

(** [torch.maximum] on one pair of elements. *)
Definition Qmaximum (a b : Q) : Q := if Qle_bool a b then b else a.

(** A flat tensor of rationals; a 0-d tensor is a one-element list. *)
Definition qtensor : Type := list Q.

(** Elementwise binary operation on two tensors of the same shape.  Operands
    of different sizes are rejected (torch would broadcast or raise; the
    trainer always pairs a prediction with a target of its own shape). *)
Definition elementwise {A B C} (f : A -> B -> C) (x : list A) (y : list B)
  : result (list C) :=
  if Nat.eqb (length x) (length y)
  then Ok (zip_with f x y)
  else Raise (RuntimeError "size mismatch").

(** ** torchmetrics.MeanMetric

    The library class behind [loss_logger] and [ThresholdAccuracy]: two
    sum-reduced states [value] and [weight], both 0.0 by default. *)
Module MeanMetric.
#[local] Open Scope Q_scope.

Record state : Type := mk { value : Q; weight : Q }.

(** State restored by [reset()]. *)
Definition default : state := mk 0 0.

(** [update(value, weight=w)]: the scalar weight is broadcast to the shape
    of [vals]; an empty tensor leaves the state alone. *)
Definition update (st : state) (vals : qtensor) (w : Q) : state :=
  match vals with
  | [] => st
  | _ => mk (value st + Qsum (map (fun v => v * w) vals))
            (weight st + Qsum (map (fun _ => w) vals))
  end.

(** [compute()] is [value / weight]; [None] stands for the non-finite
    result of a division by a zero weight (nan for 0/0). *)
Definition compute (st : state) : option Q :=
  if Qeq_bool (weight st) 0 then None else Some (value st / weight st).

(** [metric(x)], i.e. [forward(x)] with [full_state_update=False]: the
    batch is folded into the global state exactly as [update(x)] does. *)
Definition forward (st : state) (x : Q) : state := update st [x] 1.

End MeanMetric.

(** ** metrics/threshold_accuracy.py

    [ThresholdAccuracy] subclasses [MeanMetric]: its accumulator is the
    inherited [(value, weight)] pair, [compute] and [reset] are inherited,
    and [threshold] is a buffer fixed by [__init__]. *)
Module ThresholdAccuracy.
#[local] Open Scope Q_scope.

(** The positive floor of both clamps, [1e-6]. *)
Definition floor : Q := 1 # 1000000.

(** One element of [maximum]: [max(p/t, t/p)] after both clamps. *)
Definition ratio (p t : Q) : Q :=
  let p' := Qclamp_min floor p in
  let t' := Qclamp_min floor t in
  Qmaximum (p' / t') (t' / p').

(** One element of [mask = torch.where(maximum < threshold, 1, 0)]. *)
Definition mask_elt (threshold p t : Q) : Q :=
  if Qltb (ratio p t) threshold then 1 else 0.

Definition update (threshold : Q) (st : MeanMetric.state)
    (preds target : qtensor) : result MeanMetric.state :=
  match elementwise (mask_elt threshold) preds target with
  | Ok mask => Ok (MeanMetric.update st mask 1)
  | Raise e => Raise e
  end.

Definition compute : MeanMetric.state -> option Q := MeanMetric.compute.

End ThresholdAccuracy.

(** ** metrics/log10_average_error.py

    [Log10AverageError] subclasses [torchmetrics.MeanAbsoluteError], whose
    states are [sum_abs_error] (0.0) and [total] (0); [compute] divides the
    first by the second.  The logarithm makes this the one metric modelled
    over the reals. *)
Module Log10AverageError.
#[local] Open Scope R_scope.

Definition floor : R := / 1000000.

(** [torch.log10]. *)
Definition log10 (x : R) : R := ln x / ln 10.

Record state : Type := mk { sum_abs_error : R; total : nat }.

Definition default : state := mk 0 0.

Definition Rsum (l : list R) : R := fold_right Rplus 0 l.

(** One element of [|log10(clamp_min(p)) - log10(clamp_min(t))|]. *)
Definition abs_log_error (p t : R) : R :=
  Rabs (log10 (Rmax p floor) - log10 (Rmax t floor)).

Definition update (st : state) (preds target : list R) : result state :=
  match elementwise abs_log_error preds target with
  | Ok errs => Ok (mk (sum_abs_error st + Rsum errs)
                      (total st + length target))
  | Raise e => Raise e
  end.

(** [None] stands for the nan of 0/0 before any update. *)
Definition compute (st : state) : option R :=
  match total st with
  | O => None
  | S _ => Some (sum_abs_error st / INR (total st))
  end.

End Log10AverageError.

(** ** The EMA tracker of train.py

    [ema_avg] is the lambda of train.py; [AveragedModel] is torch's
    [optim.swa_utils.AveragedModel], which deep-copies the model, counts the
    updates in [n_averaged] and calls [avg_fn] from the second update on. *)
Module EMA.
#[local] Open Scope Q_scope.

(** [tensor * scalar]. *)
Definition tscale (t : qtensor) (c : Q) : qtensor := map (fun x => x * c) t.

(** [tensor + tensor]. *)
Definition tadd (a b : qtensor) : result qtensor := elementwise Qplus a b.

(** [model_parameter * (1 - ema_weight) + averaged_model_parameter * ema_weight] *)
Definition ema_avg (ema_weight : Q)
    (averaged_model_parameter model_parameter : qtensor) (_ : Z)
  : result qtensor :=
  tadd (tscale model_parameter (1 - ema_weight))
       (tscale averaged_model_parameter ema_weight).

Record AveragedModel : Type :=
  mk { shadow : list qtensor; n_averaged : Z }.

(** [AveragedModel(model, avg_fn=...)]: a copy of the live parameters. *)
Definition averaged_model (model : list qtensor) : AveragedModel :=
  mk model 0.

(** [p_swa.copy_(src)]. *)
Definition copy_ (dst src : qtensor) : result qtensor :=
  if Nat.eqb (length dst) (length src) then Ok src
  else Raise (RuntimeError "size mismatch").

(** The body of the loop over [zip(self.parameters(), model.parameters())];
    a shadow parameter the zip does not reach keeps its value. *)
Definition update_one (avg_fn : qtensor -> qtensor -> Z -> result qtensor)
    (n : Z) (p_swa p_model : qtensor) : result qtensor :=
  if Z.eqb n 0 then copy_ p_swa p_model
  else match avg_fn p_swa p_model n with
       | Ok t => copy_ p_swa t
       | Raise e => Raise e
       end.

Fixpoint update_all (avg_fn : qtensor -> qtensor -> Z -> result qtensor)
    (n : Z) (swa model : list qtensor) : result (list qtensor) :=
  match swa, model with
  | p_swa :: swa', p_model :: model' =>
      match update_one avg_fn n p_swa p_model with
      | Ok t => match update_all avg_fn n swa' model' with
                | Ok ts => Ok (t :: ts)
                | Raise e => Raise e
                end
      | Raise e => Raise e
      end
  | swa', _ => Ok swa'
  end.

(** [update_parameters(model)]. *)
Definition update_parameters (avg_fn : qtensor -> qtensor -> Z -> result qtensor)
    (am : AveragedModel) (model : list qtensor) : result AveragedModel :=
  match update_all avg_fn (n_averaged am) (shadow am) model with
  | Ok ts => Ok (mk ts (n_averaged am + 1))
  | Raise e => Raise e
  end.

(** The tracker after a sequence of optimizer steps, each followed by
    [ema_model.update_parameters(model)] on the live parameters. *)
Fixpoint run (avg_fn : qtensor -> qtensor -> Z -> result qtensor)
    (am : AveragedModel) (steps : list (list qtensor)) : result AveragedModel :=
  match steps with
  | [] => Ok am
  | theta :: rest =>
      match update_parameters avg_fn am theta with
      | Ok am' => run avg_fn am' rest
      | Raise e => Raise e
      end
  end.

End EMA.

(** ** Python dictionaries

    Insertion-ordered: assigning an existing key keeps its position. *)

Definition dict (V : Type) : Type := list (string * V).

Fixpoint dict_get {V} (k : string) (d : dict V) : option V :=
  match d with
  | [] => None
  | (k', v) :: d' => if String.eqb k k' then Some v else dict_get k d'
  end.

Fixpoint dict_set {V} (k : string) (v : V) (d : dict V) : dict V :=
  match d with
  | [] => [(k, v)]
  | (k', v') :: d' =>
      if String.eqb k k' then (k', v) :: d' else (k', v') :: dict_set k v d'
  end.

(** [{**d, **e}]. *)
Definition dict_update {V} (d e : dict V) : dict V :=
  fold_left (fun acc kv => dict_set (fst kv) (snd kv) acc) e d.

(** [d[k]]. *)
Definition dict_item {V} (k : string) (d : dict V) : result V :=
  match dict_get k d with
  | Some v => Ok v
  | None => Raise (KeyError k)
  end.

(** ** Paths and integers as Python writes them *)

Definition starts_with_slash (s : string) : bool :=
  match s with
  | String c _ => Ascii.eqb c "/"%char
  | EmptyString => false
  end.

Fixpoint ends_with_slash (s : string) : bool :=
  match s with
  | EmptyString => false
  | String c EmptyString => Ascii.eqb c "/"%char
  | String _ s' => ends_with_slash s'
  end.

(** [os.path.join(a, b)] (posix). *)
Definition path_join (a b : string) : string :=
  if starts_with_slash b then b
  else if orb (String.eqb a "") (ends_with_slash a) then a +:+ b
  else a +:+ "/" +:+ b.

(** [f"{epoch}_epoch.pkl"]. *)
Definition epoch_label (epoch : Z) : string := pretty epoch +:+ "_epoch.pkl".

(** [int(x)] on a float: truncation toward zero. *)
Definition py_int (x : Q) : Z := Z.quot (Qnum x) (Z.pos (Qden x)).

(** [a % b] on Python ints: the sign follows the divisor, as [Z.modulo]. *)
Definition py_mod (a b : Z) : result Z :=
  if Z.eqb b 0 then Raise ZeroDivisionError else Ok (a mod b)%Z.

(** ** Tensors, models, optimizers and metric objects

    The trainer never looks inside a tensor: [tensor] and [shape] are
    whatever torch provides, and [mvalue] is what a metric's
    [compute().cpu().item()] yields. *)

Class Numerics : Type := {
  tensor : Type;
  shape : tensor -> list nat;
  mvalue : Type;
}.

(** [torch.allclose(a, b)] on tensors of one shape, by which a metric
    collection finds the metrics that may share their states. *)
Class Comparison `{Numerics} : Type := {
  allclose : tensor -> tensor -> bool;
}.

(** [state_dict()]: parameter name to tensor. *)
Abbreviation state_dict := (gmap string tensor).

Section Data.
Context `{Numerics} `{!Comparison}.

(** An [nn.Module] as the trainer sees it. *)
Record Model : Type := mkModel { training : bool; parameters : state_dict }.

(** [model.load_state_dict(sd)] (strict): missing keys, unexpected keys
    and size mismatches raise; otherwise each own parameter is overwritten
    by the entry of [sd] under its name. *)
Definition model_load_state_dict (m : Model) (sd : state_dict) : result Model :=
  if bool_decide (shape <$> parameters m = shape <$> sd)
  then Ok (mkModel (training m)
             (map_imap (fun k old => Some (default old (sd !! k))) (parameters m)))
  else Raise (RuntimeError "Error(s) in loading state_dict").

(** One entry of [optimizer.param_groups]; in a state dict the parameters
    of a group are numbered by position, so only their number matters. *)
Record param_group : Type :=
  mkGroup { lr : Q; options : dict Q; n_params : nat }.

(** An optimizer, which is also the content of its [state_dict()]:
    [param_groups] and the per-parameter [state]. *)
Record Optimizer : Type :=
  mkOptimizer { param_groups : list param_group;
                opt_state : gmap nat (gmap string tensor) }.

(** [optimizer.load_state_dict(sd)]: the groups must agree in number and
    in size; the saved options and state then replace the own ones. *)
Definition optimizer_load_state_dict (o sd : Optimizer) : result Optimizer :=
  if negb (Nat.eqb (length (param_groups o)) (length (param_groups sd)))
  then Raise (ValueError "different number of parameter groups")
  else if negb (bool_decide (n_params <$> param_groups o = n_params <$> param_groups sd))
  then Raise (ValueError "parameter group size mismatch")
  else Ok (mkOptimizer
             (zip_with (fun g ng => mkGroup (lr ng) (options ng) (n_params g))
                       (param_groups o) (param_groups sd))
             (opt_state sd)).

(** A [torchmetrics.Metric] object: the states registered with
    [add_state], by name and in the order of registration ([cur]), their
    defaults, and the [update] and [compute] methods of its class. *)
Record Metric : Type := mkMetric {
  cur : dict tensor;
  defaults : dict tensor;
  upd : dict tensor -> tensor -> tensor -> result (dict tensor);
  comp : dict tensor -> mvalue;
}.

Definition metric_with (m : Metric) (s : dict tensor) : Metric :=
  mkMetric s (defaults m) (upd m) (comp m).

Definition metric_update (m : Metric) (preds target : tensor) : result Metric :=
  match upd m (cur m) preds target with
  | Ok s => Ok (metric_with m s)
  | Raise e => Raise e
  end.

Definition metric_compute (m : Metric) : mvalue := comp m (cur m).

(** [Metric.reset()]: every registered state back to its default. *)
Definition metric_reset (m : Metric) : Metric := metric_with m (defaults m).

(** [torchmetrics.MetricCollection] as train.py builds it, with the default
    [compute_groups=True]: the named metrics in the collection's order, the
    current prefix, and the compute groups, which are [None] until the
    first [update] has formed them ([_groups_checked]).  A group is the
    list of the names of its members; the first one is updated for all. *)
Record MetricCollection : Type :=
  mkCollection { prefix : string;
                 members : list (string * Metric);
                 groups : option (list (list string)) }.

(** The first [update] of a collection: every member in turn; a member
    that raises leaves the earlier ones updated. *)
Fixpoint members_update (ms : list (string * Metric)) (preds target : tensor)
  : result unit * list (string * Metric) :=
  match ms with
  | [] => (Ok tt, [])
  | (name, m) :: rest =>
      match metric_update m preds target with
      | Ok m' => let '(r, rest') := members_update rest preds target in
                 (r, (name, m') :: rest')
      | Raise e => (Raise e, ms)
      end
  end.

Definition members_reset (ms : list (string * Metric)) : list (string * Metric) :=
  map (fun nm => (fst nm, metric_reset (snd nm))) ms.

(** [_equal_metric_states]: no metric without states, the same state
    names, and then the first registered state decides, by shape and
    [allclose] (the loop returns in its first round). *)
Definition equal_metric_states (m1 m2 : Metric) : bool :=
  match defaults m1, defaults m2 with
  | [], _ | _, [] => false
  | (key, _) :: _, _ :: _ =>
      forallb (fun k => existsb (String.eqb k) (map fst (defaults m2)))
              (map fst (defaults m1))
      && forallb (fun k => existsb (String.eqb k) (map fst (defaults m1)))
                 (map fst (defaults m2))
      && match dict_get key (cur m1), dict_get key (cur m2) with
         | Some s1, Some s2 => bool_decide (shape s1 = shape s2) && allclose s1 s2
         | _, _ => false
         end
  end.

Definition leaders_equal (ms : list (string * Metric)) (g1 g2 : list string) : bool :=
  match g1, g2 with
  | n1 :: _, n2 :: _ =>
      match dict_get n1 ms, dict_get n2 ms with
      | Some m1, Some m2 => equal_metric_states m1 m2
      | _, _ => false
      end
  | _, _ => false
  end.

(** The two loops of [_merge_compute_groups]: the first group, and for it
    the first other group, whose first members have equal states. *)
Fixpoint find_partner (ms : list (string * Metric)) (g : list string) (i j : nat)
    (gs : list (list string)) : option nat :=
  match gs with
  | [] => None
  | g' :: rest =>
      if negb (Nat.eqb i j) && leaders_equal ms g g' then Some j
      else find_partner ms g i (S j) rest
  end.

Fixpoint find_pair (ms : list (string * Metric)) (all : list (list string)) (i : nat)
    (gs : list (list string)) : option (nat * nat) :=
  match gs with
  | [] => None
  | g :: rest =>
      match find_partner ms g i 0 all with
      | Some j => Some (i, j)
      | None => find_pair ms all (S i) rest
      end
  end.

(** [self._groups[i].extend(self._groups.pop(j))]. *)
Definition merge_step (ms : list (string * Metric)) (gs : list (list string))
  : option (list (list string)) :=
  match find_pair ms gs 0 gs with
  | Some (i, j) =>
      match gs !! j with
      | Some gj => Some (delete j (alter (fun g => g ++ gj) i gs))
      | None => None
      end
  | None => None
  end.

(** [_merge_compute_groups]: merge until no two groups match; every merge
    takes a group away, so the number of groups bounds the rounds. *)
Fixpoint merge_groups (rounds : nat) (ms : list (string * Metric))
    (gs : list (list string)) : list (list string) :=
  match rounds with
  | O => gs
  | S n =>
      match merge_step ms gs with
      | Some gs' => merge_groups n ms gs'
      | None => gs
      end
  end.

(** [setattr(mi, state, m0_state)] for every state of [m0]. *)
Definition adopt (mi m0 : Metric) : Metric :=
  metric_with mi
    (fold_left (fun st k => match dict_get k (cur m0) with
                            | Some v => dict_set k v st
                            | None => st
                            end)
               (map fst (defaults m0)) (cur mi)).

(** [_compute_groups_create_state_ref]: the members of a group hold the
    states of its first member, by reference or, after [items()], as a
    copy that the next [update] or [items()] replaces.  The model keeps
    them equal to it. *)
Definition sync_group (ms : list (string * Metric)) (g : list string)
  : list (string * Metric) :=
  match g with
  | [] => ms
  | n0 :: followers =>
      match dict_get n0 ms with
      | None => ms
      | Some m0 =>
          fold_left (fun ms n => match dict_get n ms with
                                 | Some mi => dict_set n (adopt mi m0) ms
                                 | None => ms
                                 end) followers ms
      end
  end.

Definition sync (ms : list (string * Metric)) (gs : list (list string))
  : list (string * Metric) :=
  fold_left sync_group gs ms.

(** An [update] once the groups are formed: only the first member of each
    group is updated. *)
Fixpoint leaders_update (ms : list (string * Metric)) (gs : list (list string))
    (preds target : tensor) : result unit * list (string * Metric) :=
  match gs with
  | [] => (Ok tt, ms)
  | [] :: rest => leaders_update ms rest preds target
  | (n0 :: _) :: rest =>
      match dict_get n0 ms with
      | None => (Raise (AttributeError n0), ms)
      | Some m0 =>
          match metric_update m0 preds target with
          | Ok m0' => leaders_update (dict_set n0 m0' ms) rest preds target
          | Raise e => (Raise e, ms)
          end
      end
  end.

(** [collection.update(preds, target)]. *)
Definition collection_update (c : MetricCollection) (preds target : tensor)
  : result unit * MetricCollection :=
  match groups c with
  | Some gs =>
      let '(r, ms) := leaders_update (members c) gs preds target in
      (r, mkCollection (prefix c) (sync ms gs) (Some gs))
  | None =>
      let '(r, ms) := members_update (members c) preds target in
      match r with
      | Ok _ =>
          let gs := merge_groups (length ms) ms (map (fun nm => [fst nm]) ms) in
          (Ok tt, mkCollection (prefix c) (sync ms gs) (Some gs))
      | Raise e => (Raise e, mkCollection (prefix c) ms None)
      end
  end.

(** [collection.reset()]: every member is reset, and the states of the
    groups are tied again; the groups themselves stay. *)
Definition collection_reset (c : MetricCollection) : MetricCollection :=
  let ms := members_reset (members c) in
  mkCollection (prefix c)
    (match groups c with Some gs => sync ms gs | None => ms end)
    (groups c).

(** [collection.items()]: names carry the prefix. *)
Definition collection_items (c : MetricCollection) : list (string * Metric) :=
  map (fun nm => (prefix c +:+ fst nm, snd nm)) (members c).

(** ** History and files *)

Inductive cell : Type :=
  | CInt (z : Z)
  | CFloat (q : option Q)
  | CMetric (v : mvalue).

(** One epoch record, and the [DataFrame] of them. *)
Definition row : Type := dict cell.
Definition DataFrame : Type := list row.

(** [frame.append(result, ignore_index=True)] returns a longer frame. *)
Definition frame_append (h : DataFrame) (r : row) : DataFrame := h ++ [r].

(** What a checkpoint dictionary holds. *)
Inductive pyobj : Type :=
  | PNone
  | PStateDict (sd : state_dict)
  | POptimizer (sd : Optimizer)
  | PFrame (h : DataFrame).

(** A file is a [torch.save] archive, whose records are written one after
    the other and which is readable once sealed by its end-of-archive
    directory, or a csv table. *)
Inductive file : Type :=
  | Archive (records : dict pyobj) (sealed : bool)
  | CsvFile (table : DataFrame).

Inductive fs_op : Type :=
  | OpOpen (path : string)
  | OpWrite (path : string) (record : string * pyobj)
  | OpClose (path : string)
  | OpRename (src dst : string).

Definition exec_op (fs : gmap string file) (op : fs_op) : gmap string file :=
  match op with
  | OpOpen p => <[p := Archive [] false]> fs
  | OpWrite p r =>
      match fs !! p with
      | Some (Archive rs false) => <[p := Archive (rs ++ [r]) false]> fs
      | _ => fs
      end
  | OpClose p =>
      match fs !! p with
      | Some (Archive rs _) => <[p := Archive rs true]> fs
      | _ => fs
      end
  | OpRename a b =>
      match fs !! a with
      | Some f => <[b := f]> (delete a fs)
      | None => fs
      end
  end.

Definition run_ops (ops : list fs_op) (fs : gmap string file) : gmap string file :=
  fold_left exec_op ops fs.

(** [torch.save(obj, f)] opens [f] itself for writing, streams the records
    of [obj] into it and closes the archive. *)
Definition torch_save_ops (obj : dict pyobj) (f : string) : list fs_op :=
  OpOpen f :: map (OpWrite f) obj ++ [OpClose f].

Definition torch_save (obj : dict pyobj) (f : string) (fs : gmap string file)
  : gmap string file :=
  run_ops (torch_save_ops obj f) fs.

(** The file system left by a [torch.save] that stops (crash, disk full)
    after [k] of its operations. *)
Definition torch_save_interrupted (k : nat) (obj : dict pyobj) (f : string)
    (fs : gmap string file) : gmap string file :=
  run_ops (firstn k (torch_save_ops obj f)) fs.

(** [torch.load(f)]: a sealed archive gives back its records.  An archive
    that was opened and never sealed has no end-of-archive directory: with
    no record in it the file is empty and unpickling runs out of input, with
    records the zip reader fails.  A csv file is no pickle. *)
Definition torch_load (f : string) (fs : gmap string file) : result (dict pyobj) :=
  match fs !! f with
  | None => Raise (FileNotFoundError f)
  | Some (Archive rs sealed) =>
      if sealed then Ok rs
      else match rs with
           | [] => Raise EOFError
           | _ :: _ =>
               Raise (RuntimeError "PytorchStreamReader failed reading zip archive")
           end
  | Some (CsvFile _) => Raise (UnpicklingError f)
  end.

(** A file [load_checkpoint] can read: a sealed archive with the three
    entries it looks up. *)
Definition valid_checkpoint (fl : file) : bool :=
  match fl with
  | Archive rs true =>
      is_ok (dict_item "model" rs) && is_ok (dict_item "optimizer" rs)
      && is_ok (dict_item "history" rs)
  | _ => false
  end.

End Data.

(** ** The trainer's collaborators

    The network, the loss, the optimizer's step, the learning-rate scheduler
    and [utils.timer.Timer] are consumed through these operations only. *)

Class Collaborators `{Numerics} : Type := {
  (** [self.model(image)], under the module's training flag. *)
  forward : bool -> state_dict -> tensor -> tensor;
  (** [self.criterion(y_pred, y_true)], as the detached scalar. *)
  criterion : tensor -> tensor -> result Q;
  (** [loss.backward(); self.optimizer.step()] for one batch. *)
  optim_step : Model -> Optimizer -> tensor -> tensor -> Model * Optimizer;
  (** [epoch_scheduler.step()], acting on the optimizer it was built on. *)
  scheduler : Type;
  scheduler_step : scheduler -> Optimizer -> scheduler * Optimizer;
  (** [Timer()], [start()], [stop()] (elapsed time), [reset()] and
      [timer(i, n)] (the progress text). *)
  Timer : Type;
  timer_new : Timer;
  timer_start : Timer -> Timer;
  timer_stop : Timer -> Q * Timer;
  timer_reset : Timer -> Timer;
  timer_call : Timer -> Z -> Z -> string * Timer;
}.

Inductive phase : Type := Training | Validating.

Section Trainer.
Context `{Collaborators} `{!Comparison}.

(** A batch of a loader: image, target and the identifiers. *)
Definition batch : Type := tensor * tensor * list string.

(** Lines printed by the trainer, before formatting. *)
Inductive out_line : Type :=
  | OutEpoch (epoch num_epochs : Z) (eta : string)
  | OutProgress (ph : phase) (epoch i n : Z) (eta : string)
  | OutResult (r : row)
  | OutSaving (filename : string).

(** The attributes of a [BaseTrainer].  [metrics] is the collection that
    train.py hands to the constructor (train.py:175); a trainer built with
    the default [metrics=None] raises [AttributeError] where lines 66, 78,
    142 and 154 reach for it and is left out. *)
Record BaseTrainer : Type := mkTrainer {
  model : option Model;
  optimizer : option Optimizer;
  metrics : MetricCollection;
  loss_logger : MeanMetric.state;
  timer : Timer;
  history : option DataFrame;
  device : string;
}.

(** What the trainer acts on besides itself: files, the console, the
    [SummaryWriter] and torch's gradient switch.  [writer] holds the scalars
    handed to [add_scalar], in order; the event file under
    [<tensorboard_dir>/logs] that the writer opens in [__init__] and fills
    with them is kept apart from [fs]. *)
Record World : Type := mkWorld {
  fs : gmap string file;
  stdout : list out_line;
  writer : list (string * cell * Z);
  grad_enabled : bool;
}.

Record machine : Type := mkMachine { self : BaseTrainer; world : World }.

(** [BaseTrainer.__init__]. *)
Definition new_trainer (m : option Model) (o : option Optimizer)
    (ms : MetricCollection) : BaseTrainer :=
  mkTrainer m o ms MeanMetric.default timer_new (Some []) "cpu".

Definition with_model (v : option Model) (t : BaseTrainer) : BaseTrainer :=
  mkTrainer v (optimizer t) (metrics t) (loss_logger t) (timer t) (history t) (device t).
Definition with_optimizer (v : option Optimizer) (t : BaseTrainer) : BaseTrainer :=
  mkTrainer (model t) v (metrics t) (loss_logger t) (timer t) (history t) (device t).
Definition with_metrics (v : MetricCollection) (t : BaseTrainer) : BaseTrainer :=
  mkTrainer (model t) (optimizer t) v (loss_logger t) (timer t) (history t) (device t).
Definition with_loss_logger (v : MeanMetric.state) (t : BaseTrainer) : BaseTrainer :=
  mkTrainer (model t) (optimizer t) (metrics t) v (timer t) (history t) (device t).
Definition with_timer (v : Timer) (t : BaseTrainer) : BaseTrainer :=
  mkTrainer (model t) (optimizer t) (metrics t) (loss_logger t) v (history t) (device t).
Definition with_history (v : option DataFrame) (t : BaseTrainer) : BaseTrainer :=
  mkTrainer (model t) (optimizer t) (metrics t) (loss_logger t) (timer t) v (device t).

Definition with_fs (v : gmap string file) (w : World) : World :=
  mkWorld v (stdout w) (writer w) (grad_enabled w).
Definition with_stdout (v : list out_line) (w : World) : World :=
  mkWorld (fs w) v (writer w) (grad_enabled w).
Definition with_writer (v : list (string * cell * Z)) (w : World) : World :=
  mkWorld (fs w) (stdout w) v (grad_enabled w).
Definition with_grad_enabled (v : bool) (w : World) : World :=
  mkWorld (fs w) (stdout w) (writer w) v.

(** *** Methods are state transformers that may raise *)

Definition M (A : Type) : Type := machine -> result A * machine.

#[export] Instance M_ret : MRet M := fun A a s => (Ok a, s).
#[export] Instance M_bind : MBind M := fun A B f c s =>
  match c s with
  | (Ok a, s') => f a s'
  | (Raise e, s') => (Raise e, s')
  end.

Definition raise {A} (e : exn) : M A := fun s => (Raise e, s).
Definition lift {A} (r : result A) : M A := fun s => (r, s).
Definition get_self : M BaseTrainer := fun s => (Ok (self s), s).
Definition update_self (f : BaseTrainer -> BaseTrainer) : M unit :=
  fun s => (Ok tt, mkMachine (f (self s)) (world s)).
Definition update_world (f : World -> World) : M unit :=
  fun s => (Ok tt, mkMachine (self s) (f (world s))).

Definition print (l : out_line) : M unit :=
  update_world (fun w => with_stdout (stdout w ++ [l]) w).

(** [self.writer.add_scalar(tag, value, step)]. *)
Definition add_scalar (tag : string) (v : cell) (step : Z) : M unit :=
  update_world (fun w => with_writer (writer w ++ [(tag, v, step)]) w).

(** [self.<field>.<attr>] on a field that may be [None]. *)
Definition attr_of {A} (o : option A) (attr : string) : M A :=
  match o with
  | Some a => mret a
  | None => raise (AttributeError attr)
  end.

(** [for i, x in enumerate(xs, i0)]. *)
Fixpoint for_enumerate {A} (i : Z) (xs : list A) (body : Z -> A -> M unit) : M unit :=
  match xs with
  | [] => mret tt
  | x :: xs' => body i x;; for_enumerate (i + 1) xs' body
  end.

Definition set_train_mode (enable : bool) : M unit :=
  t ← get_self;
  m ← attr_of (model t) (if enable then "train" else "eval");
  update_self (with_model (Some (mkModel enable (parameters m))));;
  update_world (with_grad_enabled enable).

(** [self.model(image)]. *)
Definition call_model (image : tensor) : M tensor :=
  t ← get_self;
  match model t with
  | Some m => mret (forward (training m) (parameters m) image)
  | None => raise TypeError
  end.

Definition metrics_update (y_pred y_true : tensor) : M unit :=
  t ← get_self;
  let '(r, c) := collection_update (metrics t) y_pred y_true in
  update_self (with_metrics c);;
  lift r.

Definition log_loss (loss : Q) : M unit :=
  update_self (fun t => with_loss_logger (MeanMetric.forward (loss_logger t) loss) t).

Definition train_one_batch (image y_true : tensor) : M Q :=
  t ← get_self;
  o ← attr_of (optimizer t) "zero_grad";
  y_pred ← call_model image;
  loss ← lift (criterion y_pred y_true);
  t ← get_self;
  m ← attr_of (model t) "parameters";
  let '(m', o') := optim_step m o image y_true in
  update_self (fun t => with_optimizer (Some o') (with_model (Some m') t));;
  log_loss loss;;
  metrics_update y_pred y_true;;
  mret loss.

Definition val_one_batch (image y_true : tensor) : M Q :=
  y_pred ← call_model image;
  loss ← lift (criterion y_pred y_true);
  log_loss loss;;
  metrics_update y_pred y_true;;
  mret loss.

Definition timer_do (f : Timer -> Timer) : M unit :=
  update_self (fun t => with_timer (f (timer t)) t).

(** [self.timer(i, n)]. *)
Definition timer_text (i n : Z) : M string :=
  t ← get_self;
  let '(txt, tm) := timer_call (timer t) i n in
  update_self (with_timer tm);;
  mret txt.

(** The [if i % verbose == 0: print(...)] of both passes. *)
Definition report (ph : phase) (epoch i n verbose : Z) : M unit :=
  r ← lift (py_mod i verbose);
  if Z.eqb r 0
  then txt ← timer_text i n; print (OutProgress ph epoch i n txt)
  else mret tt.

(** The [for name, metric in self.metrics.items()] loop. *)
Fixpoint compute_members (items : list (string * Metric)) (step : Z)
    (acc : row) : M row :=
  match items with
  | [] => mret acc
  | (name, metric) :: rest =>
      let value := CMetric (metric_compute metric) in
      add_scalar name value step;;
      compute_members rest step (dict_set name value acc)
  end.

Definition get_metrics_dict (pre : string) (step : Z) : M row :=
  t ← get_self;
  let '(time, tm) := timer_stop (timer t) in
  update_self (with_timer tm);;
  let loss := CFloat (MeanMetric.compute (loss_logger t)) in
  add_scalar (pre +:+ "loss") loss step;;
  update_self (fun t =>
    with_metrics (mkCollection pre (members (metrics t)) (groups (metrics t))) t);;
  t ← get_self;
  ms ← compute_members (collection_items (metrics t)) step [];
  mret (dict_update
          (dict_set (pre +:+ "time") (CInt (py_int time))
             (dict_set (pre +:+ "loss") loss []))
          ms).

Definition reset_metrics : M unit :=
  timer_do timer_reset;;
  update_self (with_loss_logger MeanMetric.default);;
  update_self (fun t => with_metrics (collection_reset (metrics t)) t).

(** The two passes of [train_one_epoch] (lines 88-95 and 97-104) are the
    same code up to the mode flag, the batch method and the prefix. *)
Definition phase_flag (ph : phase) : bool :=
  match ph with Training => true | Validating => false end.
Definition phase_prefix (ph : phase) : string :=
  match ph with Training => "train/" | Validating => "val/" end.
Definition one_batch (ph : phase) : tensor -> tensor -> M Q :=
  match ph with Training => train_one_batch | Validating => val_one_batch end.

Definition run_pass (ph : phase) (epoch : Z) (loader : list batch) (verbose : Z)
  : M row :=
  set_train_mode (phase_flag ph);;
  timer_do timer_start;;
  for_enumerate 1 loader (fun i b =>
    one_batch ph (fst (fst b)) (snd (fst b));;
    report ph epoch i (Z.of_nat (length loader)) verbose);;
  result ← get_metrics_dict (phase_prefix ph) epoch;
  reset_metrics;;
  mret result.

Definition train_one_epoch (epoch : Z) (train_loader val_loader : list batch)
    (verbose : Z) : M row :=
  train_result ← run_pass Training epoch train_loader verbose;
  val_result ← run_pass Validating epoch val_loader verbose;
  t ← get_self;
  o ← attr_of (optimizer t) "param_groups";
  g ← match param_groups o with
      | g :: _ => mret g
      | [] => raise IndexError
      end;
  let result :=
    dict_update
      (dict_update (dict_set "lr" (CFloat (Some (lr g)))
                      (dict_set "Epoch" (CInt epoch) []))
                   train_result)
      val_result in
  h ← attr_of (history t) "append";
  update_self (with_history (Some (frame_append h result)));;
  mret result.

Definition history_to_csv (filename : string) : M unit :=
  t ← get_self;
  h ← attr_of (history t) "to_csv";
  update_world (fun w => with_fs (<[filename := CsvFile h]> (fs w)) w).

(** The dictionary [save_checkpoint] hands to [torch.save]. *)
Definition checkpoint_of (m : Model) (o : Optimizer) (h : option DataFrame)
  : dict pyobj :=
  [ ("model", PStateDict (parameters m));
    ("optimizer", POptimizer o);
    ("history", match h with Some f => PFrame f | None => PNone end) ].

Definition build_checkpoint : M (dict pyobj) :=
  t ← get_self;
  m ← attr_of (model t) "state_dict";
  o ← attr_of (optimizer t) "state_dict";
  mret (checkpoint_of m o (history t)).

Definition save_checkpoint (filename : string) : M unit :=
  print (OutSaving filename);;
  checkpoints ← build_checkpoint;
  update_world (fun w => with_fs (torch_save checkpoints filename (fs w)) w).

(** [save_checkpoint] when the write stops after [k] file operations: the
    file system keeps what was written and the error reaches the caller. *)
Definition save_checkpoint_interrupted (k : nat) (filename : string) : M unit :=
  print (OutSaving filename);;
  checkpoints ← build_checkpoint;
  update_world (fun w =>
    with_fs (torch_save_interrupted k checkpoints filename (fs w)) w);;
  raise (RuntimeError "write failed").

Definition load_checkpoint (filename : string) : M (dict pyobj) :=
  s ← (fun s => (Ok s, s));
  checkpoints ← lift (torch_load filename (fs (world s)));
  match model (self s) with
  | Some m =>
      v ← lift (dict_item "model" checkpoints);
      match v with
      | PStateDict sd =>
          m' ← lift (model_load_state_dict m sd);
          update_self (with_model (Some m'))
      | _ => raise TypeError
      end
  | None => mret tt
  end;;
  match optimizer (self s) with
  | Some o =>
      v ← lift (dict_item "optimizer" checkpoints);
      match v with
      | POptimizer sd =>
          o' ← lift (optimizer_load_state_dict o sd);
          update_self (with_optimizer (Some o'))
      | _ => raise TypeError
      end
  | None => mret tt
  end;;
  match history (self s) with
  | Some _ =>
      v ← lift (dict_item "history" checkpoints);
      match v with
      | PFrame h => update_self (with_history (Some h))
      | PNone => update_self (with_history None)
      | _ => raise TypeError
      end
  | None => mret tt
  end;;
  mret checkpoints.

(** [self.verbose(result)]. *)
Definition verbose_result (r : row) : M unit := print (OutResult r).

Definition step_scheduler (sch : option scheduler) : M (option scheduler) :=
  match sch with
  | None => mret None
  | Some sc =>
      t ← get_self;
      match optimizer t with
      | Some o =>
          let '(sc', o') := scheduler_step sc o in
          update_self (with_optimizer (Some o'));;
          mret (Some sc')
      | None => mret (Some sc)
      end
  end.

(** The body of the epoch loop of [train]; [train_timer] and the scheduler
    are the loop's local state. *)
Definition train_epoch (num_epochs : Z) (train_loader val_loader : list batch)
    (verbose save_checkpoint_per_num_epochs : Z) (checkpoints_dir : string)
    (local : Timer * option scheduler) (epoch : Z)
  : M (Timer * option scheduler) :=
  let '(txt, train_timer) := timer_call (fst local) epoch num_epochs in
  print (OutEpoch epoch num_epochs txt);;
  result ← train_one_epoch epoch train_loader val_loader verbose;
  verbose_result result;;
  history_to_csv (path_join checkpoints_dir "history.csv");;
  sch ← step_scheduler (snd local);
  (if Z.ltb 0 save_checkpoint_per_num_epochs
   then r ← lift (py_mod epoch save_checkpoint_per_num_epochs);
        if Z.eqb r 0
        then save_checkpoint (path_join checkpoints_dir (epoch_label epoch))
        else mret tt
   else mret tt);;
  mret (train_timer, sch).

Fixpoint for_epochs (epochs : list Z) (local : Timer * option scheduler)
    (body : Timer * option scheduler -> Z -> M (Timer * option scheduler))
  : M unit :=
  match epochs with
  | [] => mret tt
  | e :: rest => local' ← body local e; for_epochs rest local' body
  end.

Definition train (num_epochs : Z) (train_loader val_loader : list batch)
    (epoch_scheduler : option scheduler)
    (verbose save_checkpoint_per_num_epochs : Z) (checkpoints_dir : string)
  : M unit :=
  for_epochs (seqZ 1 num_epochs) (timer_new, epoch_scheduler)
    (train_epoch num_epochs train_loader val_loader verbose
                 save_checkpoint_per_num_epochs checkpoints_dir).

(** The last lines of train.py: train, then the final explicit save. *)
Definition train_script (num_epochs : Z) (train_loader val_loader : list batch)
    (epoch_scheduler : option scheduler)
    (verbose save_checkpoint_per_num_epochs : Z) (checkpoints_dir : string)
  : M unit :=
  train num_epochs train_loader val_loader epoch_scheduler verbose
        save_checkpoint_per_num_epochs checkpoints_dir;;
  save_checkpoint (path_join checkpoints_dir "checkpoint.pkl");;
  history_to_csv (path_join checkpoints_dir "history.csv").

End Trainer.

(** ** A concrete trainer for the closed examples

    A one-weight linear model [y = w * x] on flat rational tensors, the
    squared-error loss with its exact gradient, plain SGD, no scheduler
    state and a timer that measures nothing.  The metric collection holds
    the threshold accuracy at 1.25. *)
Module Linear.
#[local] Open Scope Q_scope.

(** [torch.allclose] with its default tolerances:
    [|a - b| <= atol + rtol * |b|] elementwise, rtol = 1e-5, atol = 1e-8. *)
Definition close (a b : Q) : bool :=
  Qle_bool (Qabs (a - b)) ((1 # 100000000) + (1 # 100000) * Qabs b).

Definition qallclose (a b : qtensor) : bool :=
  forallb (fun ab => close (fst ab) (snd ab)) (zip a b).

#[export] Instance numerics : Numerics :=
  {| tensor := qtensor; shape := fun t => [length t]; mvalue := option Q |}.

#[global] Instance comparison : Comparison := {| allclose := qallclose |}.

Definition weight_of (sd : state_dict) : Q :=
  match sd !! "w"%string with
  | Some (w :: _) => w
  | _ => 0
  end.

Definition linear (w : Q) (x : qtensor) : qtensor := map (Qmult w) x.

Definition mean (l : qtensor) : Q := Qsum l / inject_Z (Z.of_nat (length l)).

(** [nn.MSELoss()]. *)
Definition mse (p t : qtensor) : result Q :=
  match elementwise (fun a b => (a - b) * (a - b)) p t with
  | Ok sq => Ok (mean sq)
  | Raise e => Raise e
  end.

(** Gradient of the loss in [w], and one SGD step at the group's rate. *)
Definition grad (w : Q) (x y : qtensor) : Q :=
  mean (zip_with (fun a b => 2 * (w * a - b) * a) x y).

Definition sgd_step (m : Model) (o : Optimizer) (x y : qtensor) : Model * Optimizer :=
  let w := weight_of (parameters m) in
  let rate := match param_groups o with g :: _ => lr g | [] => 0 end in
  (mkModel (training m) (<["w"%string := [Qred (w - rate * grad w x y)]]> (parameters m)), o).

#[export] Instance collaborators : Collaborators :=
  {| forward := fun _ sd x => linear (weight_of sd) x;
     criterion := mse;
     optim_step := sgd_step;
     scheduler := unit;
     scheduler_step := fun s o => (s, o);
     Timer := unit;
     timer_new := tt;
     timer_start := fun t => t;
     timer_stop := fun t => (0, t);
     timer_reset := fun t => t;
     timer_call := fun t _ _ => (""%string, t) |}.

(** The two states of a [MeanMetric] as registered 0-d tensors. *)
Definition states_of (st : MeanMetric.state) : dict qtensor :=
  [ ("value"%string, [MeanMetric.value st]);
    ("weight"%string, [MeanMetric.weight st]) ].

Definition scalar_state (key : string) (d : dict qtensor) : Q :=
  match dict_get key d with
  | Some (x :: _) => x
  | _ => 0
  end.

Definition state_of (d : dict qtensor) : MeanMetric.state :=
  MeanMetric.mk (scalar_state "value" d) (scalar_state "weight" d).

(** [ThresholdAccuracy(threshold)] as a metric object. *)
Definition threshold_accuracy (threshold : Q) : Metric :=
  mkMetric (states_of MeanMetric.default) (states_of MeanMetric.default)
           (fun d preds target =>
              match ThresholdAccuracy.update threshold (state_of d) preds target with
              | Ok st => Ok (states_of st)
              | Raise e => Raise e
              end)
           (fun d => ThresholdAccuracy.compute (state_of d)).

Definition the_model (w : Q) : Model := mkModel false {["w"%string := [w]]}.
Definition the_optimizer (rate : Q) : Optimizer :=
  mkOptimizer [mkGroup rate [] 1] ∅.
Definition the_metrics : MetricCollection :=
  mkCollection "" [("TA1"%string, threshold_accuracy (5 # 4))] None.

Definition trainer (w rate : Q) : BaseTrainer :=
  new_trainer (Some (the_model w)) (Some (the_optimizer rate)) the_metrics.

Definition empty_world : World := mkWorld ∅ [] [] true.

Definition start (w rate : Q) : machine := mkMachine (trainer w rate) empty_world.

End Linear.

(** * Facts *)

(** ** Rational arithmetic *)

Lemma Qltb_lt (a b : Q) : Qltb a b = true <-> (a < b)%Q.
Proof.
  unfold Qltb. rewrite negb_true_iff, <- not_true_iff_false, Qle_bool_iff.
  split; [apply Qnot_le_lt | apply Qlt_not_le].
Qed.

Lemma Qltb_ge (a b : Q) : Qltb a b = false <-> (b <= a)%Q.
Proof. unfold Qltb. rewrite negb_false_iff. apply Qle_bool_iff. Qed.

Lemma Qclamp_min_spec (m x : Q) :
  ((m <= x)%Q /\ Qclamp_min m x = x) \/ ((x < m)%Q /\ Qclamp_min m x = m).
Proof.
  unfold Qclamp_min. destruct (Qle_bool m x) eqn:E.
  - left. split; [by apply Qle_bool_iff | done].
  - right. split; [|done]. apply Qnot_le_lt. rewrite <- Qle_bool_iff. congruence.
Qed.

Lemma Qmaximum_spec (a b : Q) :
  ((a <= b)%Q /\ Qmaximum a b = b) \/ ((b < a)%Q /\ Qmaximum a b = a).
Proof.
  unfold Qmaximum. destruct (Qle_bool a b) eqn:E.
  - left. split; [by apply Qle_bool_iff | done].
  - right. split; [|done]. apply Qnot_le_lt. rewrite <- Qle_bool_iff. congruence.
Qed.

Lemma Qplus_comm_eq (x y : Q) : (x + y)%Q = (y + x)%Q.
Proof.
  destruct x as [a b], y as [c d]. unfold Qplus; simpl.
  f_equal; [apply Z.add_comm | apply Pos.mul_comm].
Qed.

Lemma Qmult_comm_eq (x y : Q) : (x * y)%Q = (y * x)%Q.
Proof.
  destruct x as [a b], y as [c d]. unfold Qmult; simpl.
  f_equal; [apply Z.mul_comm | apply Pos.mul_comm].
Qed.

Lemma Qsum_const (c : Q) {A} (l : list A) :
  (Qsum (map (fun _ => c) l) == inject_Z (Z.of_nat (length l)) * c)%Q.
Proof.
  induction l as [|x l IH]; [simpl; ring|].
  cbn [map Qsum fold_right length]. fold (Qsum (map (fun _ => c) l)).
  rewrite IH, Nat2Z.inj_succ, <- Z.add_1_r, inject_Z_plus. ring.
Qed.

Lemma Qsum_scale_1 (l : list Q) : (Qsum (map (fun v => v * 1) l) == Qsum l)%Q.
Proof. induction l as [|x l IH]; simpl; [ring | rewrite IH; ring]. Qed.

Lemma inject_nat_pos (n : nat) : (0 < n)%nat -> (0 < inject_Z (Z.of_nat n))%Q.
Proof. intros Hn. change 0%Q with (inject_Z 0). rewrite <- Zlt_Qlt. lia. Qed.

(** ** MeanMetric *)

Lemma elementwise_ok {A B C} (f : A -> B -> C) (x : list A) (y : list B) :
  length x = length y -> elementwise f x y = Ok (zip_with f x y).
Proof. intros E. unfold elementwise. by rewrite E, Nat.eqb_refl. Qed.

Lemma MeanMetric_update_value st vals :
  (MeanMetric.value (MeanMetric.update st vals 1) == MeanMetric.value st + Qsum vals)%Q.
Proof.
  destruct vals as [|v vals]; [simpl; ring|].
  unfold MeanMetric.update. cbn [MeanMetric.value]. by rewrite Qsum_scale_1.
Qed.

Lemma MeanMetric_update_weight st vals :
  (MeanMetric.weight (MeanMetric.update st vals 1)
   == MeanMetric.weight st + inject_Z (Z.of_nat (length vals)))%Q.
Proof.
  destruct vals as [|v vals]; [simpl; ring|].
  unfold MeanMetric.update. cbn [MeanMetric.weight]. rewrite Qsum_const. ring.
Qed.

Lemma MeanMetric_compute_pos st :
  (0 < MeanMetric.weight st)%Q ->
  MeanMetric.compute st = Some (MeanMetric.value st / MeanMetric.weight st)%Q.
Proof.
  intros Hw. unfold MeanMetric.compute.
  destruct (Qeq_bool _ 0) eqn:E; [|done].
  apply Qeq_bool_eq in E. rewrite E in Hw. by apply Qlt_irrefl in Hw.
Qed.

(** ** ThresholdAccuracy *)

Lemma floor_pos : (0 < ThresholdAccuracy.floor)%Q.
Proof. reflexivity. Qed.

Lemma clamp_floor_pos (x : Q) : (0 < Qclamp_min ThresholdAccuracy.floor x)%Q.
Proof.
  pose proof floor_pos.
  destruct (Qclamp_min_spec ThresholdAccuracy.floor x) as [[? ->]|[? ->]]; lra.
Qed.

(** The ratio never drops below 1. *)
Lemma ratio_same (t : Q) : (ThresholdAccuracy.ratio t t == 1)%Q.
Proof.
  unfold ThresholdAccuracy.ratio; cbv zeta.
  pose proof (clamp_floor_pos t) as Hc.
  set (c := Qclamp_min ThresholdAccuracy.floor t) in *.
  assert (c / c == 1)%Q as E by (field; lra).
  by destruct (Qmaximum_spec (c / c) (c / c)) as [[_ ->]|[_ ->]].
Qed.

Lemma ratio_double (t : Q) :
  (5 # 4 <= ThresholdAccuracy.ratio (2 * t) t)%Q <->
  ((5 # 8) * ThresholdAccuracy.floor <= t)%Q.
Proof.
  unfold ThresholdAccuracy.ratio; cbv zeta.
  pose proof floor_pos as Hf. set (f := ThresholdAccuracy.floor) in *.
  destruct (Qclamp_min_spec f t) as [[Ht ->]|[Ht ->]];
    destruct (Qclamp_min_spec f (2 * t)) as [[Hp ->]|[Hp ->]]; try lra.
  - assert (2 * t / t == 2)%Q as E1 by (field; lra).
    assert (t / (2 * t) == 1 # 2)%Q as E2 by (field; lra).
    destruct (Qmaximum_spec (2 * t / t) (t / (2 * t))) as [[? ->]|[? ->]];
      rewrite ?E1, ?E2 in *; split; intros; lra.
  - assert (0 < t)%Q by lra.
    assert (2 * t / f == t * (2 / f))%Q as E1 by (field; lra).
    assert (f / (2 * t) <= 1)%Q as E2.
    { apply Qle_shift_div_r; lra. }
    assert (0 < 2 / f)%Q as E3 by (apply Qlt_shift_div_l; lra).
    assert (f * (2 / f) == 2)%Q as E4 by (field; lra).
    assert ((5 # 8) * f * (2 / f) == 5 # 4)%Q as E5 by (field; lra).
    assert ((5 # 8) * f <= t <-> 5 # 4 <= 2 * t / f)%Q as K.
    { rewrite E1. split; intros Hle.
      - assert ((5 # 8) * f * (2 / f) <= t * (2 / f))%Q
          by (apply Qmult_le_compat_r; lra). lra.
      - apply Qnot_lt_le; intros Hlt.
        assert (t * (2 / f) < (5 # 8) * f * (2 / f))%Q
          by (apply Qmult_lt_compat_r; lra). lra. }
    destruct (Qmaximum_spec (2 * t / f) (f / (2 * t))) as [[? ->]|[? ->]];
      split; intros; lra.
  - assert (f / f == 1)%Q as E by (field; lra).
    destruct (Qmaximum_spec (f / f) (f / f)) as [[? ->]|[? ->]];
      rewrite E; split; intros; lra.
Qed.

(** Number of element pairs whose ratio is under the threshold. *)
Definition hits (thr : Q) (pts : list (Q * Q)) : nat :=
  length (filter (fun pt => Qltb (ThresholdAccuracy.ratio (fst pt) (snd pt)) thr = true) pts).

Lemma mask_sum_hits thr (pts : list (Q * Q)) :
  (Qsum (zip_with (ThresholdAccuracy.mask_elt thr) (map fst pts) (map snd pts))
   == inject_Z (Z.of_nat (hits thr pts)))%Q.
Proof.
  unfold hits. induction pts as [|[p t] pts IH]; [reflexivity|].
  cbn [map zip_with Qsum fold_right fst snd].
  fold (Qsum (zip_with (ThresholdAccuracy.mask_elt thr) (map fst pts) (map snd pts))).
  rewrite IH, filter_cons. cbn [fst snd]. unfold ThresholdAccuracy.mask_elt.
  destruct (Qltb _ _) eqn:E.
  - rewrite decide_True by done. cbn [length].
    rewrite Nat2Z.inj_succ, <- Z.add_1_r, inject_Z_plus. ring.
  - rewrite decide_False by congruence. ring.
Qed.

Lemma threshold_update_pairs thr st (pts : list (Q * Q)) :
  exists st',
    ThresholdAccuracy.update thr st (map fst pts) (map snd pts) = Ok st' /\
    (MeanMetric.value st' == MeanMetric.value st + inject_Z (Z.of_nat (hits thr pts)))%Q /\
    (MeanMetric.weight st' == MeanMetric.weight st + inject_Z (Z.of_nat (length pts)))%Q.
Proof.
  unfold ThresholdAccuracy.update.
  rewrite elementwise_ok by (by rewrite !length_map).
  eexists; split; [reflexivity|]. split.
  - by rewrite MeanMetric_update_value, mask_sum_hits.
  - by rewrite MeanMetric_update_weight, length_zip_with, !length_map, Nat.min_id.
Qed.

Lemma threshold_first_batch thr (pt : Q * Q) (pts : list (Q * Q)) :
  exists st' c,
    ThresholdAccuracy.update thr MeanMetric.default
      (map fst (pt :: pts)) (map snd (pt :: pts)) = Ok st' /\
    ThresholdAccuracy.compute st' = Some c /\
    (c == inject_Z (Z.of_nat (hits thr (pt :: pts)))
          / inject_Z (Z.of_nat (length (pt :: pts))))%Q.
Proof.
  destruct (threshold_update_pairs thr MeanMetric.default (pt :: pts))
    as (st' & Hup & Hv & Hw).
  cbn [MeanMetric.default MeanMetric.value MeanMetric.weight] in Hv, Hw.
  pose proof (inject_nat_pos (length (pt :: pts)) ltac:(simpl; lia)) as Hpos.
  exists st', (MeanMetric.value st' / MeanMetric.weight st')%Q.
  split; [done|]. split.
  - apply MeanMetric_compute_pos. rewrite Hw. lra.
  - rewrite Hv, Hw. field. lra.
Qed.

Lemma hits_all thr (pts : list (Q * Q)) :
  Forall (fun pt => Qltb (ThresholdAccuracy.ratio (fst pt) (snd pt)) thr = true) pts ->
  hits thr pts = length pts.
Proof.
  unfold hits. induction 1 as [|pt pts Hpt _ IH]; [done|].
  rewrite filter_cons, decide_True by done. simpl. by rewrite IH.
Qed.

Lemma hits_none thr (pts : list (Q * Q)) :
  hits thr pts = 0%nat <->
  Forall (fun pt => Qltb (ThresholdAccuracy.ratio (fst pt) (snd pt)) thr = false) pts.
Proof.
  unfold hits. induction pts as [|pt pts IH]; [by split|].
  rewrite filter_cons, Forall_cons. destruct (Qltb _ _) eqn:E.
  - rewrite decide_True by done. simpl. split; [lia | by intros [? _]].
  - rewrite decide_False by congruence. rewrite IH. tauto.
Qed.

Lemma Qdiv_zero_iff (a b : Q) : (0 < b)%Q -> (a / b == 0 <-> a == 0)%Q.
Proof.
  intros Hb. split; intros E.
  - assert (a == a / b * b)%Q as -> by (field; lra). rewrite E. ring.
  - rewrite E. field. lra.
Qed.

Lemma ratio_double_above_floor (t : Q) :
  (ThresholdAccuracy.floor <= t)%Q -> (5 # 4 <= ThresholdAccuracy.ratio (2 * t) t)%Q.
Proof.
  intros Ht. apply ratio_double. pose proof floor_pos. lra.
Qed.

Lemma ratio_both_clamped (p t : Q) :
  (p <= ThresholdAccuracy.floor)%Q -> (t <= ThresholdAccuracy.floor)%Q ->
  (ThresholdAccuracy.ratio p t == 1)%Q.
Proof.
  intros Hp Ht. pose proof floor_pos as Hf.
  unfold ThresholdAccuracy.ratio; cbv zeta.
  assert (forall x, (x <= ThresholdAccuracy.floor)%Q ->
            (Qclamp_min ThresholdAccuracy.floor x == ThresholdAccuracy.floor)%Q) as Hc.
  { intros x Hx.
    destruct (Qclamp_min_spec ThresholdAccuracy.floor x) as [[? ->]|[? ->]]; lra. }
  pose proof (Hc p Hp) as Ep. pose proof (Hc t Ht) as Et.
  set (p' := Qclamp_min ThresholdAccuracy.floor p) in *.
  set (t' := Qclamp_min ThresholdAccuracy.floor t) in *.
  assert (p' / t' == 1)%Q as E1 by (rewrite Ep, Et; field; lra).
  assert (t' / p' == 1)%Q as E2 by (rewrite Ep, Et; field; lra).
  by destruct (Qmaximum_spec (p' / t') (t' / p')) as [[_ ->]|[_ ->]].
Qed.

(** C9, as amended: [ThresholdAccuracy.update] clamps prediction and target
    to the floor 1e-6, forms [max(p/t, t/p)] per element and adds the number
    of elements whose ratio is strictly under the threshold to [value] and
    the number of elements to [weight], so that [compute] is their
    fraction.  With threshold 1.25 a non-empty prediction equal to its
    target gives 1.  A prediction equal to twice a non-empty target gives 0
    when every target element is at or above the floor, so that nothing is
    clamped; it gives 1, not 0, when every target element is at most half
    the floor, where prediction and target are both clamped to the floor. *)
Theorem threshold_accuracy_fraction :
  (forall thr st (pts : list (Q * Q)),
      exists st',
        ThresholdAccuracy.update thr st (map fst pts) (map snd pts) = Ok st' /\
        (MeanMetric.value st' == MeanMetric.value st + inject_Z (Z.of_nat (hits thr pts)))%Q /\
        (MeanMetric.weight st' == MeanMetric.weight st + inject_Z (Z.of_nat (length pts)))%Q)
  /\ (forall (t : Q) (ts : qtensor),
         exists st' c,
           ThresholdAccuracy.update (5 # 4) MeanMetric.default (t :: ts) (t :: ts) = Ok st' /\
           ThresholdAccuracy.compute st' = Some c /\ (c == 1)%Q)
  /\ (forall (t : Q) (ts : qtensor),
         exists st' c,
           ThresholdAccuracy.update (5 # 4) MeanMetric.default
             (map (Qmult 2) (t :: ts)) (t :: ts) = Ok st' /\
           ThresholdAccuracy.compute st' = Some c /\
           (Forall (fun x => (ThresholdAccuracy.floor <= x)%Q) (t :: ts) -> (c == 0)%Q) /\
           (Forall (fun x => (2 * x <= ThresholdAccuracy.floor)%Q) (t :: ts) -> (c == 1)%Q)).
Proof.
  split; [exact threshold_update_pairs|]. split.
  - intros t ts.
    destruct (threshold_first_batch (5 # 4) (t, t) (map (fun x => (x, x)) ts))
      as (st' & c & Hup & Hc & Hval).
    change ((t, t) :: map (fun x => (x, x)) ts)
      with (map (fun x : Q => (x, x)) (t :: ts)) in *.
    rewrite !map_map, map_id in Hup. cbn [fst snd] in Hup. rewrite map_id in Hup.
    exists st', c. do 2 (split; [done|]).
    rewrite Hval, hits_all.
    + pose proof (inject_nat_pos (length (map (fun x : Q => (x, x)) (t :: ts)))
                    ltac:(simpl; lia)). field. lra.
    + apply Forall_map, Forall_forall. intros x _. cbn [fst snd].
      apply Qltb_lt. rewrite ratio_same. lra.
  - intros t ts.
    destruct (threshold_first_batch (5 # 4) (2 * t, t)%Q (map (fun x => (2 * x, x)%Q) ts))
      as (st' & c & Hup & Hc & Hval).
    change ((2 * t, t)%Q :: map (fun x => (2 * x, x)%Q) ts)
      with (map (fun x : Q => (2 * x, x)%Q) (t :: ts)) in *.
    rewrite !map_map in Hup. cbn [fst snd] in Hup. rewrite map_id in Hup.
    exists st', c. do 2 (split; [done|]).
    pose proof (inject_nat_pos (length (map (fun x : Q => (2 * x, x)%Q) (t :: ts)))
                  ltac:(simpl; lia)) as Hpos.
    split.
    + intros Hall. rewrite Hval, Qdiv_zero_iff by done.
      change 0%Q with (inject_Z 0) at 1. rewrite inject_Z_injective.
      rewrite <- Nat2Z.inj_0, Nat2Z.inj_iff, hits_none, Forall_map.
      eapply Forall_impl; [exact Hall|]. intros x Hx. cbn [fst snd].
      cbv beta in Hx. apply Qltb_ge. by apply ratio_double_above_floor.
    + intros Hall. rewrite Hval, hits_all; [field; lra|].
      apply Forall_map. eapply Forall_impl; [exact Hall|]. intros x Hx.
      cbn [fst snd]. cbv beta in Hx. apply Qltb_lt. pose proof floor_pos.
      rewrite ratio_both_clamped; lra.
Qed.

(** C9, counterexample: a strictly positive target under the floor and a
    prediction of twice its value are clamped to the same number, so the
    accuracy is 1, not 0. *)
Lemma threshold_accuracy_double_not_zero :
  let target := [1 # 10000000]%Q in
  let preds := map (Qmult 2) target in
  Forall (fun x => (0 < x)%Q) target /\
  exists st',
    ThresholdAccuracy.update (5 # 4) MeanMetric.default preds target = Ok st' /\
    ThresholdAccuracy.compute st' = Some (1 # 1)%Q /\
    ~ ((1 # 1) == 0)%Q.
Proof.
  cbv zeta. split; [by repeat constructor|].
  eexists. split; [vm_compute; reflexivity|]. split; [reflexivity | discriminate].
Qed.

(** ** Log10AverageError *)

Section Log10Facts.
Import Log10AverageError.
#[local] Open Scope R_scope.


Lemma ln10_pos : 0 < ln 10.
Proof. rewrite <- ln_1. apply ln_increasing; lra. Qed.





End Log10Facts.




(** ** The EMA tracker *)

(** [w·a + (1-w)·p] elementwise, the update the tracker is meant to make. *)
Definition blend (w : Q) (a p : qtensor) : qtensor :=
  zip_with (fun x y => w * x + (1 - w) * y)%Q a p.

Definition same_shapes (a b : list qtensor) : Prop :=
  Forall2 (fun x y => length x = length y) a b.

Lemma ema_avg_blend (w : Q) (a p : qtensor) (n : Z) :
  length a = length p -> EMA.ema_avg w a p n = Ok (blend w a p).
Proof.
  intros E. unfold EMA.ema_avg, EMA.tadd, EMA.tscale, blend.
  rewrite elementwise_ok by (by rewrite !length_map). f_equal.
  revert p E. induction a as [|x a IH]; intros [|y p] E; try done.
  cbn [map zip_with]. injection E as E. rewrite (IH p E). f_equal.
  rewrite (Qplus_comm_eq (y * (1 - w)) (x * w)).
  by rewrite (Qmult_comm_eq x w), (Qmult_comm_eq y (1 - w)).
Qed.

Lemma update_all_first avg_fn (swa model : list qtensor) :
  same_shapes swa model -> EMA.update_all avg_fn 0 swa model = Ok model.
Proof.
  induction 1 as [|a p swa model E _ IH]; [done|].
  cbn [EMA.update_all]. unfold EMA.update_one, EMA.copy_. cbn [Z.eqb].
  by rewrite E, Nat.eqb_refl, IH.
Qed.

Lemma update_all_later (w : Q) (n : Z) (swa model : list qtensor) :
  n <> 0%Z -> same_shapes swa model ->
  EMA.update_all (EMA.ema_avg w) n swa model = Ok (zip_with (blend w) swa model).
Proof.
  intros Hn. induction 1 as [|a p swa model E _ IH]; [done|].
  cbn [EMA.update_all zip_with]. unfold EMA.update_one, EMA.copy_.
  destruct (Z.eqb_spec n 0) as [|_]; [done|].
  rewrite ema_avg_blend by done.
  assert (length a = length (blend w a p)) as ->.
  { unfold blend. rewrite length_zip_with. lia. }
  by rewrite Nat.eqb_refl, IH.
Qed.

Lemma run_counts avg_fn (steps : list (list qtensor)) am0 am :
  EMA.run avg_fn am0 steps = Ok am ->
  EMA.n_averaged am = (EMA.n_averaged am0 + Z.of_nat (length steps))%Z.
Proof.
  revert am0. induction steps as [|theta steps IH]; intros am0.
  - intros [= <-]. simpl. lia.
  - cbn [EMA.run]. unfold EMA.update_parameters.
    destruct (EMA.update_all _ _ _ _) as [ts|e]; [|done].
    intros Hrun. apply IH in Hrun. cbn [EMA.n_averaged] in Hrun.
    rewrite Hrun. cbn [length]. lia.
Qed.

(** C2: whatever the weight [w] (in particular in [0,1)), after any sequence
    of updates of a tracker built on the model, the next update copies the
    live parameters exactly when it is the very first one (no update before
    it) and otherwise replaces each shadow tensor by [w·shadow + (1-w)·live]
    elementwise; the counter then holds the number of updates made. *)
Theorem ema_tracker_updates (w : Q) (model0 : list qtensor)
    (steps : list (list qtensor)) (am : EMA.AveragedModel) (theta : list qtensor) :
  EMA.run (EMA.ema_avg w) (EMA.averaged_model model0) steps = Ok am ->
  same_shapes (EMA.shadow am) theta ->
  EMA.update_parameters (EMA.ema_avg w) am theta =
  Ok (EMA.mk (match steps with
              | [] => theta
              | _ :: _ => zip_with (blend w) (EMA.shadow am) theta
              end)
             (Z.of_nat (length steps) + 1)).
Proof.
  intros Hrun Hshape. pose proof (run_counts _ _ _ _ Hrun) as Hn.
  cbn [EMA.averaged_model EMA.n_averaged] in Hn.
  unfold EMA.update_parameters. rewrite Hn. destruct steps as [|s steps].
  - cbn [length Z.of_nat Z.add]. by rewrite update_all_first.
  - rewrite update_all_later; [done | cbn [length]; lia | done].
Qed.

Lemma ema_tracker_updates_witness :
  let w := (9 # 10)%Q in
  let am := EMA.mk [[3; 4]%Q] 1 in
  EMA.run (EMA.ema_avg w) (EMA.averaged_model [[1; 2]%Q]) [[[3; 4]%Q]] = Ok am /\
  same_shapes (EMA.shadow am) [[5; 6]%Q] /\
  EMA.update_parameters (EMA.ema_avg w) am [[5; 6]%Q] =
  Ok (EMA.mk (zip_with (blend w) [[3; 4]%Q] [[5; 6]%Q]) 2).
Proof.
  cbv zeta.
  assert (same_shapes [[3; 4]%Q] [[5; 6]%Q]) as Hs by (by repeat constructor).
  split; [reflexivity|]. split; [exact Hs|].
  exact (ema_tracker_updates (9 # 10) [[1; 2]%Q] [[[3; 4]%Q]] _ [[5; 6]%Q] eq_refl Hs).
Defined.

(** ** Files written by [torch.save] *)

Section FileFacts.
Context `{Numerics}.

Lemma run_writes (f : string) (rs acc : dict pyobj) (fs : gmap string file) :
  run_ops (map (OpWrite f) rs) (<[f := Archive acc false]> fs)
  = <[f := Archive (acc ++ rs) false]> fs.
Proof.
  revert acc. induction rs as [|r rs IH]; intros acc.
  - by rewrite app_nil_r.
  - cbn [map run_ops fold_left exec_op]. rewrite lookup_insert_eq, insert_insert_eq.
    fold (run_ops (map (OpWrite f) rs) (<[f:=Archive (acc ++ [r]) false]> fs)).
    by rewrite IH, <- app_assoc.
Qed.

Lemma torch_save_insert (obj : dict pyobj) (f : string) (fs : gmap string file) :
  torch_save obj f fs = <[f := Archive obj true]> fs.
Proof.
  unfold torch_save, torch_save_ops, run_ops.
  cbn [fold_left exec_op]. rewrite fold_left_app.
  fold (run_ops (map (OpWrite f) obj) (<[f:=Archive [] false]> fs)).
  rewrite run_writes. cbn [fold_left exec_op app].
  by rewrite lookup_insert_eq, insert_insert_eq.
Qed.

(** Stopping after the open and [k] record writes leaves an unsealed
    archive with the first [k] records at the very path being written. *)
Lemma torch_save_interrupted_insert (k : nat) (obj : dict pyobj) (f : string)
    (fs : gmap string file) :
  k <= length obj ->
  torch_save_interrupted (S k) obj f fs = <[f := Archive (firstn k obj) false]> fs.
Proof.
  intros Hk. unfold torch_save_interrupted, torch_save_ops.
  cbn [firstn]. rewrite take_app_le by (rewrite length_map; lia).
  rewrite firstn_map. unfold run_ops at 1. cbn [fold_left exec_op].
  fold (run_ops (map (OpWrite f) (firstn k obj)) (<[f:=Archive [] false]> fs)).
  by rewrite run_writes.
Qed.

Lemma torch_load_saved (obj : dict pyobj) (f : string) (fs : gmap string file) :
  torch_load f (torch_save obj f fs) = Ok obj.
Proof. unfold torch_load. by rewrite torch_save_insert, lookup_insert_eq. Qed.

(** A strict load of a state dict of the same keys and shapes installs it. *)
Lemma model_load_same_structure (m : Model) (sd : state_dict) :
  shape <$> parameters m = shape <$> sd ->
  model_load_state_dict m sd = Ok (mkModel (training m) sd).
Proof.
  intros E. unfold model_load_state_dict. rewrite bool_decide_eq_true_2 by done.
  do 2 f_equal. apply map_eq. intros k. rewrite map_lookup_imap.
  assert ((shape <$> parameters m) !! k = (shape <$> sd) !! k) as Ek by (by rewrite E).
  rewrite !lookup_fmap in Ek.
  destruct (parameters m !! k) as [old|], (sd !! k) as [new|]; by simplify_eq/=.
Qed.

Lemma regroup_same_sizes (own saved : list param_group) :
  n_params <$> own = n_params <$> saved ->
  zip_with (fun g ng => mkGroup (lr ng) (options ng) (n_params g)) own saved = saved.
Proof.
  revert saved. induction own as [|g own IH]; intros [|ng saved] E; try done.
  injection E as Eg E. cbn [zip_with]. rewrite (IH saved E), Eg. by destruct ng.
Qed.

Lemma optimizer_load_same_structure (o sd : Optimizer) :
  n_params <$> param_groups o = n_params <$> param_groups sd ->
  optimizer_load_state_dict o sd = Ok sd.
Proof.
  intros E. unfold optimizer_load_state_dict.
  assert (length (param_groups o) = length (param_groups sd)) as ->.
  { by rewrite <- (length_fmap n_params (param_groups o)), E, length_fmap. }
  rewrite Nat.eqb_refl, bool_decide_eq_true_2 by done. cbn [negb].
  rewrite regroup_same_sizes by done. by destruct sd.
Qed.

End FileFacts.

(** ** Checkpoints of a trainer *)

Section CheckpointFacts.
Context `{Collaborators} `{!Comparison}.

Lemma save_checkpoint_run (t : BaseTrainer) (w : World) (filename : string)
    (m : Model) (o : Optimizer) :
  model t = Some m -> optimizer t = Some o ->
  save_checkpoint filename (mkMachine t w) =
  (Ok tt,
   mkMachine t
     (with_fs (<[filename := Archive (checkpoint_of m o (history t)) true]> (fs w))
        (with_stdout (stdout w ++ [OutSaving filename]) w))).
Proof.
  intros Hm Ho. unfold save_checkpoint, build_checkpoint, print, update_world,
    get_self, attr_of, mbind, M_bind, mret, M_ret. cbn -[torch_save].
  rewrite Hm, Ho. cbn -[torch_save]. by rewrite torch_save_insert.
Qed.

Lemma save_checkpoint_interrupted_fs (k : nat) (t : BaseTrainer) (w : World)
    (filename : string) (m : Model) (o : Optimizer) :
  model t = Some m -> optimizer t = Some o ->
  save_checkpoint_interrupted k filename (mkMachine t w) =
  (Raise (RuntimeError "write failed"),
   mkMachine t
     (with_fs (torch_save_interrupted k (checkpoint_of m o (history t)) filename (fs w))
        (with_stdout (stdout w ++ [OutSaving filename]) w))).
Proof.
  intros Hm Ho. unfold save_checkpoint_interrupted, build_checkpoint, print,
    update_world, get_self, attr_of, raise, mbind, M_bind, mret, M_ret.
  cbn -[torch_save_interrupted]. rewrite Hm, Ho. by cbn -[torch_save_interrupted].
Qed.

Lemma load_checkpoint_run (m0 : Model) (o0 : Optimizer) (ms0 : MetricCollection)
    (w : World) (filename : string) (m : Model) (o : Optimizer)
    (h : option DataFrame) :
  fs w !! filename = Some (Archive (checkpoint_of m o h) true) ->
  shape <$> parameters m0 = shape <$> parameters m ->
  n_params <$> param_groups o0 = n_params <$> param_groups o ->
  load_checkpoint filename (mkMachine (new_trainer (Some m0) (Some o0) ms0) w) =
  (Ok (checkpoint_of m o h),
   mkMachine (with_history h
                (with_optimizer (Some o)
                   (with_model (Some (mkModel (training m0) (parameters m)))
                      (new_trainer (Some m0) (Some o0) ms0)))) w).
Proof.
  intros Hfile Hm Ho.
  unfold load_checkpoint, lift, update_self, raise, mbind, M_bind, mret, M_ret,
    torch_load. cbn. rewrite Hfile. cbn.
  rewrite model_load_same_structure by done. cbn.
  rewrite optimizer_load_same_structure by done. cbn.
  by destruct h.
Qed.

(** C1: for every trainer that has a model and an optimizer, whatever the
    files and the path, [save_checkpoint] succeeds without changing the
    trainer, and [load_checkpoint] of the same path on a fresh trainer
    whose model has the same parameter names and shapes and whose
    optimizer has the same group sizes succeeds and leaves it with the
    saved parameter values, the saved optimizer state and the saved
    history. *)
Theorem checkpoint_round_trip (t : BaseTrainer) (w : World) (filename : string)
    (m m0 : Model) (o o0 : Optimizer) (ms0 : MetricCollection) :
  model t = Some m -> optimizer t = Some o ->
  shape <$> parameters m0 = shape <$> parameters m ->
  n_params <$> param_groups o0 = n_params <$> param_groups o ->
  let saved := save_checkpoint filename (mkMachine t w) in
  let loaded :=
    load_checkpoint filename
      (mkMachine (new_trainer (Some m0) (Some o0) ms0) (world (snd saved))) in
  fst saved = Ok tt /\ self (snd saved) = t /\
  is_ok (fst loaded) = true /\
  parameters <$> model (self (snd loaded)) = Some (parameters m) /\
  optimizer (self (snd loaded)) = Some o /\
  history (self (snd loaded)) = history t.
Proof.
  intros Hm Ho Hshape Hgroups. cbv zeta.
  rewrite (save_checkpoint_run t w filename m o Hm Ho). cbn [fst snd self world].
  erewrite load_checkpoint_run; [|by apply lookup_insert_eq|done..].
  by cbn.
Qed.

(** C6, as amended: [save_checkpoint] hands the bundle to one [torch.save]
    on the target path itself, with no temporary file and no rename.  A
    save that completes leaves exactly the sealed bundle at the target path
    and touches no other path.  A save interrupted before the file is
    opened leaves the files alone; one interrupted after the open and [k]
    of the records raises and leaves an unsealed archive with those [k]
    records at the target path, whatever was there before. *)
Theorem save_checkpoint_writes_in_place (t : BaseTrainer) (w : World)
    (filename : string) (m : Model) (o : Optimizer) :
  model t = Some m -> optimizer t = Some o ->
  let bundle := checkpoint_of m o (history t) in
  Forall (fun op => match op with
                    | OpOpen p | OpWrite p _ | OpClose p => p = filename
                    | OpRename _ _ => False
                    end) (torch_save_ops bundle filename)
  /\ fst (save_checkpoint filename (mkMachine t w)) = Ok tt
  /\ fs (world (snd (save_checkpoint filename (mkMachine t w))))
     = <[filename := Archive bundle true]> (fs w)
  /\ fs (world (snd (save_checkpoint_interrupted 0 filename (mkMachine t w)))) = fs w
  /\ forall k, k <= length bundle ->
       let out := save_checkpoint_interrupted (S k) filename (mkMachine t w) in
       is_ok (fst out) = false /\
       fs (world (snd out)) = <[filename := Archive (firstn k bundle) false]> (fs w).
Proof.
  intros Hm Ho. cbv zeta. split; [|split; [|split; [|split]]].
  - unfold torch_save_ops. by repeat constructor.
  - by rewrite (save_checkpoint_run t w filename m o).
  - by rewrite (save_checkpoint_run t w filename m o).
  - by rewrite (save_checkpoint_interrupted_fs 0 t w filename m o).
  - intros k Hk. rewrite (save_checkpoint_interrupted_fs (S k) t w filename m o) by done.
    cbn [fst snd world is_ok]. split; [done|].
    cbn [with_fs fs]. by apply torch_save_interrupted_insert.
Qed.

End CheckpointFacts.

(** ** Closed instances on the linear trainer *)

Section LinearExamples.
Import Linear.
#[local] Open Scope Q_scope.

(** A trainer with one epoch on record, and a fresh one with other weights. *)
Definition seasoned : BaseTrainer :=
  with_history (Some [[("Epoch"%string, CInt 1)]]) (trainer 2 (1 # 10)).

Definition fresh : BaseTrainer :=
  new_trainer (Some (the_model 0)) (Some (the_optimizer (1 # 2))) the_metrics.

Lemma checkpoint_round_trip_witness :
  let saved := save_checkpoint "ck.pkl" (mkMachine seasoned empty_world) in
  let loaded := load_checkpoint "ck.pkl" (mkMachine fresh (world (snd saved))) in
  (model seasoned = Some (the_model 2) /\
   optimizer seasoned = Some (the_optimizer (1 # 10))) /\
  (fst saved = Ok tt /\ self (snd saved) = seasoned /\
   is_ok (fst loaded) = true /\
   parameters <$> model (self (snd loaded)) = Some (parameters (the_model 2)) /\
   optimizer (self (snd loaded)) = Some (the_optimizer (1 # 10)) /\
   history (self (snd loaded)) = history seasoned).
Proof.
  split; [by split|].
  exact (checkpoint_round_trip seasoned empty_world "ck.pkl"
           (the_model 2) (the_model 0) (the_optimizer (1 # 10))
           (the_optimizer (1 # 2)) the_metrics
           eq_refl eq_refl ltac:(by vm_compute) eq_refl).
Defined.

Lemma save_checkpoint_writes_in_place_witness :
  (model seasoned = Some (the_model 2) /\
   optimizer seasoned = Some (the_optimizer (1 # 10))) /\
  fs (world (snd (save_checkpoint "ck.pkl" (mkMachine seasoned empty_world))))
  = <["ck.pkl"%string :=
        Archive (checkpoint_of (the_model 2) (the_optimizer (1 # 10))
                   (history seasoned)) true]> (fs empty_world).
Proof.
  split; [by split|].
  exact (proj1 (proj2 (proj2
           (save_checkpoint_writes_in_place seasoned empty_world "ck.pkl"
              (the_model 2) (the_optimizer (1 # 10)) eq_refl eq_refl)))).
Defined.

(** C6, counterexample: a valid checkpoint sits at the target path; a save
    to that path that fails after the first record leaves an unsealed,
    unloadable archive there, and the earlier checkpoint is gone. *)
Lemma interrupted_save_destroys_checkpoint :
  let before := snd (save_checkpoint "ck.pkl" (mkMachine fresh empty_world)) in
  let after :=
    snd (save_checkpoint_interrupted 2 "ck.pkl" (mkMachine seasoned (world before))) in
  (exists old, fs (world before) !! "ck.pkl"%string = Some old /\
               valid_checkpoint old = true /\
               is_ok (torch_load "ck.pkl" (fs (world before))) = true) /\
  (exists new, fs (world after) !! "ck.pkl"%string = Some new /\
               valid_checkpoint new = false /\
               fs (world before) !! "ck.pkl"%string <> Some new /\
               is_ok (torch_load "ck.pkl" (fs (world after))) = false).
Proof.
  cbv zeta. split.
  - eexists. split; [by vm_compute|]. split; by vm_compute.
  - eexists. split; [by vm_compute|]. split; [by vm_compute|]. split; by vm_compute.
Qed.

End LinearExamples.

(** ** Dictionaries and key prefixes *)

Fixpoint starts_with (pre s : string) : bool :=
  match pre, s with
  | EmptyString, _ => true
  | String a pre', String b s' => Ascii.eqb a b && starts_with pre' s'
  | String _ _, EmptyString => false
  end.

Lemma starts_with_app (pre rest : string) : starts_with pre (pre +:+ rest) = true.
Proof.
  induction pre as [|a pre IH]; [done|].
  change (Ascii.eqb a a && starts_with pre (pre +:+ rest) = true).
  by rewrite Ascii.eqb_refl, IH.
Qed.

(** Every key of the dictionary starts with [pre]. *)
Definition prefixed {V} (pre : string) (d : dict V) : Prop :=
  Forall (fun kv => starts_with pre (fst kv) = true) d.

Lemma dict_get_set {V} (k k' : string) (v : V) (d : dict V) :
  dict_get k (dict_set k' v d) = if String.eqb k k' then Some v else dict_get k d.
Proof.
  induction d as [|[k0 v0] d IH]; cbn.
  - by destruct (String.eqb k k').
  - destruct (String.eqb_spec k' k0) as [->|Hne]; cbn.
    + by destruct (String.eqb k k0).
    + rewrite IH. destruct (String.eqb_spec k k0) as [->|]; [|done].
      destruct (String.eqb_spec k0 k'); congruence.
Qed.

Lemma dict_get_snoc {V} (k k' : string) (v : V) (d : dict V) :
  dict_get k (d ++ [(k', v)]) =
  match dict_get k d with
  | Some x => Some x
  | None => if String.eqb k k' then Some v else None
  end.
Proof.
  induction d as [|[k0 v0] d IH]; cbn; [done|].
  by destruct (String.eqb k k0).
Qed.

(** In [{**d, **e}] the last entry of [e] under a key wins, then [d]. *)
Lemma dict_get_update {V} (k : string) (d e : dict V) :
  dict_get k (dict_update d e) =
  match dict_get k (rev e) with
  | Some x => Some x
  | None => dict_get k d
  end.
Proof.
  unfold dict_update. revert d. induction e as [|[k' v'] e IH]; intros d; [done|].
  cbn [fold_left rev fst snd]. rewrite IH, dict_get_snoc, dict_get_set.
  by destruct (dict_get k (rev e)), (String.eqb k k').
Qed.

Lemma prefixed_miss {V} (pre k : string) (d : dict V) :
  prefixed pre d -> starts_with pre k = false -> dict_get k d = None.
Proof.
  induction 1 as [|[k0 v0] d Hk0 _ IH]; intros Hk; [done|].
  cbn in *. destruct (String.eqb_spec k k0) as [->|]; [congruence | by apply IH].
Qed.

Lemma prefixed_set {V} (pre k : string) (v : V) (d : dict V) :
  starts_with pre k = true -> prefixed pre d -> prefixed pre (dict_set k v d).
Proof.
  intros Hk. induction 1 as [|[k0 v0] d Hk0 Hd IH]; cbn.
  - by repeat constructor.
  - destruct (String.eqb k k0); constructor; done.
Qed.

Lemma prefixed_update {V} (pre : string) (d e : dict V) :
  prefixed pre d -> prefixed pre e -> prefixed pre (dict_update d e).
Proof.
  unfold dict_update. intros Hd He. revert d Hd.
  induction He as [|[k v] e Hk _ IH]; intros d Hd; [done|].
  cbn [fold_left]. apply IH. by apply prefixed_set.
Qed.

(** ** Reasoning about methods *)

Section MethodFacts.
Context `{Collaborators} `{!Comparison}.

Lemma bind_run {A B} (c : M A) (f : A -> M B) (s : machine) :
  (c ≫= f) s = match c s with
               | (Ok a, s') => f a s'
               | (Raise e, s') => (Raise e, s')
               end.
Proof. reflexivity. Qed.

Lemma bind_inv {A B} (c : M A) (f : A -> M B) s r s' :
  (c ≫= f) s = (r, s') ->
  (exists a s1, c s = (Ok a, s1) /\ f a s1 = (r, s')) \/
  (exists e, c s = (Raise e, s') /\ r = Raise e).
Proof.
  rewrite bind_run. destruct (c s) as [[a|e] s1]; [left; eauto|].
  intros [= <- <-]. right; eauto.
Qed.

Lemma bind_ok_inv {A B} (c : M A) (f : A -> M B) s b s' :
  (c ≫= f) s = (Ok b, s') ->
  exists a s1, c s = (Ok a, s1) /\ f a s1 = (Ok b, s').
Proof.
  intros Hrun. apply bind_inv in Hrun as [?|(e & _ & ?)]; [done|congruence].
Qed.

(** [keeps proj c]: running [c] never changes [proj] of the machine,
    whether it returns or raises. *)
Definition keeps {X A} (proj : machine -> X) (c : M A) : Prop :=
  forall s, proj (snd (c s)) = proj s.

Lemma keeps_ret {X A} (proj : machine -> X) (a : A) : keeps proj (mret a).
Proof. by intros s. Qed.

Lemma keeps_raise {X A} (proj : machine -> X) (e : exn) : keeps proj (raise (A:=A) e).
Proof. by intros s. Qed.

Lemma keeps_lift {X A} (proj : machine -> X) (r : result A) : keeps proj (lift r).
Proof. by intros s. Qed.

Lemma keeps_get_self {X} (proj : machine -> X) : keeps proj get_self.
Proof. by intros s. Qed.

Lemma keeps_attr_of {X A} (proj : machine -> X) (o : option A) attr :
  keeps proj (attr_of o attr).
Proof. by destruct o; intros s. Qed.

Lemma keeps_bind {X A B} (proj : machine -> X) (c : M A) (f : A -> M B) :
  keeps proj c -> (forall a, keeps proj (f a)) -> keeps proj (c ≫= f).
Proof.
  intros Hc Hf s. rewrite bind_run. specialize (Hc s).
  destruct (c s) as [[a|e] s1]; cbn in *; [|done].
  by rewrite Hf.
Qed.

Lemma keeps_update_self {X} (proj : machine -> X) (f : BaseTrainer -> BaseTrainer) :
  (forall t w, proj (mkMachine (f t) w) = proj (mkMachine t w)) ->
  keeps proj (update_self f).
Proof. intros Hf [t w]. apply Hf. Qed.

Lemma keeps_update_world {X} (proj : machine -> X) (f : World -> World) :
  (forall t w, proj (mkMachine t (f w)) = proj (mkMachine t w)) ->
  keeps proj (update_world f).
Proof. intros Hf [t w]. apply Hf. Qed.

Lemma keeps_for_enumerate {X A} (proj : machine -> X) (i : Z) (xs : list A)
    (body : Z -> A -> M unit) :
  (forall j x, keeps proj (body j x)) -> keeps proj (for_enumerate i xs body).
Proof.
  intros Hb. revert i. induction xs as [|x xs IH]; intros i; cbn [for_enumerate].
  - apply keeps_ret.
  - apply keeps_bind; [apply Hb | intros _; apply IH].
Qed.

Lemma keeps_ok {X A} (proj : machine -> X) (c : M A) s r s' :
  keeps proj c -> c s = (r, s') -> proj s' = proj s.
Proof. intros Hc Hrun. specialize (Hc s). by rewrite Hrun in Hc. Qed.

End MethodFacts.

(** Runs the binds of a hypothesis as far as the outcomes are known. *)
Ltac mrun_in H :=
  repeat first
    [ rewrite bind_run in H
    | progress cbn beta iota zeta delta [mret M_ret self world fst snd] in H ].

Ltac mrun :=
  repeat first
    [ rewrite bind_run
    | progress cbn beta iota zeta delta [mret M_ret self world fst snd] ].

(** One structural step of a [keeps] goal. *)
Ltac keeps_step :=
  lazymatch goal with
  | |- keeps _ (_ ≫= _) => apply keeps_bind; [|intros ?]
  | |- keeps _ (mret _) => apply keeps_ret
  | |- keeps _ (raise _) => apply keeps_raise
  | |- keeps _ (lift _) => apply keeps_lift
  | |- keeps _ get_self => apply keeps_get_self
  | |- keeps _ (attr_of _ _) => apply keeps_attr_of
  | |- keeps _ (for_enumerate _ _ _) => apply keeps_for_enumerate; intros ? ?
  | |- keeps _ (update_self _) => apply keeps_update_self; intros [] []; reflexivity
  | |- keeps _ (update_world _) => apply keeps_update_world; intros [] []; reflexivity
  | |- keeps _ (match ?x with _ => _ end) => destruct x
  | |- keeps _ (let '(_, _) := ?x in _) => destruct x
  end.

Ltac keeps_tac := repeat keeps_step.

(** ** The epoch *)

Section EpochFacts.
Context `{Collaborators} `{!Comparison}.

(** What only the end of an epoch and the explicit saves may change. *)
Definition durable (s : machine) : option DataFrame * gmap string file :=
  (history (self s), fs (world s)).

Lemma compute_members_durable items step acc :
  keeps durable (compute_members items step acc).
Proof.
  revert acc. induction items as [|[name metric] items IH]; intros acc;
    cbn [compute_members]; [apply keeps_ret|].
  apply keeps_bind; [|intros _; apply IH].
  unfold add_scalar. keeps_tac.
Qed.

Lemma one_batch_durable ph image y_true : keeps durable (one_batch ph image y_true).
Proof.
  destruct ph; unfold one_batch, train_one_batch, val_one_batch, call_model,
    metrics_update, log_loss; keeps_tac.
Qed.

Lemma report_durable ph epoch i n verbose : keeps durable (report ph epoch i n verbose).
Proof. unfold report, timer_text, print. keeps_tac. Qed.

Lemma get_metrics_dict_durable pre step : keeps durable (get_metrics_dict pre step).
Proof.
  unfold get_metrics_dict, add_scalar. keeps_tac. apply compute_members_durable.
Qed.

Lemma run_pass_durable ph epoch loader verbose :
  keeps durable (run_pass ph epoch loader verbose).
Proof.
  unfold run_pass, set_train_mode, reset_metrics, timer_do. keeps_tac;
    auto using one_batch_durable, report_durable, get_metrics_dict_durable.
Qed.

(** [returns c Q]: whenever [c] returns normally, its value satisfies [Q]. *)
Definition returns {A} (c : M A) (Q : A -> Prop) : Prop :=
  forall s a s', c s = (Ok a, s') -> Q a.

Lemma returns_bind {A B} (c : M A) (f : A -> M B) (Q : B -> Prop) :
  (forall a, returns (f a) Q) -> returns (c ≫= f) Q.
Proof.
  intros Hf s b s' Hrun. apply bind_ok_inv in Hrun as (a & s1 & _ & Hrun).
  by eapply Hf.
Qed.

Lemma returns_then {A B} (c : M A) (d : M B) (Q : A -> Prop) :
  returns c Q -> returns (a ← c; d;; mret a) Q.
Proof.
  intros Hc s a s' Hrun. apply bind_ok_inv in Hrun as (a0 & s1 & Hrun0 & Hrun).
  apply bind_ok_inv in Hrun as (b & s2 & _ & Hrun). injection Hrun as <- _.
  by eapply Hc.
Qed.

Lemma compute_members_prefixed pre items step acc :
  Forall (fun nm => starts_with pre (fst nm) = true) items ->
  prefixed pre acc ->
  returns (compute_members items step acc) (prefixed pre).
Proof.
  intros Hitems. revert acc.
  induction Hitems as [|[name metric] items Hname _ IH]; intros acc Hacc s r s'.
  - by intros [= <- _].
  - cbn [compute_members]. intros Hrun.
    apply bind_ok_inv in Hrun as (_ & s1 & _ & Hrun).
    eapply IH; [|exact Hrun]. by apply prefixed_set.
Qed.

Lemma get_metrics_dict_prefixed pre step :
  returns (get_metrics_dict pre step) (prefixed pre).
Proof.
  intros [t w] r s'. unfold get_metrics_dict, get_self, update_self, add_scalar,
    update_world. rewrite !bind_run. cbn [self world].
  destruct (timer_stop (timer t)) as [time tm]. rewrite !bind_run. cbn [self world].
  destruct (compute_members _ _ _ _) as [[ms|e] s1] eqn:Hms; [|done].
  intros [= <- _]. apply prefixed_update.
  - destruct (String.eqb _ _); repeat constructor; apply starts_with_app.
  - eapply compute_members_prefixed; [| |exact Hms]; [|constructor].
    unfold collection_items. cbn [prefix members].
    apply Forall_map, Forall_forall. intros nm _. apply starts_with_app.
Qed.

Lemma run_pass_prefixed ph epoch loader verbose :
  returns (run_pass ph epoch loader verbose) (prefixed (phase_prefix ph)).
Proof.
  unfold run_pass. do 3 (apply returns_bind; intros _).
  apply returns_then, get_metrics_dict_prefixed.
Qed.

(** The record of an epoch, from the two partial results. *)
Definition epoch_record (epoch : Z) (rate : Q) (train_result val_result : row) : row :=
  dict_update
    (dict_update (dict_set "lr" (CFloat (Some rate)) (dict_set "Epoch" (CInt epoch) []))
                 train_result)
    val_result.

Lemma epoch_record_epoch epoch rate (train_result val_result : row) :
  prefixed "train/" train_result -> prefixed "val/" val_result ->
  dict_get "Epoch" (epoch_record epoch rate train_result val_result) = Some (CInt epoch).
Proof.
  intros Ht Hv. unfold epoch_record. rewrite !dict_get_update.
  rewrite (prefixed_miss "val/" "Epoch" (rev val_result))
    by first [by apply Forall_rev | done].
  by rewrite (prefixed_miss "train/" "Epoch" (rev train_result))
    by first [by apply Forall_rev | done].
Qed.

(** An epoch changes no file; it appends its own record to the history when
    it returns, and leaves the history alone when it raises. *)
Lemma train_one_epoch_durable epoch train_loader val_loader verbose s r s' :
  train_one_epoch epoch train_loader val_loader verbose s = (r, s') ->
  fs (world s') = fs (world s) /\
  match r with
  | Ok res =>
      (exists h, history (self s) = Some h /\
                 history (self s') = Some (h ++ [res]) /\
                 dict_get "Epoch" res = Some (CInt epoch))
  | Raise _ => (history (self s') = history (self s))
  end.
Proof.
  unfold train_one_epoch. intros Hrun.
  apply bind_inv in Hrun as [(tr & s1 & Hrun1 & Hrun)|(e & Hrun1 & ->)].
  2: { apply (keeps_ok durable) in Hrun1; [|apply run_pass_durable].
       by injection Hrun1 as -> ->. }
  pose proof (run_pass_prefixed _ _ _ _ _ _ _ Hrun1) as Htr.
  apply (keeps_ok durable) in Hrun1; [|apply run_pass_durable].
  injection Hrun1 as Hh1 Hf1.
  apply bind_inv in Hrun as [(vr & s2 & Hrun2 & Hrun)|(e & Hrun2 & ->)].
  2: { apply (keeps_ok durable) in Hrun2; [|apply run_pass_durable].
       injection Hrun2 as -> ->. by rewrite Hh1, Hf1. }
  pose proof (run_pass_prefixed _ _ _ _ _ _ _ Hrun2) as Hvr.
  apply (keeps_ok durable) in Hrun2; [|apply run_pass_durable].
  injection Hrun2 as Hh2 Hf2. rewrite <- Hh1, <- Hf1, <- Hh2, <- Hf2.
  clear Hh1 Hf1 Hh2 Hf2. destruct s2 as [t w].
  unfold get_self, attr_of, update_self, raise in Hrun. mrun_in Hrun.
  destruct (optimizer t) as [o|]; mrun_in Hrun; [|by injection Hrun as <- <-].
  destruct (param_groups o) as [|g gs]; mrun_in Hrun; [by injection Hrun as <- <-|].
  destruct (history t) as [h|] eqn:Hh; mrun_in Hrun; [|by injection Hrun as <- <-].
  injection Hrun as <- <-. cbn [self world with_history history fs]. split; [done|].
  exists h. do 2 (split; [done|]). by apply epoch_record_epoch.
Qed.

End EpochFacts.

(** ** The epoch loop *)

Section TrainFacts.
Context `{Collaborators} `{!Comparison}.

(** [save_checkpoint_per_num_epochs > 0 and epoch % ... == 0]. *)
Definition checkpoint_due (k epoch : Z) : Prop := (0 < k /\ epoch mod k = 0)%Z.

#[export] Instance checkpoint_due_dec k epoch : Decision (checkpoint_due k epoch).
Proof. unfold checkpoint_due. apply _. Defined.

Definition csv_path (dir : string) : string := path_join dir "history.csv".
Definition label_path (dir : string) (epoch : Z) : string :=
  path_join dir (epoch_label epoch).

Lemma print_durable l : keeps durable (print l).
Proof. unfold print. keeps_tac. Qed.

Lemma step_scheduler_durable sch : keeps durable (step_scheduler sch).
Proof. unfold step_scheduler. keeps_tac. Qed.

Lemma history_to_csv_inv filename s u s' :
  history_to_csv filename s = (Ok u, s') ->
  exists h, history (self s) = Some h /\
            s' = mkMachine (self s)
                   (with_fs (<[filename := CsvFile h]> (fs (world s))) (world s)).
Proof.
  unfold history_to_csv, get_self, attr_of, update_world, raise. intros Hrun.
  mrun_in Hrun. destruct (history (self s)) as [h|]; mrun_in Hrun; [|done].
  injection Hrun as _ <-. by exists h.
Qed.

Lemma save_checkpoint_inv filename s u s' :
  save_checkpoint filename s = (Ok u, s') ->
  exists m o, model (self s) = Some m /\ optimizer (self s) = Some o /\
    s' = mkMachine (self s)
           (with_fs (<[filename := Archive (checkpoint_of m o (history (self s))) true]>
                       (fs (world s)))
              (with_stdout (stdout (world s) ++ [OutSaving filename]) (world s))).
Proof.
  destruct s as [t w]. intros Hrun.
  destruct (model t) as [m|] eqn:Hm.
  - destruct (optimizer t) as [o|] eqn:Ho.
    + rewrite (save_checkpoint_run t w filename m o Hm Ho) in Hrun.
      injection Hrun as _ <-. by exists m, o.
    + unfold save_checkpoint, build_checkpoint, print, update_world, get_self,
        attr_of, raise in Hrun. mrun_in Hrun. rewrite Hm in Hrun. mrun_in Hrun.
      rewrite Ho in Hrun. by mrun_in Hrun.
  - unfold save_checkpoint, build_checkpoint, print, update_world, get_self,
      attr_of, raise in Hrun. mrun_in Hrun. rewrite Hm in Hrun. by mrun_in Hrun.
Qed.

(** One iteration of the loop of [train] that returns: the history grows by
    the record of this epoch, the csv file is rewritten, and the labelled
    checkpoint is written exactly when it is due. *)
Lemma train_epoch_effect num_epochs train_loader val_loader verbose k dir
    local epoch s local' s' :
  train_epoch num_epochs train_loader val_loader verbose k dir local epoch s
  = (Ok local', s') ->
  exists h res,
    history (self s) = Some h /\
    history (self s') = Some (h ++ [res]) /\
    dict_get "Epoch" res = Some (CInt epoch) /\
    exists fl,
      fs (world s') =
      (if decide (checkpoint_due k epoch)
       then <[label_path dir epoch := fl]>
              (<[csv_path dir := CsvFile (h ++ [res])]> (fs (world s)))
       else <[csv_path dir := CsvFile (h ++ [res])]> (fs (world s))) /\
      valid_checkpoint fl = true.
Proof.
  unfold train_epoch. destruct (timer_call local.1 epoch num_epochs) as [txt tt'].
  intros Hrun.
  apply bind_ok_inv in Hrun as (? & s1 & Hrun1 & Hrun).
  apply (keeps_ok durable) in Hrun1; [|apply print_durable].
  apply bind_ok_inv in Hrun as (res & s2 & Hrun2 & Hrun).
  apply train_one_epoch_durable in Hrun2 as (Hfs2 & h & Hh1 & Hh2 & Hep).
  apply bind_ok_inv in Hrun as (? & s3 & Hrun3 & Hrun).
  apply (keeps_ok durable) in Hrun3; [|apply print_durable].
  apply bind_ok_inv in Hrun as (? & s4 & Hrun4 & Hrun).
  apply history_to_csv_inv in Hrun4 as (h4 & Hh4 & ->).
  apply bind_ok_inv in Hrun as (sch & s5 & Hrun5 & Hrun).
  apply (keeps_ok durable) in Hrun5; [|apply step_scheduler_durable].
  apply bind_ok_inv in Hrun as (? & s6 & Hrun6 & Hrun).
  injection Hrun as _ <-.
  injection Hrun1 as Hh_1 Hf_1. injection Hrun3 as Hh_3 Hf_3.
  unfold durable in Hrun5. cbn [self world with_fs fs] in Hrun5.
  injection Hrun5 as Hh_5 Hf_5.
  assert (h4 = h ++ [res]) as -> by congruence.
  exists h, res. split; [congruence|]. unfold checkpoint_due.
  destruct (Z.ltb_spec 0 k) as [Hk|Hk].
  - apply bind_ok_inv in Hrun6 as (rem & s7 & Hmod & Hrun6).
    unfold py_mod, lift in Hmod. destruct (Z.eqb_spec k 0) as [|_]; [lia|].
    injection Hmod as <- <-.
    destruct (Z.eqb_spec (epoch mod k) 0) as [Hdiv|Hdiv].
    + apply save_checkpoint_inv in Hrun6 as (m & o & _ & _ & ->).
      cbn [self world with_fs fs with_stdout]. split; [congruence|]. split; [done|].
      eexists. rewrite decide_True by done. split.
      * unfold label_path, csv_path. f_equal. congruence.
      * reflexivity.
    + injection Hrun6 as <-. split; [congruence|]. split; [done|].
      exists (Archive (checkpoint_of (mkModel false ∅) (mkOptimizer [] ∅) None) true). rewrite decide_False by tauto. split; [|done].
      unfold csv_path. congruence.
  - injection Hrun6 as <-. split; [congruence|]. split; [done|].
    exists (Archive (checkpoint_of (mkModel false ∅) (mkOptimizer [] ∅) None) true). rewrite decide_False by lia. split; [|done].
    unfold csv_path. congruence.
Qed.

End TrainFacts.

(** ** File names *)

Lemma string_length_app (s t : string) :
  String.length (s +:+ t) = String.length s + String.length t.
Proof. induction s as [|a s IH]; [done|]. simpl. f_equal. exact IH. Qed.

Lemma string_app_inv_tail (s1 s2 t : string) : s1 +:+ t = s2 +:+ t -> s1 = s2.
Proof.
  revert s2. induction s1 as [|a s1 IH]; intros [|b s2] E; try done.
  - apply (f_equal String.length) in E.
    rewrite !string_length_app in E. simpl in E. lia.
  - apply (f_equal String.length) in E.
    rewrite !string_length_app in E. simpl in E. lia.
  - injection E as -> E. f_equal. by apply IH.
Qed.

Lemma pretty_N_go_head (x : N) (s : string) :
  (0 < x)%N -> exists d rest, pretty_N_go x s = String (pretty_N_char d) rest.
Proof.
  revert s. induction (N.lt_wf_0 x) as [x _ IH]; intros s Hx.
  rewrite pretty_N_go_step by done.
  destruct (decide (x `div` 10 = 0)%N) as [->|Hdiv].
  - rewrite pretty_N_go_0. eauto.
  - apply IH; [apply N.div_lt; lia | by apply N.neq_0_lt_0].
Qed.

Lemma pretty_N_char_plain (d : N) :
  let c := pretty_N_char d in
  Ascii.eqb c "/" = false /\ Ascii.eqb c "h" = false /\ Ascii.eqb c "c" = false.
Proof. unfold pretty_N_char. by repeat case_match. Qed.

(** A label starts with a digit or a sign. *)
Lemma epoch_label_head (epoch : Z) :
  exists c rest,
    epoch_label epoch = String c rest /\
    Ascii.eqb c "/" = false /\ Ascii.eqb c "h" = false /\ Ascii.eqb c "c" = false.
Proof.
  unfold epoch_label. destruct epoch as [|p|p].
  - by eexists _, _.
  - unfold pretty, pretty_Z, pretty, pretty_positive, pretty, pretty_N.
    rewrite decide_False by done.
    destruct (pretty_N_go_head (N.pos p) "") as (d & rest & ->); [lia|].
    eexists _, _. split; [reflexivity|]. apply pretty_N_char_plain.
  - by eexists _, _.
Qed.

Lemma epoch_label_inj (e1 e2 : Z) : epoch_label e1 = epoch_label e2 -> e1 = e2.
Proof.
  unfold epoch_label. intros E. apply string_app_inv_tail in E.
  by apply (inj pretty) in E.
Qed.

Lemma path_join_inj (dir b1 b2 : string) :
  starts_with_slash b1 = false -> starts_with_slash b2 = false ->
  path_join dir b1 = path_join dir b2 -> b1 = b2.
Proof.
  unfold path_join. intros -> ->.
  destruct (_ || _); intros E; repeat apply String.app_inj in E; done.
Qed.

Lemma epoch_label_no_slash (epoch : Z) : starts_with_slash (epoch_label epoch) = false.
Proof. by destruct (epoch_label_head epoch) as (c & rest & -> & ? & _). Qed.

Lemma label_path_inj (dir : string) (e1 e2 : Z) :
  label_path dir e1 = label_path dir e2 -> e1 = e2.
Proof.
  unfold label_path. intros E.
  apply path_join_inj in E; auto using epoch_label_no_slash, epoch_label_inj.
Qed.

Lemma label_path_not_csv (dir : string) (epoch : Z) :
  label_path dir epoch <> csv_path dir.
Proof.
  unfold label_path, csv_path. intros E.
  apply path_join_inj in E; [|apply epoch_label_no_slash|done].
  destruct (epoch_label_head epoch) as (c & rest & Hl & _ & Hh & _).
  rewrite Hl in E. injection E as -> _. done.
Qed.

Lemma label_path_not_final (dir : string) (epoch : Z) :
  label_path dir epoch <> path_join dir "checkpoint.pkl".
Proof.
  unfold label_path. intros E.
  apply path_join_inj in E; [|apply epoch_label_no_slash|done].
  destruct (epoch_label_head epoch) as (c & rest & Hl & _ & _ & Hc).
  rewrite Hl in E. injection E as -> _. done.
Qed.

(** ** Whole runs of [train] *)

Section RunFacts.
Context `{Collaborators} `{!Comparison}.

(** A path holds a loadable checkpoint. *)
Definition holds_checkpoint (files : gmap string file) (p : string) : Prop :=
  exists fl, files !! p = Some fl /\ valid_checkpoint fl = true.

Lemma for_epochs_effect num_epochs train_loader val_loader verbose k dir
    (epochs : list Z) local s u s' h0 :
  for_epochs epochs local
    (train_epoch num_epochs train_loader val_loader verbose k dir) s = (Ok u, s') ->
  history (self s) = Some h0 ->
  exists rows,
    history (self s') = Some (h0 ++ rows) /\
    Forall2 (fun e r => dict_get "Epoch" r = Some (CInt e)) epochs rows /\
    dom (fs (world s')) =
      dom (fs (world s))
      ∪ (match epochs with [] => ∅ | _ :: _ => {[csv_path dir]} end)
      ∪ list_to_set (label_path dir <$> filter (checkpoint_due k) epochs) /\
    (forall p, p <> csv_path dir ->
       holds_checkpoint (fs (world s)) p -> holds_checkpoint (fs (world s')) p) /\
    (forall e, e ∈ epochs -> checkpoint_due k e ->
       holds_checkpoint (fs (world s')) (label_path dir e)).
Proof.
  revert local s h0. induction epochs as [|e epochs IH]; intros local s h0.
  - intros [= _ <-] Hh. exists []. rewrite app_nil_r. split; [done|]. split; [done|].
    split; [cbn; set_solver|]. split; [done|]. intros e He. by apply elem_of_nil in He.
  - cbn [for_epochs]. intros Hrun Hh.
    apply bind_ok_inv in Hrun as (local' & s1 & Hbody & Hrun).
    apply train_epoch_effect in Hbody
      as (h & res & Hh' & Hh1 & Hep & fl & Hfs & Hfl).
    assert (h = h0) as -> by congruence.
    destruct (IH _ _ _ Hrun Hh1) as (rows & Hrows & Heps & Hdom & Hkeep & Hdue).
    exists (res :: rows). rewrite <- app_assoc in Hrows. split; [done|].
    split; [by constructor|].
    assert (forall p, p <> csv_path dir ->
              holds_checkpoint (fs (world s)) p -> holds_checkpoint (fs (world s1)) p)
      as Hstep.
    { intros p Hp (fl0 & Hfl0 & Hv0). rewrite Hfs. unfold holds_checkpoint.
      destruct (decide (checkpoint_due k e)).
      - destruct (decide (p = label_path dir e)) as [->|Hne].
        + exists fl. by rewrite lookup_insert_eq.
        + exists fl0. by rewrite !lookup_insert_ne.
      - exists fl0. by rewrite lookup_insert_ne. }
    split; [|split].
    + rewrite Hdom, Hfs, filter_cons.
      destruct (decide (checkpoint_due k e)); rewrite ?fmap_cons, ?list_to_set_cons,
        ?dom_insert_L; destruct epochs; set_solver.
    + intros p Hp Hold. by apply Hkeep, Hstep.
    + intros e' He' Hdue'. apply elem_of_cons in He' as [->|He']; [|by apply Hdue].
      apply Hkeep; [apply label_path_not_csv|].
      exists fl. rewrite Hfs, decide_True by done. by rewrite lookup_insert_eq.
Qed.

(** C4, as amended: a [train] over [N] epochs that completes appends
    exactly [N] rows (none when [N] is not positive) to the rows the trainer
    already had, and the new row at position [i], counted from 0, carries
    the epoch index [i + 1].  On the empty table of a new trainer the
    history then has exactly [N] rows with the indices 1..N in order; on a
    trainer that has rows, from an earlier [train] or a loaded checkpoint,
    the old rows stay and the numbering starts at 1 again. *)
Theorem history_rows_after_train (s : machine) (num_epochs : Z)
    (train_loader val_loader : list batch) (epoch_scheduler : option scheduler)
    (verbose k : Z) (dir : string) :
  let out := train num_epochs train_loader val_loader epoch_scheduler verbose k dir s in
  fst out = Ok tt ->
  exists rows,
    history (self (snd out)) = (fun h0 => h0 ++ rows) <$> history (self s) /\
    length rows = Z.to_nat num_epochs /\
    (forall (i : nat) (r : row),
        rows !! i = Some r -> dict_get "Epoch" r = Some (CInt (Z.of_nat i + 1))) /\
    (history (self s) = Some [] -> history (self (snd out)) = Some rows).
Proof.
  cbv zeta. unfold train.
  destruct (for_epochs _ _ _ s) as [r s'] eqn:Hrun. cbn [fst snd]. intros ->.
  assert (exists rows,
            history (self s') = (fun h0 => h0 ++ rows) <$> history (self s) /\
            Forall2 (fun e r => dict_get "Epoch" r = Some (CInt e))
              (seqZ 1 num_epochs) rows) as (rows & Hrows & Heps).
  { destruct (history (self s)) as [h0|] eqn:Hh.
    - destruct (for_epochs_effect _ _ _ _ _ _ _ _ _ _ _ _ Hrun Hh)
        as (rows & Hrows & Heps & _). by exists rows.
    - destruct (seqZ 1 num_epochs) as [|e es]; cbn [for_epochs] in Hrun.
      + injection Hrun as <-. exists []. by rewrite Hh.
      + apply bind_ok_inv in Hrun as (local' & s1 & Hbody & _).
        apply train_epoch_effect in Hbody as (h & res & Hsome & _). congruence. }
  exists rows. split; [done|]. split; [|split].
  - apply Forall2_length in Heps as Hlen.
    etrans; [symmetry; exact Hlen | apply length_seqZ].
  - intros i r Hi.
    destruct (Forall2_lookup_r _ _ _ _ _ Heps Hi) as (e & He & Hep).
    apply lookup_seqZ in He as [-> _]. rewrite Hep. do 2 f_equal. lia.
  - intros Hempty. by rewrite Hrows, Hempty.
Qed.

Lemma for_epochs_history_some num_epochs train_loader val_loader verbose k dir
    (epochs : list Z) local s u s' :
  for_epochs epochs local
    (train_epoch num_epochs train_loader val_loader verbose k dir) s = (Ok u, s') ->
  is_Some (history (self s')) -> is_Some (history (self s)).
Proof.
  destruct epochs as [|e epochs]; cbn [for_epochs].
  - by intros [= _ <-].
  - intros Hrun _. apply bind_ok_inv in Hrun as (local' & s1 & Hbody & _).
    apply train_epoch_effect in Hbody as (h & res & -> & _). done.
Qed.

(** The files after the last lines of train.py: those there before, the csv
    table, the final checkpoint and the labelled checkpoints that were due. *)
Lemma train_script_files num_epochs train_loader val_loader epoch_scheduler
    verbose k dir s u s' :
  train_script num_epochs train_loader val_loader epoch_scheduler verbose k dir s
  = (Ok u, s') ->
  dom (fs (world s')) =
    dom (fs (world s))
    ∪ {[csv_path dir; path_join dir "checkpoint.pkl"]}
    ∪ list_to_set (label_path dir <$> filter (checkpoint_due k) (seqZ 1 num_epochs))
  /\ holds_checkpoint (fs (world s')) (path_join dir "checkpoint.pkl")
  /\ (forall e, e ∈ seqZ 1 num_epochs -> checkpoint_due k e ->
        holds_checkpoint (fs (world s')) (label_path dir e)).
Proof.
  unfold train_script, train. intros Hrun.
  apply bind_ok_inv in Hrun as (? & s1 & Hloop & Hrun).
  apply bind_ok_inv in Hrun as (? & s2 & Hsave & Hrun).
  apply history_to_csv_inv in Hrun as (h2 & Hh2 & ->).
  apply save_checkpoint_inv in Hsave as (m & o & _ & _ & ->).
  cbn [self world with_fs fs with_stdout] in *.
  destruct (for_epochs_history_some _ _ _ _ _ _ _ _ _ _ _ Hloop) as [h0 Hh0]; [done|].
  destruct (for_epochs_effect _ _ _ _ _ _ _ _ _ _ _ _ Hloop Hh0)
    as (rows & _ & _ & Hdom & _ & Hdue).
  assert (path_join dir "history.csv" <> path_join dir "checkpoint.pkl") as Hne.
  { intros E. by apply path_join_inj in E. }
  split; [|split].
  - rewrite !dom_insert_L, Hdom. fold (csv_path dir).
    destruct (seqZ 1 num_epochs); set_solver.
  - eexists. rewrite lookup_insert_ne by done. by rewrite lookup_insert_eq.
  - intros e He Hde. destruct (Hdue e He Hde) as (fl & Hfl & Hv). exists fl.
    rewrite lookup_insert_ne by (symmetry; apply label_path_not_csv).
    by rewrite lookup_insert_ne by (symmetry; apply label_path_not_final).
Qed.

End RunFacts.

(** ** The loss accumulator over a pass *)

Section LossFacts.
Context `{Collaborators} `{!Comparison}.

(** The batches of a loader in order, with the loss each call returns (the
    value it has just handed to [loss_logger]). *)
Fixpoint run_batches (ph : phase) (loader : list batch) : M (list Q) :=
  match loader with
  | [] => mret []
  | b :: rest =>
      v ← one_batch ph (fst (fst b)) (snd (fst b));
      vs ← run_batches ph rest;
      mret (v :: vs)
  end.

(** Number of samples of a batch: one identifier per sample. *)
Definition batch_size (b : batch) : nat := length (snd b).

(** [sum(n_i * v_i) / sum(n_i)]. *)
Definition size_weighted_average (sizes : list nat) (vs : list Q) : Q :=
  (Qsum (zip_with (fun n v => inject_Z (Z.of_nat n) * v) sizes vs)
   / inject_Z (Z.of_nat (sum_list sizes)))%Q.

Definition logger (s : machine) : MeanMetric.state := loss_logger (self s).

Lemma call_model_logger image : keeps logger (call_model image).
Proof. unfold call_model. keeps_tac. Qed.

Lemma metrics_update_logger y_pred y_true : keeps logger (metrics_update y_pred y_true).
Proof. unfold metrics_update. keeps_tac. Qed.

(** A batch that returns has folded its loss, and nothing else, into the
    loss accumulator, with weight 1 whatever the size of the batch. *)
Lemma one_batch_logger ph image y_true s loss s' :
  one_batch ph image y_true s = (Ok loss, s') ->
  logger s' = MeanMetric.forward (logger s) loss.
Proof.
  destruct ph; unfold one_batch, train_one_batch, val_one_batch; intros Hrun.
  - apply bind_ok_inv in Hrun as (t & s1 & [= <- <-] & Hrun).
    apply bind_ok_inv in Hrun as (o & s1 & Ho & Hrun).
    apply (keeps_ok logger) in Ho as <-; [|apply keeps_attr_of].
    apply bind_ok_inv in Hrun as (y_pred & s2 & Hp & Hrun).
    apply (keeps_ok logger) in Hp as <-; [|apply call_model_logger].
    apply bind_ok_inv in Hrun as (l & s3 & [= Hcrit <-] & Hrun).
    apply bind_ok_inv in Hrun as (t3 & s4 & [= <- <-] & Hrun).
    apply bind_ok_inv in Hrun as (m & s5 & Hm & Hrun).
    apply (keeps_ok logger) in Hm as <-; [|apply keeps_attr_of].
    destruct (optim_step m o image y_true) as [m' o'].
    apply bind_ok_inv in Hrun as ([] & s6 & [= <-] & Hrun).
    apply bind_ok_inv in Hrun as ([] & s7 & [= <-] & Hrun).
    apply bind_ok_inv in Hrun as ([] & s8 & Hu & [= <- <-]).
    apply (keeps_ok logger) in Hu as ->; [|apply metrics_update_logger].
    reflexivity.
  - apply bind_ok_inv in Hrun as (y_pred & s2 & Hp & Hrun).
    apply (keeps_ok logger) in Hp as <-; [|apply call_model_logger].
    apply bind_ok_inv in Hrun as (l & s3 & [= Hcrit <-] & Hrun).
    apply bind_ok_inv in Hrun as ([] & s7 & [= <-] & Hrun).
    apply bind_ok_inv in Hrun as ([] & s8 & Hu & [= <- <-]).
    apply (keeps_ok logger) in Hu as ->; [|apply metrics_update_logger].
    reflexivity.
Qed.

Lemma run_batches_logger ph loader s vs s' :
  run_batches ph loader s = (Ok vs, s') ->
  length vs = length loader /\
  (MeanMetric.value (logger s') == MeanMetric.value (logger s) + Qsum vs)%Q /\
  (MeanMetric.weight (logger s')
   == MeanMetric.weight (logger s) + inject_Z (Z.of_nat (length vs)))%Q.
Proof.
  revert s vs. induction loader as [|b loader IH]; intros s vs; cbn [run_batches].
  - intros [= <- <-]. cbn. split; [done|]. split; ring.
  - intros Hrun.
    apply bind_ok_inv in Hrun as (v & s1 & Hb & Hrun).
    apply bind_ok_inv in Hrun as (vs' & s2 & Hrest & [= <- <-]).
    apply one_batch_logger in Hb. apply IH in Hrest as (Hlen & Hv & Hw).
    split; [cbn; by rewrite Hlen|].
    rewrite Hv, Hw, Hb. unfold MeanMetric.forward.
    rewrite MeanMetric_update_value, MeanMetric_update_weight.
    cbn [length Qsum fold_right]. fold (Qsum vs').
    rewrite !Nat2Z.inj_succ, <- !Z.add_1_r, !inject_Z_plus.
    change (inject_Z (Z.of_nat 0)) with 0%Q. change (inject_Z 1) with 1%Q.
    split; ring.
Qed.

Lemma weighted_equal_sizes (n : nat) (sizes : list nat) (vs : list Q) :
  length sizes = length vs -> Forall (fun m => m = n) sizes ->
  (Qsum (zip_with (fun m v => inject_Z (Z.of_nat m) * v) sizes vs)
   == inject_Z (Z.of_nat n) * Qsum vs)%Q /\
  sum_list sizes = (length vs * n)%nat.
Proof.
  revert vs. induction sizes as [|m sizes IH]; intros [|v vs] Hlen Hall; try done.
  - cbn. split; [ring|done].
  - apply Forall_cons in Hall as [-> Hall]. injection Hlen as Hlen.
    destruct (IH vs Hlen Hall) as [Hs Hn].
    split.
    + cbn [zip_with Qsum fold_right].
      fold (Qsum (zip_with (fun m v => inject_Z (Z.of_nat m) * v)%Q sizes vs)).
      fold (Qsum vs). rewrite Hs. ring.
    + change (sum_list (n :: sizes)) with (n + sum_list sizes)%nat.
      rewrite Hn. cbn [length]. lia.
Qed.

(** C3, as amended: after any sequence of batches folded into the loss
    accumulator since its reset, [compute()] is the plain arithmetic mean of
    the per-batch losses, each batch counting once whatever its size (nan
    when there was no batch); this is the batch-size-weighted average
    whenever all the batches have the same positive size. *)
Theorem loss_logger_mean_of_batches (ph : phase) (loader : list batch)
    (s : machine) (vs : list Q) (s' : machine) :
  loss_logger (self s) = MeanMetric.default ->
  run_batches ph loader s = (Ok vs, s') ->
  length vs = length loader /\
  match MeanMetric.compute (loss_logger (self s')) with
  | None => loader = []
  | Some c =>
      loader <> [] /\
      (c == Qsum vs / inject_Z (Z.of_nat (length vs)))%Q /\
      forall n, (0 < n)%nat -> Forall (fun b => batch_size b = n) loader ->
                (c == size_weighted_average (map batch_size loader) vs)%Q
  end.
Proof.
  intros Hreset Hrun. apply run_batches_logger in Hrun as (Hlen & Hv & Hw).
  unfold logger in *. rewrite Hreset in Hv, Hw.
  cbn [MeanMetric.default MeanMetric.value MeanMetric.weight] in Hv, Hw.
  split; [done|]. destruct loader as [|b loader].
  - destruct vs; [|done]. unfold MeanMetric.compute.
    assert (Qeq_bool (MeanMetric.weight (loss_logger (self s'))) 0 = true) as ->; [|done].
    apply Qeq_bool_iff. rewrite Hw. reflexivity.
  - pose proof (inject_nat_pos (length vs) ltac:(rewrite Hlen; cbn; lia)) as Hpos.
    rewrite MeanMetric_compute_pos by (rewrite Hw; lra).
    split; [done|]. split; [by rewrite Hv, Hw, Qplus_0_l, Qplus_0_l|].
    intros n Hn Hall. unfold size_weighted_average.
    destruct (weighted_equal_sizes n (map batch_size (b :: loader)) vs) as [Hs Hsum].
    { by rewrite length_map. }
    { by apply Forall_map. }
    rewrite Hv, Hw, Hs, Hsum, Nat2Z.inj_mul, inject_Z_mult, !Qplus_0_l.
    pose proof (inject_nat_pos n Hn). field. lra.
Qed.

End LossFacts.

(** ** Progress reports *)

Section ReportFacts.
Context `{Collaborators} `{!Comparison}.

(** [fails c]: [c] never returns normally. *)
Definition fails {A} (c : M A) : Prop := forall s, is_ok (fst (c s)) = false.

Lemma fails_bind_l {A B} (c : M A) (f : A -> M B) : fails c -> fails (c ≫= f).
Proof.
  intros Hc s. rewrite bind_run. specialize (Hc s).
  by destruct (c s) as [[a|e] s1].
Qed.

Lemma fails_bind_r {A B} (c : M A) (f : A -> M B) :
  (forall a, fails (f a)) -> fails (c ≫= f).
Proof.
  intros Hf s. rewrite bind_run. destruct (c s) as [[a|e] s1]; [apply Hf|done].
Qed.

(** The check [i % verbose == 0] of one batch: with [verbose = 0] it raises
    [ZeroDivisionError] and prints nothing; otherwise it returns, having
    printed one progress line exactly when [verbose] divides [i]. *)
Lemma report_run ph epoch i n verbose s :
  report ph epoch i n verbose s =
  if Z.eqb verbose 0 then (Raise ZeroDivisionError, s)
  else if Z.eqb (i mod verbose) 0
       then (Ok tt,
             mkMachine (with_timer (snd (timer_call (timer (self s)) i n)) (self s))
               (with_stdout
                  (stdout (world s)
                   ++ [OutProgress ph epoch i n (fst (timer_call (timer (self s)) i n))])
                  (world s)))
       else (Ok tt, s).
Proof.
  unfold report, py_mod, lift. rewrite bind_run.
  destruct (Z.eqb verbose 0); [done|]. cbn beta iota.
  destruct (Z.eqb (i mod verbose) 0); [|done].
  unfold timer_text, get_self, update_self, print, update_world.
  rewrite !bind_run. cbn beta iota.
  destruct (timer_call (timer (self s)) i n) as [txt tm].
  by rewrite !bind_run.
Qed.

Lemma run_pass_verbose_zero ph epoch b loader :
  fails (run_pass ph epoch (b :: loader) 0).
Proof.
  unfold run_pass. do 2 (apply fails_bind_r; intros _). apply fails_bind_l.
  cbn [for_enumerate]. apply fails_bind_l, fails_bind_r. intros _ s.
  by rewrite report_run.
Qed.

End ReportFacts.

(** ** Closed runs of the linear trainer *)

Section LinearRuns.
Import Linear.
#[local] Open Scope Q_scope.

(** Two training batches of sizes 2 and 1, one validation batch. *)
Definition demo_train : list batch :=
  [ ([1; 2], [2; 4], ["a.png"; "b.png"]%string); ([3], [6], ["c.png"%string]) ].
Definition demo_val : list batch :=
  [ ([1; 1], [2; 2], ["d.png"; "e.png"]%string) ].

(** Validation batches of sizes 2 and 1 with losses 1 and 4 under [w = 1]. *)
Definition uneven_val : list batch :=
  [ ([1; 1], [0; 0], ["a.png"; "b.png"]%string); ([3], [1], ["c.png"%string]) ].

Lemma loss_logger_mean_of_batches_witness :
  let out := run_batches Validating demo_train (start 1 (1 # 10)) in
  exists vs,
    fst out = Ok vs /\ length vs = 2%nat /\
    match MeanMetric.compute (loss_logger (self (snd out))) with
    | None => False
    | Some c => (c == Qsum vs / inject_Z (Z.of_nat (length vs)))%Q
    end.
Proof.
  cbv zeta.
  destruct (run_batches Validating demo_train (start 1 (1 # 10))) as [r s'] eqn:Hrun.
  assert (exists vs, r = Ok vs) as [vs ->].
  { apply (f_equal fst) in Hrun. vm_compute in Hrun. rewrite <- Hrun. by eexists. }
  pose proof (loss_logger_mean_of_batches Validating demo_train
                (start 1 (1 # 10)) vs s' eq_refl Hrun) as [Hlen Hmean].
  exists vs. cbn [fst snd]. split; [done|]. split; [done|].
  destruct (MeanMetric.compute (loss_logger (self s'))) as [c|]; [|done].
  by destruct Hmean as (_ & Hc & _).
Defined.

(** C3, counterexample: two batches of sizes 2 and 1 with losses 1 and 4.
    The accumulator returns 5/2, their plain mean; the batch-size-weighted
    average is 2. *)
Lemma loss_logger_not_size_weighted :
  let out := run_batches Validating uneven_val (start 1 (1 # 10)) in
  exists vs c,
    fst out = Ok vs /\
    map batch_size uneven_val = [2; 1]%nat /\
    Forall2 Qeq vs [1; 4] /\
    MeanMetric.compute (loss_logger (self (snd out))) = Some c /\
    (c == 5 # 2)%Q /\
    (size_weighted_average (map batch_size uneven_val) vs == 2)%Q /\
    ~ (c == size_weighted_average (map batch_size uneven_val) vs)%Q.
Proof.
  cbv zeta. eexists _, _. split; [vm_compute; reflexivity|].
  split; [reflexivity|]. split; [by repeat constructor|].
  split; [vm_compute; reflexivity|]. split; [reflexivity|]. split; [reflexivity|].
  discriminate.
Qed.

Lemma history_rows_after_train_witness :
  let out := train 3 demo_train demo_val None 1 2 "ck" (start 1 (1 # 10)) in
  fst out = Ok tt /\
  exists rows,
    history (self (snd out))
    = (fun h0 => h0 ++ rows) <$> history (self (start 1 (1 # 10))) /\
    length rows = Z.to_nat 3 /\
    (forall (i : nat) (r : row),
        rows !! i = Some r -> dict_get "Epoch" r = Some (CInt (Z.of_nat i + 1))) /\
    (history (self (start 1 (1 # 10))) = Some [] ->
     history (self (snd out)) = Some rows).
Proof.
  assert (fst (train 3 demo_train demo_val None 1 2 "ck" (start 1 (1 # 10))) = Ok tt)
    as Hok by (vm_compute; reflexivity).
  split; [exact Hok|].
  exact (history_rows_after_train (start 1 (1 # 10)) 3 demo_train demo_val None 1 2
           "ck" Hok).
Defined.

(** C4, counterexample: a new trainer trains for one epoch and then, in a
    second call, for two.  The second call completes its two epochs and
    leaves three rows, whose epoch indices are 1, 1, 2: neither two rows
    nor strictly increasing indices. *)
Lemma train_again_restarts_numbering :
  let first := train 1 demo_train demo_val None 1 0 "ck" (start 1 (1 # 10)) in
  let second := train 2 demo_train demo_val None 1 0 "ck" (snd first) in
  history (self (start 1 (1 # 10))) = Some [] /\
  fst first = Ok tt /\ fst second = Ok tt /\
  (map (dict_get "Epoch") <$> history (self (snd second)))
  = Some [Some (CInt 1); Some (CInt 1); Some (CInt 2)].
Proof. cbv zeta. split; [done|]. repeat split; vm_compute; reflexivity. Qed.

(** The same run, as the console shows it: the only save inside [train]
    comes after the result of epoch 2, and the final save after epoch 3. *)
Lemma three_epochs_interval_two :
  let out := train_script 3 demo_train demo_val None 1 2 "ck" (start 1 (1 # 10)) in
  omap (fun l => match l with
                 | OutEpoch e _ _ => Some (inl e)
                 | OutSaving f => Some (inr f)
                 | _ => None
                 end) (stdout (world (snd out)))
  = [inl 1%Z; inl 2%Z; inr "ck/2_epoch.pkl"%string; inl 3%Z;
     inr "ck/checkpoint.pkl"%string]
  /\ map fst (map_to_list (fs (world (snd out))))
     = ["ck/checkpoint.pkl"; "ck/2_epoch.pkl"; "ck/history.csv"]%string.
Proof. cbv zeta. split; by vm_compute. Qed.

End LinearRuns.

(** C5: the per-batch check [i % verbose == 0] prints one progress line
    exactly when a non-zero [verbose] divides [i]; with [verbose = 0] it
    raises [ZeroDivisionError], so that an epoch over a non-empty training
    loader never completes (and one over an empty training loader and a
    non-empty validation loader does not either).  On the linear trainer
    the epoch stops with [ZeroDivisionError] after training its first batch
    and records nothing. *)
Theorem verbose_zero_raises :
  (forall (N : Numerics) (C : Collaborators) ph epoch i n verbose (s : machine),
      let out := report ph epoch i n verbose s in
      if Z.eqb verbose 0 then out = (Raise ZeroDivisionError, s)
      else fst out = Ok tt /\
           stdout (world (snd out)) =
           stdout (world s)
           ++ (if Z.eqb (i mod verbose) 0
               then [OutProgress ph epoch i n (fst (timer_call (timer (self s)) i n))]
               else []))
  /\ (forall (N : Numerics) (C : Collaborators) (K : Comparison)
             epoch b train_loader val_loader (s : machine),
         is_ok (fst (train_one_epoch epoch (b :: train_loader) val_loader 0 s)) = false)
  /\ (forall (N : Numerics) (C : Collaborators) (K : Comparison)
             epoch b val_loader (s : machine),
         is_ok (fst (train_one_epoch epoch [] (b :: val_loader) 0 s)) = false)
  /\ (let out := train_one_epoch 1 demo_train demo_val 0 (Linear.start 1 (1 # 10)) in
      fst out = Raise ZeroDivisionError /\
      history (self (snd out)) = Some [] /\
      stdout (world (snd out)) = [] /\
      MeanMetric.weight (loss_logger (self (snd out))) = (0 + 1)%Q).
Proof.
  split; [|split; [|split]].
  - intros N C ph epoch i n verbose s. cbv zeta. rewrite report_run.
    destruct (Z.eqb_spec verbose 0) as [|_]; [done|].
    destruct (Z.eqb (i mod verbose) 0); cbn [fst snd world stdout with_stdout];
      (split; [done|]); [done|by rewrite app_nil_r].
  - intros N C K epoch b train_loader val_loader s. unfold train_one_epoch.
    apply fails_bind_l, run_pass_verbose_zero.
  - intros N C K epoch b val_loader s. unfold train_one_epoch.
    apply fails_bind_r. intros train_result. apply fails_bind_l, run_pass_verbose_zero.
  - cbv zeta. by vm_compute.
Qed.

(** ** Validation metrics and the compute groups of the collection *)

Section GroupFacts.
Context `{Collaborators} `{!Comparison}.

Lemma reset_metrics_run (s : machine) :
  reset_metrics s =
  (Ok tt,
   mkMachine
     (with_metrics (collection_reset (metrics (self s)))
        (with_loss_logger MeanMetric.default
           (with_timer (timer_reset (timer (self s))) (self s))))
     (world s)).
Proof.
  destruct s as [t w]. unfold reset_metrics, timer_do, update_self.
  by rewrite !bind_run.
Qed.

Lemma collection_update_groups pre ms gs preds target :
  groups (snd (collection_update (mkCollection pre ms (Some gs)) preds target))
  = Some gs.
Proof.
  unfold collection_update. cbn [groups members prefix].
  by destruct (leaders_update ms gs preds target).
Qed.

Lemma members_reset_defaults (ms : list (string * Metric)) :
  Forall (fun nm => cur (snd nm) = defaults (snd nm)) (members_reset ms).
Proof. unfold members_reset. apply Forall_map. by apply Forall_true. Qed.

End GroupFacts.

Section LinearGroups.
Import Linear.
#[local] Open Scope Q_scope.

(** Two of the threshold accuracies of train.py in one collection. *)
Definition two_metrics : MetricCollection :=
  mkCollection "" [ ("TA1"%string, threshold_accuracy (5 # 4));
                    ("TA2"%string, threshold_accuracy (25 # 16)) ] None.

(** Learning rate 0: no training batch changes the weight [w = 1]. *)
Definition grader : machine :=
  mkMachine (new_trainer (Some (the_model 1)) (Some (the_optimizer 0)) two_metrics)
            empty_world.

(** One training batch that both thresholds accept, and one that only the
    wider accepts. *)
Definition train_both : list batch := [ ([1], [1], ["a.png"%string]) ].
Definition train_wider : list batch := [ ([1], [7 # 5], ["a.png"%string]) ].

(** Two validation elements of ratio 1.4: outside 1.25, within 1.5625. *)
Definition val_wider : list batch :=
  [ ([1; 1], [7 # 5; 7 # 5], ["b.png"; "c.png"]%string) ].

(** C8: [reset_metrics] empties the loss accumulator, resets the timer and
    resets the metrics (every member of a collection that has no compute
    groups yet is at its defaults afterwards), but it keeps the compute
    groups of the collection, and so does every later update: the groups
    are formed by the first update of the trainer's life, from the states
    the first training batch leaves.  The val/ values therefore depend on
    the training batches at equal model parameters.  On the linear trainer
    with learning rate 0 and the thresholds 1.25 and 1.5625, the same
    validation batch, all of whose elements are within 1.5625, is reported
    with val/TA2 = 0 after a first training batch that both thresholds
    accept (one group, TA2 reports the state of TA1) and with val/TA2 = 1
    after one that only the wider accepts (two groups). *)
Theorem validation_metrics_follow_compute_groups :
  (forall (N : Numerics) (C : Collaborators) (K : Comparison) (s : machine),
      let after := snd (reset_metrics s) in
      loss_logger (self after) = MeanMetric.default /\
      timer (self after) = timer_reset (timer (self s)) /\
      prefix (metrics (self after)) = prefix (metrics (self s)) /\
      groups (metrics (self after)) = groups (metrics (self s)))
  /\ (forall (N : Numerics) (K : Comparison) pre ms,
         collection_reset (mkCollection pre ms None)
         = mkCollection pre (members_reset ms) None /\
         Forall (fun nm => cur (snd nm) = defaults (snd nm)) (members_reset ms))
  /\ (forall (N : Numerics) (K : Comparison) pre ms gs preds target,
         groups (snd (collection_update (mkCollection pre ms (Some gs)) preds target))
         = Some gs)
  /\ (let run_both := train_one_epoch 1 train_both val_wider 1 grader in
      let run_wider := train_one_epoch 1 train_wider val_wider 1 grader in
      model (self (snd run_both)) = model (self (snd run_wider)) /\
      groups (metrics (self (snd run_both))) = Some [["TA1"; "TA2"]]%string /\
      groups (metrics (self (snd run_wider))) = Some [["TA1"]; ["TA2"]]%string /\
      (exists r_both r_wider,
          fst run_both = Ok r_both /\ fst run_wider = Ok r_wider /\
          dict_get "val/TA1" r_both = Some (CMetric (Some (0 # 2))) /\
          dict_get "val/TA1" r_wider = Some (CMetric (Some (0 # 2))) /\
          dict_get "val/TA2" r_both = Some (CMetric (Some (0 # 2))) /\
          dict_get "val/TA2" r_wider = Some (CMetric (Some (2 # 2)))) /\
      (exists st, ThresholdAccuracy.update (25 # 16) MeanMetric.default
                    [1; 1] [7 # 5; 7 # 5] = Ok st /\
                  ThresholdAccuracy.compute st = Some (2 # 2))).
Proof.
  split; [|split; [|split]].
  - intros N C K s. cbv zeta. rewrite reset_metrics_run.
    cbn [snd self]. by destruct s as [[] ?].
  - intros N K pre ms. split; [done|]. apply members_reset_defaults.
  - intros N K pre ms gs preds target. apply collection_update_groups.
  - cbv zeta. split; [by vm_compute|]. split; [by vm_compute|].
    split; [by vm_compute|]. split.
    + eexists. eexists. split; [by vm_compute|]. split; [by vm_compute|].
      split; [by vm_compute|]. split; [by vm_compute|]. split; by vm_compute.
    + eexists. split; by vm_compute.
Qed.

End LinearGroups.

(** * Further properties of the metrics *)

(** ** ThresholdAccuracy over a stream of batches *)

(** A batch as the list of its (prediction, target) element pairs, and the
    accumulator after one [update] per batch. *)
Fixpoint threshold_feed (threshold : Q) (st : MeanMetric.state)
    (batches : list (list (Q * Q))) : result MeanMetric.state :=
  match batches with
  | [] => Ok st
  | b :: rest =>
      match ThresholdAccuracy.update threshold st (map fst b) (map snd b) with
      | Ok st' => threshold_feed threshold st' rest
      | Raise e => Raise e
      end
  end.

Lemma hits_le_length thr (pts : list (Q * Q)) : (hits thr pts <= length pts)%nat.
Proof. unfold hits. apply length_filter. Qed.

Lemma hits_app thr (a b : list (Q * Q)) : hits thr (a ++ b) = (hits thr a + hits thr b)%nat.
Proof. unfold hits. by rewrite filter_app, length_app. Qed.

Lemma threshold_feed_totals thr st (batches : list (list (Q * Q))) :
  exists st',
    threshold_feed thr st batches = Ok st' /\
    (MeanMetric.value st'
     == MeanMetric.value st + inject_Z (Z.of_nat (hits thr (concat batches))))%Q /\
    (MeanMetric.weight st'
     == MeanMetric.weight st + inject_Z (Z.of_nat (length (concat batches))))%Q.
Proof.
  revert st. induction batches as [|b batches IH]; intros st.
  - exists st. split; [done|]. cbn. split; ring.
  - destruct (threshold_update_pairs thr st b) as (st1 & Hup & Hv1 & Hw1).
    destruct (IH st1) as (st' & Hfeed & Hv & Hw).
    exists st'. cbn [threshold_feed]. rewrite Hup. split; [done|].
    cbn [concat]. rewrite hits_app, length_app, !Nat2Z.inj_add, !inject_Z_plus.
    rewrite Hv, Hw, Hv1, Hw1. split; ring.
Qed.

(** X1 (threshold accuracy is the fraction over all elements): however the
    element pairs are cut into batches, after one update per batch from the
    reset state [compute] is nan when no element was seen and otherwise the
    number of pairs under the threshold divided by the number of pairs, a
    value between 0 and 1. *)
Theorem threshold_accuracy_is_fraction (thr : Q) (batches : list (list (Q * Q))) :
  exists st',
    threshold_feed thr MeanMetric.default batches = Ok st' /\
    match ThresholdAccuracy.compute st' with
    | None => concat batches = []
    | Some c =>
        concat batches <> [] /\
        (c == inject_Z (Z.of_nat (hits thr (concat batches)))
              / inject_Z (Z.of_nat (length (concat batches))))%Q /\
        (0 <= c <= 1)%Q
    end.
Proof.
  destruct (threshold_feed_totals thr MeanMetric.default batches)
    as (st' & Hfeed & Hv & Hw).
  cbn [MeanMetric.default MeanMetric.value MeanMetric.weight] in Hv, Hw.
  exists st'. split; [done|]. unfold ThresholdAccuracy.compute.
  destruct (concat batches) as [|pt pts] eqn:Hall.
  - unfold MeanMetric.compute.
    assert (Qeq_bool (MeanMetric.weight st') 0 = true) as ->; [|done].
    apply Qeq_bool_iff. rewrite Hw. reflexivity.
  - pose proof (inject_nat_pos (length (pt :: pts)) ltac:(cbn; lia)) as Hpos.
    rewrite MeanMetric_compute_pos by (rewrite Hw; lra).
    split; [done|].
    assert (MeanMetric.value st' / MeanMetric.weight st'
            == inject_Z (Z.of_nat (hits thr (pt :: pts)))
               / inject_Z (Z.of_nat (length (pt :: pts))))%Q as Hc.
    { rewrite Hv, Hw. field. lra. }
    split; [exact Hc|]. rewrite Hc.
    pose proof (hits_le_length thr (pt :: pts)) as Hle.
    assert (0 <= inject_Z (Z.of_nat (hits thr (pt :: pts))))%Q as H0.
    { change 0%Q with (inject_Z 0). rewrite <- Zle_Qle. lia. }
    assert (inject_Z (Z.of_nat (hits thr (pt :: pts)))
            <= inject_Z (Z.of_nat (length (pt :: pts))))%Q as H1.
    { rewrite <- Zle_Qle. lia. }
    split.
    + apply Qle_shift_div_l; [done|]. lra.
    + apply Qle_shift_div_r; [done|]. lra.
Qed.

(** ** The ratio behind the threshold *)

Lemma Qmaximum_ub (a b : Q) : (a <= Qmaximum a b /\ b <= Qmaximum a b)%Q.
Proof. destruct (Qmaximum_spec a b) as [[? ->]|[? ->]]; lra. Qed.

Lemma Qmaximum_sym (a b : Q) : (Qmaximum a b == Qmaximum b a)%Q.
Proof.
  destruct (Qmaximum_spec a b) as [[? ->]|[? ->]];
    destruct (Qmaximum_spec b a) as [[? ->]|[? ->]]; lra.
Qed.

Lemma Qltb_proper (a b thr : Q) : (a == b)%Q -> Qltb a thr = Qltb b thr.
Proof.
  intros E. destruct (Qltb b thr) eqn:Hb.
  - apply Qltb_lt. apply Qltb_lt in Hb. lra.
  - apply Qltb_ge. apply Qltb_ge in Hb. lra.
Qed.

Lemma ratio_ge_1 (p t : Q) : (1 <= ThresholdAccuracy.ratio p t)%Q.
Proof.
  unfold ThresholdAccuracy.ratio; cbv zeta.
  pose proof (clamp_floor_pos p) as Hp. pose proof (clamp_floor_pos t) as Ht.
  set (p' := Qclamp_min ThresholdAccuracy.floor p) in *.
  set (t' := Qclamp_min ThresholdAccuracy.floor t) in *.
  destruct (Qmaximum_ub (p' / t') (t' / p')) as [Ha Hb].
  destruct (Qlt_le_dec p' t') as [Hlt|Hle].
  - apply Qle_trans with (t' / p')%Q; [|done]. apply Qle_shift_div_l; lra.
  - apply Qle_trans with (p' / t')%Q; [|done]. apply Qle_shift_div_l; lra.
Qed.

Lemma mask_elt_sym (thr p t : Q) :
  ThresholdAccuracy.mask_elt thr p t = ThresholdAccuracy.mask_elt thr t p.
Proof.
  unfold ThresholdAccuracy.mask_elt.
  by rewrite (Qltb_proper _ (ThresholdAccuracy.ratio t p)) by apply Qmaximum_sym.
Qed.

Lemma zip_with_sym {A B} (f : A -> A -> B) (x y : list A) :
  (forall a b, f a b = f b a) -> zip_with f x y = zip_with f y x.
Proof.
  intros Hf. revert y. induction x as [|a x IH]; intros [|b y]; try done.
  cbn. by rewrite Hf, IH.
Qed.

(** X2 (threshold accuracy does not tell prediction from target): on a
    prediction and a target of the same size, exchanging the two arguments
    of [update] gives the same accumulator, because the mask is taken on
    the larger of the two quotients. *)
Theorem threshold_update_symmetric (thr : Q) (st : MeanMetric.state)
    (preds target : qtensor) :
  length preds = length target ->
  ThresholdAccuracy.update thr st preds target =
  ThresholdAccuracy.update thr st target preds.
Proof.
  intros _.
  unfold ThresholdAccuracy.update, elementwise.
  rewrite (Nat.eqb_sym (length target)).
  by rewrite (zip_with_sym (ThresholdAccuracy.mask_elt thr) preds target)
    by apply mask_elt_sym.
Qed.

Lemma threshold_update_symmetric_witness :
  ThresholdAccuracy.update (5 # 4) MeanMetric.default [1; 3]%Q [2; 3]%Q =
  ThresholdAccuracy.update (5 # 4) MeanMetric.default [2; 3]%Q [1; 3]%Q.
Proof.
  apply (threshold_update_symmetric (5 # 4) MeanMetric.default [1; 3]%Q [2; 3]%Q).
  reflexivity.
Defined.

Lemma hits_mono (thr1 thr2 : Q) (pts : list (Q * Q)) :
  (thr1 <= thr2)%Q -> (hits thr1 pts <= hits thr2 pts)%nat.
Proof.
  intros Hle. unfold hits. induction pts as [|pt pts IH]; [done|].
  rewrite !filter_cons.
  destruct (decide (Qltb (ThresholdAccuracy.ratio pt.1 pt.2) thr1 = true)) as [H1|H1].
  - rewrite decide_True; [cbn; lia|].
    apply Qltb_lt. apply Qltb_lt in H1. lra.
  - destruct (decide (Qltb (ThresholdAccuracy.ratio pt.1 pt.2) thr2 = true)); cbn; lia.
Qed.

Lemma hits_none_below_one (thr : Q) (pts : list (Q * Q)) :
  (thr <= 1)%Q -> hits thr pts = 0%nat.
Proof.
  intros Hle. unfold hits. induction pts as [|pt pts IH]; [done|].
  rewrite filter_cons, decide_False; [done|].
  intros H. apply Qltb_lt in H. pose proof (ratio_ge_1 pt.1 pt.2). lra.
Qed.

(** X3 (a threshold of at most 1 accepts nothing): the quotient
    [max(p/t, t/p)] is at least 1 and the comparison with the threshold is
    strict, so with [threshold <= 1] every element is a miss and the
    accuracy of any non-empty stream of batches is 0, even for predictions
    equal to their targets. *)
Theorem threshold_at_most_one_scores_zero (thr : Q) (batches : list (list (Q * Q))) :
  (thr <= 1)%Q ->
  exists st',
    threshold_feed thr MeanMetric.default batches = Ok st' /\
    match ThresholdAccuracy.compute st' with
    | None => concat batches = []
    | Some c => (c == 0)%Q
    end.
Proof.
  intros Hle.
  destruct (threshold_feed_totals thr MeanMetric.default batches)
    as (st' & Hfeed & Hv & Hw).
  cbn [MeanMetric.default MeanMetric.value MeanMetric.weight] in Hv, Hw.
  rewrite hits_none_below_one in Hv by done.
  exists st'. split; [done|]. unfold ThresholdAccuracy.compute, MeanMetric.compute.
  destruct (Qeq_bool (MeanMetric.weight st') 0) eqn:E.
  - apply Qeq_bool_iff in E. rewrite Hw in E.
    destruct (concat batches) as [|pt pts]; [done|exfalso].
    pose proof (inject_nat_pos (length (pt :: pts)) ltac:(cbn; lia)). lra.
  - apply Qeq_bool_neq in E. rewrite Hv. field. done.
Qed.

Lemma threshold_at_most_one_scores_zero_witness :
  exists st',
    threshold_feed 1 MeanMetric.default [[(2%Q, 2%Q); (3%Q, 3%Q)]] = Ok st' /\
    match ThresholdAccuracy.compute st' with
    | None => concat [[(2%Q, 2%Q); (3%Q, 3%Q)]] = []
    | Some c => (c == 0)%Q
    end.
Proof. apply (threshold_at_most_one_scores_zero 1 [[(2%Q, 2%Q); (3%Q, 3%Q)]]). discriminate. Defined.

(** X4 (accuracy grows with the threshold): on the same stream of batches a
    larger threshold never gives a smaller accuracy, which orders the three
    instances of train.py (1.25, 1.25^2, 1.25^3) as TA1 <= TA2 <= TA3. *)
Theorem threshold_accuracy_monotone (thr1 thr2 : Q) (batches : list (list (Q * Q))) :
  (thr1 <= thr2)%Q ->
  exists st1 st2,
    threshold_feed thr1 MeanMetric.default batches = Ok st1 /\
    threshold_feed thr2 MeanMetric.default batches = Ok st2 /\
    match ThresholdAccuracy.compute st1, ThresholdAccuracy.compute st2 with
    | Some c1, Some c2 => (c1 <= c2)%Q
    | None, None => concat batches = []
    | _, _ => False
    end.
Proof.
  intros Hle.
  destruct (threshold_feed_totals thr1 MeanMetric.default batches)
    as (st1 & Hfeed1 & Hv1 & Hw1).
  destruct (threshold_feed_totals thr2 MeanMetric.default batches)
    as (st2 & Hfeed2 & Hv2 & Hw2).
  cbn [MeanMetric.default MeanMetric.value MeanMetric.weight] in Hv1, Hw1, Hv2, Hw2.
  exists st1, st2. split; [done|]. split; [done|].
  unfold ThresholdAccuracy.compute.
  destruct (concat batches) as [|pt pts] eqn:Hall.
  - unfold MeanMetric.compute.
    assert (Qeq_bool (MeanMetric.weight st1) 0 = true) as ->
      by (apply Qeq_bool_iff; rewrite Hw1; reflexivity).
    by assert (Qeq_bool (MeanMetric.weight st2) 0 = true) as ->
      by (apply Qeq_bool_iff; rewrite Hw2; reflexivity).
  - pose proof (inject_nat_pos (length (pt :: pts)) ltac:(cbn; lia)) as Hpos.
    rewrite !MeanMetric_compute_pos by (rewrite ?Hw1, ?Hw2; lra).
    rewrite Hv1, Hw1, Hv2, Hw2, !Qplus_0_l. unfold Qdiv.
    apply Qmult_le_compat_r.
    + rewrite <- Zle_Qle. pose proof (hits_mono thr1 thr2 (pt :: pts) Hle). lia.
    + apply Qinv_le_0_compat. lra.
Qed.

Lemma threshold_accuracy_monotone_witness :
  exists st1 st2,
    threshold_feed (5 # 4) MeanMetric.default [[(2%Q, 2%Q); (3%Q, 2%Q)]] = Ok st1 /\
    threshold_feed (25 # 16) MeanMetric.default [[(2%Q, 2%Q); (3%Q, 2%Q)]] = Ok st2 /\
    match ThresholdAccuracy.compute st1, ThresholdAccuracy.compute st2 with
    | Some c1, Some c2 => (c1 <= c2)%Q
    | None, None => concat [[(2%Q, 2%Q); (3%Q, 2%Q)]] = []
    | _, _ => False
    end.
Proof.
  apply (threshold_accuracy_monotone (5 # 4) (25 # 16) [[(2%Q, 2%Q); (3%Q, 2%Q)]]).
  discriminate.
Defined.

Lemma clamp_at_floor (x : Q) :
  (x <= ThresholdAccuracy.floor)%Q ->
  (Qclamp_min ThresholdAccuracy.floor x == ThresholdAccuracy.floor)%Q.
Proof.
  intros Hx.
  destruct (Qclamp_min_spec ThresholdAccuracy.floor x) as [[? ->]|[? ->]]; lra.
Qed.

(** X5 (the clamp makes invalid pixels count as correct): when prediction and
    target are both at or below the floor 1e-6 (zero and negative depths
    included), both are clamped to the floor, the quotient is 1 and the
    element is a hit for every threshold above 1. *)
Theorem threshold_floor_pair_is_hit (thr p t : Q) :
  (1 < thr)%Q ->
  (p <= ThresholdAccuracy.floor)%Q ->
  (t <= ThresholdAccuracy.floor)%Q ->
  ThresholdAccuracy.mask_elt thr p t = 1%Q.
Proof.
  intros Hthr Hp Ht. pose proof floor_pos as Hf.
  assert (ThresholdAccuracy.ratio p t == 1)%Q as Hr.
  { unfold ThresholdAccuracy.ratio; cbv zeta.
    pose proof (clamp_at_floor p Hp) as Ep. pose proof (clamp_at_floor t Ht) as Et.
    set (p' := Qclamp_min ThresholdAccuracy.floor p) in *.
    set (t' := Qclamp_min ThresholdAccuracy.floor t) in *.
    assert (p' / t' == 1)%Q as E1 by (rewrite Ep, Et; field; lra).
    assert (t' / p' == 1)%Q as E2 by (rewrite Ep, Et; field; lra).
    destruct (Qmaximum_spec (p' / t') (t' / p')) as [[_ ->]|[_ ->]]; done. }
  unfold ThresholdAccuracy.mask_elt.
  assert (Qltb (ThresholdAccuracy.ratio p t) thr = true) as ->; [|done].
  apply Qltb_lt. lra.
Qed.

Lemma threshold_floor_pair_is_hit_witness :
  ThresholdAccuracy.mask_elt (5 # 4) 0 (-1) = 1%Q.
Proof. apply (threshold_floor_pair_is_hit (5 # 4) 0 (-1)); discriminate || reflexivity. Defined.

(** ** Log10AverageError is symmetric *)

Section Log10Stream.
Import Log10AverageError.
#[local] Open Scope R_scope.

Lemma abs_log_error_sym (p t : R) : abs_log_error p t = abs_log_error t p.
Proof. unfold abs_log_error. apply Rabs_minus_sym. Qed.

End Log10Stream.

(** X7 (the log error does not tell prediction from target): exchanging the
    two arguments of [update] gives the same accumulator, or the same error
    when the sizes differ. *)
Theorem log10_update_symmetric (st : Log10AverageError.state) (preds target : list R) :
  Log10AverageError.update st preds target =
  Log10AverageError.update st target preds.
Proof.
  unfold Log10AverageError.update, elementwise.
  rewrite (Nat.eqb_sym (length target)).
  destruct (Nat.eqb_spec (length preds) (length target)) as [E|]; [|done].
  rewrite E.
  by rewrite (zip_with_sym Log10AverageError.abs_log_error preds target)
    by apply abs_log_error_sym.
Qed.

(** * Further properties of the trainer *)

(** ** Checkpoints at the edges *)

Section CheckpointEdges.
Context `{Collaborators} `{!Comparison}.

(** X10 (a failed load can leave the trainer half loaded): [load_checkpoint]
    installs the model's parameters before it looks at the optimizer, so
    when the saved optimizer has other parameter-group sizes the call raises
    with the model already overwritten by the saved parameters, while the
    optimizer and the history keep their old values. *)
Theorem load_checkpoint_not_atomic (t : BaseTrainer) (w : World) (filename : string)
    (m0 m : Model) (o0 o : Optimizer) (h : option DataFrame) :
  model t = Some m0 -> optimizer t = Some o0 ->
  fs w !! filename = Some (Archive (checkpoint_of m o h) true) ->
  shape <$> parameters m0 = shape <$> parameters m ->
  n_params <$> param_groups o0 <> n_params <$> param_groups o ->
  let out := load_checkpoint filename (mkMachine t w) in
  is_ok (fst out) = false /\
  self (snd out) = with_model (Some (mkModel (training m0) (parameters m))) t /\
  world (snd out) = w.
Proof.
  intros Hm Ho Hfile Hshape Hgroups. cbv zeta.
  unfold load_checkpoint, lift, update_self, raise, mbind, M_bind, mret, M_ret,
    torch_load. cbn. rewrite Hfile, Hm, Ho. cbn.
  rewrite model_load_same_structure by done. cbn.
  unfold optimizer_load_state_dict.
  destruct (negb (length (param_groups o0) =? length (param_groups o))); [done|].
  by rewrite bool_decide_eq_false_2 by done.
Qed.

(** X11 (loading skips what the trainer does not have): a trainer built
    without an optimizer loads a training checkpoint all the same; it takes
    the saved parameters and the saved history, ignores the saved optimizer
    state, which the returned dictionary still carries, and writes nothing. *)
Theorem load_checkpoint_without_optimizer (t : BaseTrainer) (w : World)
    (filename : string) (m0 m : Model) (o : Optimizer) (h0 : DataFrame)
    (h : option DataFrame) :
  model t = Some m0 -> optimizer t = None -> history t = Some h0 ->
  fs w !! filename = Some (Archive (checkpoint_of m o h) true) ->
  shape <$> parameters m0 = shape <$> parameters m ->
  load_checkpoint filename (mkMachine t w) =
  (Ok (checkpoint_of m o h),
   mkMachine (with_history h
                (with_model (Some (mkModel (training m0) (parameters m))) t)) w).
Proof.
  intros Hm Ho Hh Hfile Hshape.
  unfold load_checkpoint, lift, update_self, raise, mbind, M_bind, mret, M_ret,
    torch_load. cbn. rewrite Hfile, Hm, Ho, Hh. cbn.
  rewrite model_load_same_structure by done. cbn.
  by destruct h.
Qed.

(** X12 (saving needs both a model and an optimizer): on a trainer whose
    model or optimizer is None, [save_checkpoint] prints its line and then
    raises AttributeError while building the dictionary, before any file is
    opened: the trainer and the files are as before. *)
Theorem save_checkpoint_needs_optimizer (t : BaseTrainer) (w : World) (filename : string) :
  model t = None \/ optimizer t = None ->
  save_checkpoint filename (mkMachine t w) =
  (Raise (AttributeError "state_dict"),
   mkMachine t (with_stdout (stdout w ++ [OutSaving filename]) w)).
Proof.
  intros Hnone. unfold save_checkpoint, build_checkpoint, print, update_world,
    get_self, attr_of, raise, mbind, M_bind, mret, M_ret. cbn -[torch_save].
  destruct (model t) as [m|]; [|done]. cbn -[torch_save].
  by destruct Hnone as [Hn | ->].
Qed.

(** X13 (an unreadable checkpoint changes nothing): when the file is missing,
    or is an archive that was never sealed, such as the one an interrupted
    save leaves behind, [load_checkpoint] raises before it touches the
    trainer: FileNotFoundError for a missing path, EOFError for the empty
    file of a save that stopped before its first record, and RuntimeError
    from the zip reader for one that stopped after it. *)
Theorem load_checkpoint_unreadable (t0 t : BaseTrainer) (w : World) (filename : string)
    (m : Model) (o : Optimizer) (k : nat) :
  model t = Some m -> optimizer t = Some o ->
  1 <= k <= length (checkpoint_of m o (history t)) ->
  let broken := snd (save_checkpoint_interrupted (S k) filename (mkMachine t w)) in
  let empty := snd (save_checkpoint_interrupted 1 filename (mkMachine t w)) in
  load_checkpoint filename (mkMachine t0 (world broken)) =
    (Raise (RuntimeError "PytorchStreamReader failed reading zip archive"),
     mkMachine t0 (world broken))
  /\ load_checkpoint filename (mkMachine t0 (world empty)) =
       (Raise EOFError, mkMachine t0 (world empty))
  /\ forall w', fs w' !! filename = None ->
       load_checkpoint filename (mkMachine t0 w') =
       (Raise (FileNotFoundError filename), mkMachine t0 w').
Proof.
  intros Hm Ho Hk. cbv zeta. split; [|split].
  - rewrite (save_checkpoint_interrupted_fs (S k) t w filename m o Hm Ho).
    cbn [snd world]. unfold load_checkpoint, lift, mbind, M_bind, torch_load.
    cbn [world with_fs fs]. rewrite torch_save_interrupted_insert by lia.
    rewrite lookup_insert_eq. destruct k as [|k]; [lia|]. done.
  - rewrite (save_checkpoint_interrupted_fs 1 t w filename m o Hm Ho).
    cbn [snd world]. unfold load_checkpoint, lift, mbind, M_bind, torch_load.
    cbn [world with_fs fs]. rewrite torch_save_interrupted_insert by lia.
    by rewrite lookup_insert_eq.
  - intros w' Hnone. unfold load_checkpoint, lift, mbind, M_bind, torch_load.
    cbn [world]. by rewrite Hnone.
Qed.

End CheckpointEdges.

Section LinearCheckpointEdges.
Import Linear.
#[local] Open Scope Q_scope.

(** A saved optimizer with two parameters in its group, and a trainer for
    inference only. *)
Definition wide_optimizer : Optimizer := mkOptimizer [mkGroup (1 # 10) [] 2] ∅.

Definition stored (o : Optimizer) : World :=
  mkWorld (<["ck.pkl"%string :=
             Archive (checkpoint_of (the_model 2) o (history seasoned)) true]> ∅)
          [] [] true.

Definition predictor : BaseTrainer := new_trainer (Some (the_model 0)) None the_metrics.

Lemma load_checkpoint_not_atomic_witness :
  let out := load_checkpoint "ck.pkl" (mkMachine fresh (stored wide_optimizer)) in
  is_ok (fst out) = false /\
  self (snd out) = with_model (Some (mkModel false (parameters (the_model 2)))) fresh /\
  world (snd out) = stored wide_optimizer.
Proof.
  apply (load_checkpoint_not_atomic fresh (stored wide_optimizer) "ck.pkl"
           (the_model 0) (the_model 2) (the_optimizer (1 # 2)) wide_optimizer
           (history seasoned) eq_refl eq_refl).
  - apply lookup_insert_eq.
  - by vm_compute.
  - discriminate.
Defined.

Lemma load_checkpoint_without_optimizer_witness :
  load_checkpoint "ck.pkl" (mkMachine predictor (stored (the_optimizer (1 # 10)))) =
  (Ok (checkpoint_of (the_model 2) (the_optimizer (1 # 10)) (history seasoned)),
   mkMachine (with_history (history seasoned)
                (with_model (Some (mkModel false (parameters (the_model 2)))) predictor))
             (stored (the_optimizer (1 # 10)))).
Proof.
  apply (load_checkpoint_without_optimizer predictor (stored (the_optimizer (1 # 10)))
           "ck.pkl" (the_model 0) (the_model 2) (the_optimizer (1 # 10)) []
           (history seasoned) eq_refl eq_refl eq_refl).
  - apply lookup_insert_eq.
  - by vm_compute.
Defined.

Lemma save_checkpoint_needs_optimizer_witness :
  save_checkpoint "ck.pkl" (mkMachine predictor empty_world) =
  (Raise (AttributeError "state_dict"),
   mkMachine predictor (with_stdout (stdout empty_world ++ [OutSaving "ck.pkl"]) empty_world)).
Proof.
  apply (save_checkpoint_needs_optimizer predictor empty_world "ck.pkl").
  by right.
Defined.

Lemma load_checkpoint_unreadable_witness :
  let broken :=
    snd (save_checkpoint_interrupted 2 "ck.pkl" (mkMachine seasoned empty_world)) in
  let empty :=
    snd (save_checkpoint_interrupted 1 "ck.pkl" (mkMachine seasoned empty_world)) in
  load_checkpoint "ck.pkl" (mkMachine fresh (world broken)) =
    (Raise (RuntimeError "PytorchStreamReader failed reading zip archive"),
     mkMachine fresh (world broken))
  /\ load_checkpoint "ck.pkl" (mkMachine fresh (world empty)) =
       (Raise EOFError, mkMachine fresh (world empty))
  /\ forall w', fs w' !! "ck.pkl"%string = None ->
       load_checkpoint "ck.pkl" (mkMachine fresh w') =
       (Raise (FileNotFoundError "ck.pkl"), mkMachine fresh w').
Proof.
  apply (load_checkpoint_unreadable fresh seasoned empty_world "ck.pkl"
           (the_model 2) (the_optimizer (1 # 10)) 1 eq_refl eq_refl).
  cbn. lia.
Defined.

End LinearCheckpointEdges.

(** ** What a pass and an epoch leave behind *)

Section PassFacts.
Context `{Collaborators} `{!Comparison}.

(** The module's training flag and torch's global gradient switch. *)
Definition mode (s : machine) : option bool * bool :=
  (training <$> model (self s), grad_enabled (world s)).

Lemma compute_members_mode items step acc : keeps mode (compute_members items step acc).
Proof.
  revert acc. induction items as [|[name metric] items IH]; intros acc;
    cbn [compute_members]; [apply keeps_ret|].
  apply keeps_bind; [|intros _; apply IH].
  unfold add_scalar. keeps_tac.
Qed.

Lemma validating_rest_mode epoch loader verbose :
  keeps mode
    (timer_do timer_start;;
     for_enumerate 1 loader (fun i (b : batch) =>
       one_batch Validating (fst (fst b)) (snd (fst b));;
       report Validating epoch i (Z.of_nat (length loader)) verbose);;
     result ← get_metrics_dict (phase_prefix Validating) epoch;
     reset_metrics;;
     mret result).
Proof.
  unfold one_batch, val_one_batch, call_model, metrics_update, log_loss, report,
    timer_text, print, get_metrics_dict, add_scalar, reset_metrics, timer_do.
  keeps_tac. apply compute_members_mode.
Qed.

Lemma run_pass_validating_mode epoch loader verbose s r s' :
  run_pass Validating epoch loader verbose s = (Ok r, s') ->
  mode s' = (Some false, false).
Proof.
  unfold run_pass. intros Hrun.
  apply bind_ok_inv in Hrun as (? & s1 & Hset & Hrun).
  apply (keeps_ok mode) in Hrun; [|apply validating_rest_mode].
  rewrite Hrun. revert Hset. destruct s as [t w].
  unfold set_train_mode, get_self, attr_of, update_self, update_world, raise.
  mrun. destruct (model t) as [m|]; mrun; [|done]. by intros [= _ <-].
Qed.

(** X14 (an epoch ends in evaluation mode): whatever the mode before, when
    [train_one_epoch] returns the model is in eval mode and torch's global
    gradient switch is off, because the validation pass comes last and
    nothing sets the mode back. *)
Theorem train_one_epoch_leaves_eval_mode (epoch : Z)
    (train_loader val_loader : list batch) (verbose : Z) (s : machine) :
  let out := train_one_epoch epoch train_loader val_loader verbose s in
  is_ok (fst out) = true ->
  training <$> model (self (snd out)) = Some false /\
  grad_enabled (world (snd out)) = false.
Proof.
  cbv zeta.
  destruct (train_one_epoch epoch train_loader val_loader verbose s)
    as [[r|e] s'] eqn:Hrun; [intros _|done]. cbn [snd].
  unfold train_one_epoch in Hrun.
  apply bind_ok_inv in Hrun as (tr & s1 & _ & Hrun).
  apply bind_ok_inv in Hrun as (vr & s2 & Hval & Hrun).
  apply run_pass_validating_mode in Hval.
  assert (mode s' = mode s2) as Hmode.
  { eapply keeps_ok; [|exact Hrun]. keeps_tac. }
  rewrite Hval in Hmode. by injection Hmode as -> ->.
Qed.

(** *** [get_metrics_dict] in closed form *)

Definition metric_cells (pre : string) (ms : list (string * Metric))
  : list (string * cell) :=
  map (fun nm => (pre +:+ fst nm, CMetric (metric_compute (snd nm)))) ms.

Lemma compute_members_run items step acc s :
  compute_members items step acc s =
  (Ok (dict_update acc (metric_cells "" items)),
   mkMachine (self s)
     (with_writer
        (writer (world s)
         ++ map (fun kv => (fst kv, snd kv, step)) (metric_cells "" items))
        (world s))).
Proof.
  revert acc s. induction items as [|[name metric] items IH]; intros acc s.
  - cbn. destruct s as [t [f so wr g]]. unfold with_writer. cbn.
    by rewrite app_nil_r.
  - cbn [compute_members]. unfold add_scalar, update_world. rewrite bind_run.
    rewrite IH. cbn. unfold with_writer. cbn. by rewrite <- app_assoc.
Qed.

Lemma metric_cells_items pre ms gs :
  metric_cells "" (collection_items (mkCollection pre ms gs)) = metric_cells pre ms.
Proof.
  unfold metric_cells, collection_items. cbn [prefix members].
  rewrite map_map. by apply map_ext.
Qed.

Lemma get_metrics_dict_run pre step t w :
  get_metrics_dict pre step (mkMachine t w) =
  (Ok (dict_update
         (dict_set (pre +:+ "time") (CInt (py_int (fst (timer_stop (timer t)))))
            (dict_set (pre +:+ "loss") (CFloat (MeanMetric.compute (loss_logger t))) []))
         (dict_update [] (metric_cells pre (members (metrics t))))),
   mkMachine
     (with_metrics (mkCollection pre (members (metrics t)) (groups (metrics t)))
        (with_timer (snd (timer_stop (timer t))) t))
     (with_writer
        (writer w
         ++ (pre +:+ "loss", CFloat (MeanMetric.compute (loss_logger t)), step)
            :: map (fun kv => (fst kv, snd kv, step))
                   (metric_cells pre (members (metrics t))))
        w)).
Proof.
  unfold get_metrics_dict, get_self, update_self, add_scalar, update_world.
  rewrite !bind_run. cbn [self world].
  destruct (timer_stop (timer t)) as [time tm]. rewrite !bind_run. cbn [self world].
  rewrite compute_members_run. cbn [self world metrics with_metrics].
  rewrite metric_cells_items. unfold with_writer. cbn.
  by rewrite <- app_assoc.
Qed.

End PassFacts.

Lemma dict_set_fresh {V} (k : string) (v : V) (d : dict V) :
  k ∉ map fst d -> dict_set k v d = d ++ [(k, v)].
Proof.
  induction d as [|[k' v'] d IH]; [done|]. cbn [map fst dict_set app].
  intros Hk. apply not_elem_of_cons in Hk as [Hne Hk].
  destruct (String.eqb_spec k k') as [|_]; [done|]. by rewrite IH.
Qed.

Lemma dict_update_fresh {V} (d e : dict V) :
  NoDup (map fst e) ->
  (forall k, k ∈ map fst e -> k ∉ map fst d) ->
  dict_update d e = d ++ e.
Proof.
  unfold dict_update. revert d. induction e as [|[k v] e IH]; intros d Hnd Hdis.
  - by rewrite app_nil_r.
  - cbn [map fst] in Hnd, Hdis. apply NoDup_cons in Hnd as [Hk Hnd].
    cbn [fold_left fst snd]. rewrite dict_set_fresh by (apply Hdis; left).
    rewrite IH, <- app_assoc; [done|done|].
    intros k' Hk'. rewrite map_app. cbn [map fst]. intros Hin.
    apply elem_of_app in Hin as [Hin|Hin].
    + by apply (Hdis k'); [right|].
    + apply list_elem_of_singleton in Hin as ->. done.
Qed.

Section MetricsDictFacts.
Context `{Collaborators} `{!Comparison}.

(** X15 (reading the metrics resets nothing): when [get_metrics_dict]
    returns, the loss accumulator, every metric's state, the model, the
    optimizer, the history, the files and the console are as they were, the
    collection's prefix is the one given, and the writer has received, at
    the given step, the loss under [prefix + "loss"] followed by one scalar
    per metric under its prefixed name, in the collection's order. *)
Theorem get_metrics_dict_reads_only (pre : string) (step : Z) (s : machine) :
  let out := get_metrics_dict pre step s in
  is_ok (fst out) = true ->
  loss_logger (self (snd out)) = loss_logger (self s) /\
  members (metrics (self (snd out))) = members (metrics (self s)) /\
  prefix (metrics (self (snd out))) = pre /\
  model (self (snd out)) = model (self s) /\
  optimizer (self (snd out)) = optimizer (self s) /\
  history (self (snd out)) = history (self s) /\
  fs (world (snd out)) = fs (world s) /\
  stdout (world (snd out)) = stdout (world s) /\
  writer (world (snd out)) =
    writer (world s)
    ++ (pre +:+ "loss", CFloat (MeanMetric.compute (loss_logger (self s))), step)
       :: map (fun nm => (pre +:+ fst nm, CMetric (metric_compute (snd nm)), step))
              (members (metrics (self s))).
Proof.
  destruct s as [t w]. cbv zeta. rewrite get_metrics_dict_run. intros _.
  cbn [fst snd self world is_ok]. repeat (split; [done|]).
  cbn. do 2 f_equal. unfold metric_cells. by rewrite map_map.
Qed.

(** X16 (the columns of a pass): when the metric names are distinct and none
    is "loss" or "time", the dictionary [get_metrics_dict] returns has the
    loss first, then the elapsed time truncated to an integer, then one
    entry per metric in the collection's order, every key carrying the
    prefix. *)
Theorem get_metrics_dict_columns (pre : string) (step : Z) (s : machine) :
  NoDup (map fst (members (metrics (self s)))) ->
  "loss"%string ∉ map fst (members (metrics (self s))) ->
  "time"%string ∉ map fst (members (metrics (self s))) ->
  fst (get_metrics_dict pre step s) =
  Ok ([ (pre +:+ "loss", CFloat (MeanMetric.compute (loss_logger (self s))));
        (pre +:+ "time", CInt (py_int (fst (timer_stop (timer (self s)))))) ]
      ++ map (fun nm => (pre +:+ fst nm, CMetric (metric_compute (snd nm))))
             (members (metrics (self s)))).
Proof.
  destruct s as [t w]. cbn [self]. intros Hnd Hloss Htime.
  rewrite get_metrics_dict_run. cbn [fst]. f_equal.
  set (ms := members (metrics t)) in *.
  assert (map fst (metric_cells pre ms) = String.app pre <$> map fst ms) as Hkeys.
  { unfold metric_cells. rewrite map_map. change (String.app pre <$> map fst ms)
      with (map (String.app pre) (map fst ms)). by rewrite map_map. }
  assert (NoDup (map fst (metric_cells pre ms))) as Hnd'.
  { rewrite Hkeys. apply NoDup_fmap_2; [apply String.app_inj | done]. }
  rewrite (dict_update_fresh [] (metric_cells pre ms)) by (done || set_solver).
  cbn [app dict_set].
  destruct (String.eqb_spec (pre +:+ "time") (pre +:+ "loss")) as [E|_].
  { by apply String.app_inj in E. }
  rewrite dict_update_fresh; [done|done|].
  intros k Hk. rewrite Hkeys in Hk.
  apply list_elem_of_fmap in Hk as (name & -> & Hname).
  cbn [map fst]. intros Hin.
  apply elem_of_cons in Hin as [E|Hin].
  - apply String.app_inj in E. by subst.
  - apply list_elem_of_singleton in Hin. apply String.app_inj in Hin. by subst.
Qed.

End MetricsDictFacts.

(** ** The console during a pass *)

Section ProgressFacts.
Context `{Collaborators} `{!Comparison}.

Definition printed (s : machine) : list out_line := stdout (world s).

Lemma compute_members_printed items step acc :
  keeps printed (compute_members items step acc).
Proof.
  revert acc. induction items as [|[name metric] items IH]; intros acc;
    cbn [compute_members]; [apply keeps_ret|].
  apply keeps_bind; [|intros _; apply IH].
  unfold add_scalar. keeps_tac.
Qed.

Lemma one_batch_printed ph image y_true : keeps printed (one_batch ph image y_true).
Proof.
  destruct ph; unfold one_batch, train_one_batch, val_one_batch, call_model,
    metrics_update, log_loss; keeps_tac.
Qed.

Lemma pass_end_printed pre epoch :
  keeps printed (result ← get_metrics_dict pre epoch; reset_metrics;; mret result).
Proof.
  unfold get_metrics_dict, add_scalar, reset_metrics, timer_do. keeps_tac.
  apply compute_members_printed.
Qed.

(** The progress lines of the batches numbered from [i]. *)
Definition progress_of (ph : phase) (epoch n : Z) (l : out_line) (j : Z) : Prop :=
  exists eta, l = OutProgress ph epoch j n eta.

Lemma pass_loop_printed ph epoch n verbose (loader : list batch) i s s' :
  verbose <> 0%Z ->
  for_enumerate i loader (fun j (b : batch) =>
    one_batch ph (fst (fst b)) (snd (fst b));;
    report ph epoch j n verbose) s = (Ok tt, s') ->
  exists lines,
    printed s' = printed s ++ lines /\
    Forall2 (progress_of ph epoch n) lines
      (filter (fun j => (j mod verbose = 0)%Z) (seqZ i (Z.of_nat (length loader)))).
Proof.
  intros Hv. revert i s. induction loader as [|b loader IH]; intros i s.
  - intros [= <-]. exists []. by rewrite app_nil_r.
  - cbn [for_enumerate]. intros Hrun.
    apply bind_ok_inv in Hrun as ([] & s2 & Hbody & Hrun).
    apply bind_ok_inv in Hbody as (? & s1 & Hbatch & Hreport).
    apply (keeps_ok printed) in Hbatch; [|apply one_batch_printed].
    rewrite report_run in Hreport.
    destruct (Z.eqb_spec verbose 0) as [|_]; [done|].
    destruct (IH _ _ Hrun) as (lines & Hlines & Hall).
    rewrite seqZ_cons by (cbn [length]; lia). rewrite filter_cons.
    replace (Z.pred (Z.of_nat (length (b :: loader))))
      with (Z.of_nat (length loader)) by (cbn [length]; lia).
    change (Z.succ i) with (i + 1)%Z.
    destruct (Z.eqb_spec (i mod verbose) 0) as [Hdiv|Hdiv].
    + injection Hreport as <-. rewrite decide_True by done.
      eexists (_ :: lines). split.
      * rewrite Hlines. unfold printed at 1. cbn [world with_stdout stdout].
        fold (printed s1). by rewrite Hbatch, <- app_assoc.
      * constructor; [by eexists | done].
    + injection Hreport as <-. rewrite decide_False by done.
      exists lines. split; [by rewrite Hlines, Hbatch | done].
Qed.

(** X17 (one progress line per [verbose] batches): with a non-zero [verbose]
    a pass that returns has printed, after what was on the console, exactly
    one progress line for each batch number between 1 and the number of
    batches that [verbose] divides, in increasing order, each naming the
    phase, the epoch and the number of batches; nothing else is printed. *)
Theorem run_pass_progress_lines (ph : phase) (epoch : Z) (loader : list batch)
    (verbose : Z) (s : machine) :
  verbose <> 0%Z ->
  let out := run_pass ph epoch loader verbose s in
  is_ok (fst out) = true ->
  exists lines,
    stdout (world (snd out)) = stdout (world s) ++ lines /\
    Forall2 (fun l j => exists eta,
               l = OutProgress ph epoch j (Z.of_nat (length loader)) eta)
      lines
      (filter (fun j => (j mod verbose = 0)%Z) (seqZ 1 (Z.of_nat (length loader)))).
Proof.
  intros Hv. cbv zeta.
  destruct (run_pass ph epoch loader verbose s) as [[r|e] s'] eqn:Hrun;
    [intros _|done]. cbn [snd].
  unfold run_pass in Hrun.
  apply bind_ok_inv in Hrun as (? & s1 & Hset & Hrun).
  apply bind_ok_inv in Hrun as (? & s2 & Htimer & Hrun).
  apply bind_ok_inv in Hrun as ([] & s3 & Hloop & Hrun).
  apply (keeps_ok printed) in Hrun; [|apply pass_end_printed].
  apply (keeps_ok printed) in Hset; [|unfold set_train_mode; keeps_tac].
  apply (keeps_ok printed) in Htimer; [|unfold timer_do; keeps_tac].
  apply pass_loop_printed in Hloop as (lines & Hlines & Hall); [|done].
  exists lines. split; [|done].
  change (printed s' = printed s ++ lines). congruence.
Qed.

End ProgressFacts.

(** ** What [train] writes, and where *)

Section TrainEdges.
Context `{Collaborators} `{!Comparison}.

Definition at_path (p : string) (s : machine) : option file := fs (world s) !! p.
Definition hist (s : machine) : option DataFrame := history (self s).

Lemma train_one_epoch_at_path p epoch train_loader val_loader verbose :
  keeps (at_path p) (train_one_epoch epoch train_loader val_loader verbose).
Proof.
  intros s.
  destruct (train_one_epoch epoch train_loader val_loader verbose s) as [r s'] eqn:Hrun.
  apply train_one_epoch_durable in Hrun as [Hfs _].
  unfold at_path. cbn [snd]. by rewrite Hfs.
Qed.

Lemma history_to_csv_at_path p f : p <> f -> keeps (at_path p) (history_to_csv f).
Proof.
  intros Hne. unfold history_to_csv. keeps_tac.
  apply keeps_update_world. intros t w. unfold at_path. cbn [world with_fs fs].
  by rewrite lookup_insert_ne.
Qed.

Lemma save_checkpoint_at_path p f : p <> f -> keeps (at_path p) (save_checkpoint f).
Proof.
  intros Hne. unfold save_checkpoint, build_checkpoint, print. keeps_tac.
  apply keeps_update_world. intros t w. unfold at_path. cbn [world with_fs fs].
  by rewrite torch_save_insert, lookup_insert_ne.
Qed.

Lemma train_epoch_at_path p num_epochs train_loader val_loader verbose k dir local e :
  p <> csv_path dir ->
  (checkpoint_due k e -> p <> label_path dir e) ->
  keeps (at_path p)
    (train_epoch num_epochs train_loader val_loader verbose k dir local e).
Proof.
  intros Hcsv Hlabel. unfold train_epoch.
  destruct (timer_call local.1 e num_epochs) as [txt tm].
  apply keeps_bind; [unfold print; keeps_tac|intros _].
  apply keeps_bind; [apply train_one_epoch_at_path|intros res].
  apply keeps_bind; [unfold verbose_result, print; keeps_tac|intros _].
  apply keeps_bind; [by apply history_to_csv_at_path|intros _].
  apply keeps_bind; [unfold step_scheduler; keeps_tac|intros sch].
  apply keeps_bind; [|intros _; apply keeps_ret].
  destruct (Z.ltb_spec 0 k) as [Hk|Hk]; [|apply keeps_ret].
  unfold py_mod. destruct (Z.eqb_spec k 0) as [|_]; [lia|].
  intros s. unfold lift. rewrite bind_run.
  destruct (Z.eqb_spec (e mod k) 0) as [Hdiv|_]; [|done].
  apply save_checkpoint_at_path, Hlabel. by split.
Qed.

Lemma for_epochs_at_path p num_epochs train_loader val_loader verbose k dir
    (epochs : list Z) local :
  p <> csv_path dir ->
  (forall e, e ∈ epochs -> checkpoint_due k e -> p <> label_path dir e) ->
  keeps (at_path p)
    (for_epochs epochs local
       (train_epoch num_epochs train_loader val_loader verbose k dir)).
Proof.
  intros Hcsv. revert local.
  induction epochs as [|e epochs IH]; intros local Hlabel; cbn [for_epochs].
  - apply keeps_ret.
  - apply keeps_bind.
    + apply train_epoch_at_path; [done|]. apply Hlabel. by left.
    + intros local'. apply IH. intros e' He'. apply Hlabel. by right.
Qed.

(** *** The history, also when an epoch fails *)

Lemma train_epoch_tail_hist res k dir sch0 e (tm : Timer) :
  keeps hist
    (verbose_result res;;
     history_to_csv (path_join dir "history.csv");;
     sch ← step_scheduler sch0;
     (if Z.ltb 0 k
      then r ← lift (py_mod e k);
           if Z.eqb r 0
           then save_checkpoint (path_join dir (epoch_label e))
           else mret tt
      else mret tt);;
     mret (tm, sch)).
Proof.
  unfold verbose_result, history_to_csv, step_scheduler, save_checkpoint,
    build_checkpoint, print. keeps_tac.
Qed.

Lemma train_epoch_history num_epochs train_loader val_loader verbose k dir
    local e s r s' h :
  train_epoch num_epochs train_loader val_loader verbose k dir local e s = (r, s') ->
  hist s = Some h ->
  (hist s' = Some h /\ is_ok r = false) \/
  (exists res, hist s' = Some (h ++ [res]) /\ dict_get "Epoch" res = Some (CInt e)).
Proof.
  unfold train_epoch. destruct (timer_call local.1 e num_epochs) as [txt tm].
  intros Hrun Hh.
  apply bind_inv in Hrun as [(? & s1 & Hprint & Hrun)|(err & Hprint & ->)].
  2: { left. apply (keeps_ok hist) in Hprint; [|unfold print; keeps_tac].
       split; [congruence|done]. }
  apply (keeps_ok hist) in Hprint; [|unfold print; keeps_tac].
  apply bind_inv in Hrun as [(res & s2 & Hepoch & Hrun)|(err & Hepoch & ->)].
  - right. apply train_one_epoch_durable in Hepoch as (_ & h1 & Hh1 & Hh2 & Hep).
    apply (keeps_ok hist) in Hrun; [|apply train_epoch_tail_hist].
    exists res. split; [|done]. unfold hist in *. congruence.
  - left. apply train_one_epoch_durable in Hepoch as (_ & Hsame).
    unfold hist in *. split; [congruence|done].
Qed.

Lemma for_epochs_history num_epochs train_loader val_loader verbose k dir
    (epochs : list Z) local s r s' h0 :
  for_epochs epochs local
    (train_epoch num_epochs train_loader val_loader verbose k dir) s = (r, s') ->
  hist s = Some h0 ->
  exists rows,
    hist s' = Some (h0 ++ rows) /\
    Forall2 (fun e row => dict_get "Epoch" row = Some (CInt e))
      (take (length rows) epochs) rows /\
    length rows <= length epochs /\
    (is_ok r = true -> length rows = length epochs).
Proof.
  revert local s h0. induction epochs as [|e epochs IH]; intros local s h0.
  - intros [= <- <-] Hh. exists []. rewrite app_nil_r.
    split; [done|]. split; [constructor|]. by split.
  - cbn [for_epochs]. intros Hrun Hh.
    apply bind_inv in Hrun as [(local' & s1 & Hbody & Hrun)|(err & Hbody & ->)].
    + apply (train_epoch_history _ _ _ _ _ _ _ _ _ _ _ h0) in Hbody
        as [[_ ?]|(res & Hh1 & Hep)]; [done| |done].
      destruct (IH _ _ _ Hrun Hh1) as (rows & Hrows & Heps & Hle & Hok).
      exists (res :: rows). rewrite <- app_assoc in Hrows. split; [done|].
      cbn [length take]. split; [by constructor|]. split; [lia|].
      intros Hr. by rewrite Hok.
    + apply (train_epoch_history _ _ _ _ _ _ _ _ _ _ _ h0) in Hbody
        as [[Hsame _]|(res & Hh1 & Hep)]; [| |done].
      * exists []. rewrite app_nil_r. repeat split; [done|constructor|cbn; lia|done].
      * exists [res]. split; [done|]. cbn [length take].
        split; [by repeat constructor|]. split; [lia|done].
Qed.

End TrainEdges.

Section TrainResults.
Context `{Collaborators} `{!Comparison}.

(** X19 (the history counts the completed epochs, whatever happens): on a
    trainer that already has a history, [train] never drops or rewrites a
    row; whether it returns or raises it leaves the old rows followed by
    new ones numbered 1, 2, ... from 1 again, at most [num_epochs] of them
    and exactly [num_epochs] when it returns. *)
Theorem train_history_counts_completed_epochs (s : machine) (num_epochs : Z)
    (train_loader val_loader : list batch) (epoch_scheduler : option scheduler)
    (verbose k : Z) (dir : string) (h0 : DataFrame) :
  history (self s) = Some h0 ->
  let out := train num_epochs train_loader val_loader epoch_scheduler verbose k dir s in
  exists rows,
    history (self (snd out)) = Some (h0 ++ rows) /\
    length rows <= Z.to_nat num_epochs /\
    (forall (i : nat) (r : row),
        rows !! i = Some r -> dict_get "Epoch" r = Some (CInt (Z.of_nat i + 1))) /\
    (is_ok (fst out) = true -> length rows = Z.to_nat num_epochs).
Proof.
  intros Hh. cbv zeta. unfold train.
  destruct (for_epochs _ _ _ s) as [r s'] eqn:Hrun. cbn [fst snd].
  destruct (for_epochs_history _ _ _ _ _ _ _ _ _ _ _ _ Hrun Hh)
    as (rows & Hrows & Heps & Hle & Hok).
  rewrite length_seqZ in Hle, Hok.
  exists rows. split; [done|]. split; [done|]. split; [|done].
  intros i row Hi.
  destruct (Forall2_lookup_r _ _ _ _ _ Heps Hi) as (e & He & Hep).
  apply lookup_take_Some in He as [He _].
  apply lookup_seqZ in He as [-> _]. rewrite Hep. do 2 f_equal. lia.
Qed.

Lemma for_epochs_csv num_epochs train_loader val_loader verbose k dir
    (epochs : list Z) local s u s' :
  epochs <> [] ->
  for_epochs epochs local
    (train_epoch num_epochs train_loader val_loader verbose k dir) s = (Ok u, s') ->
  fs (world s') !! csv_path dir = CsvFile <$> history (self s').
Proof.
  revert local s. induction epochs as [|e epochs IH]; intros local s Hne; [done|].
  cbn [for_epochs]. intros Hrun.
  apply bind_ok_inv in Hrun as (local' & s1 & Hbody & Hrun).
  destruct epochs as [|e' epochs].
  - injection Hrun as _ <-.
    apply train_epoch_effect in Hbody as (h & res & _ & -> & _ & fl & -> & _).
    destruct (decide (checkpoint_due k e)).
    + rewrite lookup_insert_ne by apply label_path_not_csv.
      by rewrite lookup_insert_eq.
    + by rewrite lookup_insert_eq.
  - by eapply IH.
Qed.

(** X20 (history.csv mirrors the history): when [train] returns after at
    least one epoch, the file [history.csv] of [checkpoints_dir] holds
    exactly the table the trainer has in memory. *)
Theorem train_csv_mirrors_history (s : machine) (num_epochs : Z)
    (train_loader val_loader : list batch) (epoch_scheduler : option scheduler)
    (verbose k : Z) (dir : string) :
  (0 < num_epochs)%Z ->
  let out := train num_epochs train_loader val_loader epoch_scheduler verbose k dir s in
  is_ok (fst out) = true ->
  fs (world (snd out)) !! path_join dir "history.csv"
  = CsvFile <$> history (self (snd out)).
Proof.
  intros Hn. cbv zeta. unfold train.
  destruct (for_epochs _ _ _ s) as [[[]|err] s'] eqn:Hrun; [intros _|done].
  cbn [snd]. eapply for_epochs_csv; [|exact Hrun].
  rewrite seqZ_cons by done. done.
Qed.

Lemma train_epoch_snapshot num_epochs train_loader val_loader verbose k dir
    local e s local' s' :
  train_epoch num_epochs train_loader val_loader verbose k dir local e s
  = (Ok local', s') ->
  checkpoint_due k e ->
  exists m o,
    model (self s') = Some m /\ optimizer (self s') = Some o /\
    fs (world s') !! label_path dir e
    = Some (Archive (checkpoint_of m o (history (self s'))) true).
Proof.
  unfold train_epoch. destruct (timer_call local.1 e num_epochs) as [txt tm].
  intros Hrun [Hk Hdiv].
  apply bind_ok_inv in Hrun as (? & s1 & _ & Hrun).
  apply bind_ok_inv in Hrun as (res & s2 & _ & Hrun).
  apply bind_ok_inv in Hrun as (? & s3 & _ & Hrun).
  apply bind_ok_inv in Hrun as (? & s4 & _ & Hrun).
  apply bind_ok_inv in Hrun as (sch & s5 & _ & Hrun).
  apply bind_ok_inv in Hrun as (? & s6 & Hsave & Hrun).
  injection Hrun as _ <-.
  destruct (Z.ltb_spec 0 k) as [_|]; [|lia].
  apply bind_ok_inv in Hsave as (rem & s7 & Hmod & Hsave).
  unfold py_mod, lift in Hmod. destruct (Z.eqb_spec k 0) as [|_]; [lia|].
  injection Hmod as <- <-. rewrite Hdiv in Hsave. cbn [Z.eqb] in Hsave.
  apply save_checkpoint_inv in Hsave as (m & o & Hm & Ho & ->).
  exists m, o. cbn [self world with_fs fs]. split; [done|]. split; [done|].
  apply lookup_insert_eq.
Qed.

Lemma for_epochs_snapshots num_epochs train_loader val_loader verbose k dir
    (epochs : list Z) local s u s' h0 :
  for_epochs epochs local
    (train_epoch num_epochs train_loader val_loader verbose k dir) s = (Ok u, s') ->
  history (self s) = Some h0 ->
  NoDup epochs ->
  forall (i : nat) (e : Z),
    epochs !! i = Some e -> checkpoint_due k e ->
    exists ck rows later,
      fs (world s') !! label_path dir e = Some (Archive ck true) /\
      dict_get "history" ck = Some (PFrame (h0 ++ rows)) /\
      length rows = S i /\
      history (self s') = Some (h0 ++ rows ++ later).
Proof.
  revert local s h0. induction epochs as [|e0 epochs IH]; intros local s h0;
    [by intros _ _ _ i e Hi|].
  cbn [for_epochs]. intros Hrun Hh Hnd i e Hi Hdue.
  apply NoDup_cons in Hnd as [Hfresh Hnd].
  apply bind_ok_inv in Hrun as (local' & s1 & Hbody & Hrun).
  pose proof (train_epoch_effect _ _ _ _ _ _ _ _ _ _ _ Hbody)
    as (h & res & Hh' & Hh1 & _).
  assert (h = h0) as -> by congruence.
  destruct i as [|i].
  - injection Hi as <-.
    destruct (train_epoch_snapshot _ _ _ _ _ _ _ _ _ _ _ Hbody Hdue)
      as (m & o & _ & _ & Hfile).
    destruct (for_epochs_effect _ _ _ _ _ _ _ _ _ _ _ _ Hrun Hh1)
      as (later & Hlater & _).
    exists (checkpoint_of m o (history (self s1))), [res], later.
    split; [|split; [by rewrite Hh1|split; [done|by rewrite <- app_assoc in Hlater]]].
    rewrite <- Hfile. apply (keeps_ok (at_path (label_path dir e0)) _ _ _ _
      (for_epochs_at_path _ _ _ _ _ _ _ _ _ (label_path_not_csv _ _)
         ltac:(intros e' He' _ E; apply label_path_inj in E; by subst)) Hrun).
  - destruct (IH _ _ _ Hrun Hh1 Hnd i e Hi Hdue)
      as (ck & rows & later & Hfile & Hck & Hlen & Hfinal).
    exists ck, (res :: rows), later. split; [done|].
    rewrite <- app_assoc in Hck, Hfinal. split; [done|]. split; [by cbn; rewrite Hlen|done].
Qed.

(** X21 (a labelled checkpoint holds the history of its epoch): when a
    [train] over [num_epochs] epochs returns, the checkpoint labelled [e],
    for every due [e] in [1..num_epochs], is a sealed archive whose history
    entry is the table as it stood at the end of epoch [e]: the rows the
    trainer started with and the first [e] new rows of the final history;
    later epochs do not touch it. *)
Theorem labelled_checkpoint_records_its_epoch (s : machine) (num_epochs : Z)
    (train_loader val_loader : list batch) (epoch_scheduler : option scheduler)
    (verbose k : Z) (dir : string) (h0 : DataFrame) :
  history (self s) = Some h0 ->
  let out := train num_epochs train_loader val_loader epoch_scheduler verbose k dir s in
  is_ok (fst out) = true ->
  forall e : Z,
    (1 <= e <= num_epochs)%Z -> (0 < k)%Z -> (e mod k = 0)%Z ->
    exists ck rows later,
      fs (world (snd out)) !! path_join dir (epoch_label e) = Some (Archive ck true) /\
      dict_get "history" ck = Some (PFrame (h0 ++ rows)) /\
      length rows = Z.to_nat e /\
      history (self (snd out)) = Some (h0 ++ rows ++ later).
Proof.
  intros Hh. cbv zeta. unfold train.
  destruct (for_epochs _ _ _ s) as [[[]|err] s'] eqn:Hrun; [intros _|done].
  cbn [snd]. intros e He Hk Hdiv.
  destruct (for_epochs_snapshots _ _ _ _ _ _ _ _ _ _ _ _ Hrun Hh (NoDup_seqZ _ _)
              (Z.to_nat (e - 1)) e) as (ck & rows & later & Hfile & Hck & Hlen & Hfinal).
  - apply lookup_seqZ. lia.
  - by split.
  - exists ck, rows, later. split; [done|]. split; [done|]. split; [lia|done].
Qed.

End TrainResults.

(** ** The labelled checkpoints of a run *)

Section PeriodicCheckpoints.
Context `{Collaborators} `{!Comparison}.

(** The machine when the loop of [train] has run its first [e] iterations. *)
Definition after_epochs (num_epochs : Z) (train_loader val_loader : list batch)
    (epoch_scheduler : option scheduler) (verbose k : Z) (dir : string)
    (e : Z) (s : machine) : machine :=
  snd (for_epochs (seqZ 1 e) (timer_new, epoch_scheduler)
         (train_epoch num_epochs train_loader val_loader verbose k dir) s).

(** The three records [save_checkpoint] writes for a trainer. *)
Definition bundle_of (t : BaseTrainer) (records : dict pyobj) : Prop :=
  exists m o h,
    model t = Some m /\ optimizer t = Some o /\ history t = Some h /\
    records = [ ("model"%string, PStateDict (parameters m));
                ("optimizer"%string, POptimizer o);
                ("history"%string, PFrame h) ].

Lemma for_epochs_prefix (es1 es2 : list Z) local
    (body : Timer * option scheduler -> Z -> M (Timer * option scheduler)) s u s' :
  for_epochs (es1 ++ es2) local body s = (Ok u, s') ->
  exists local1 s1,
    for_epochs es1 local body s = (Ok tt, s1) /\
    for_epochs es2 local1 body s1 = (Ok u, s').
Proof.
  revert local s. induction es1 as [|e es1 IH]; intros local s; cbn [app for_epochs].
  - intros Hrun. by exists local, s.
  - intros Hrun. apply bind_ok_inv in Hrun as (local' & s0 & Hbody & Hrun).
    destruct (IH _ _ Hrun) as (local1 & s1 & Hrun1 & Hrun2).
    exists local1, s1. split; [|done]. by rewrite bind_run, Hbody.
Qed.

(** In a loop that completes, the file labelled [e] is the bundle of the
    trainer as iteration [e] left it when [e] is due, and is not written
    otherwise. *)
Lemma for_epochs_label num_epochs train_loader val_loader epoch_scheduler
    verbose k dir s u s' (e : Z) :
  for_epochs (seqZ 1 num_epochs) (timer_new, epoch_scheduler)
    (train_epoch num_epochs train_loader val_loader verbose k dir) s = (Ok u, s') ->
  (1 <= e <= num_epochs)%Z ->
  let at_e :=
    after_epochs num_epochs train_loader val_loader epoch_scheduler verbose k dir e s in
  (checkpoint_due k e ->
   exists records,
     bundle_of (self at_e) records /\
     fs (world s') !! label_path dir e = Some (Archive records true)) /\
  (~ checkpoint_due k e ->
   fs (world s') !! label_path dir e = fs (world s) !! label_path dir e).
Proof.
  intros Hrun He. cbv zeta. split.
  - intros Hdue. unfold after_epochs.
    replace num_epochs with (e + (num_epochs - e))%Z in Hrun at 1 by lia.
    rewrite seqZ_app in Hrun by lia.
    apply for_epochs_prefix in Hrun as (local1 & s1 & Hrun1 & Hrun2).
    rewrite Hrun1. cbn [snd].
    replace e with (Z.of_nat (S (Z.to_nat (e - 1)))) in Hrun1 at 1 by lia.
    rewrite seqZ_S in Hrun1.
    apply for_epochs_prefix in Hrun1 as (local0 & s0 & _ & Hlast).
    replace (1 + Z.of_nat (Z.to_nat (e - 1)))%Z with e in Hlast by lia.
    cbn [for_epochs] in Hlast.
    apply bind_ok_inv in Hlast as (local' & s1' & Hbody & Hret).
    injection Hret as <-.
    destruct (train_epoch_snapshot _ _ _ _ _ _ _ _ _ _ _ Hbody Hdue)
      as (m & o & Hm & Ho & Hfile).
    apply train_epoch_effect in Hbody as (h & res & _ & Hh & _).
    eexists. split; [exists m, o, (h ++ [res]); by repeat split|].
    transitivity (fs (world s1') !! label_path dir e);
      [|by rewrite Hfile, Hh].
    change (at_path (label_path dir e) s' = at_path (label_path dir e) s1').
    eapply keeps_ok; [|exact Hrun2].
    apply for_epochs_at_path; [apply label_path_not_csv|].
    intros e' He' _ E. apply label_path_inj in E.
    apply elem_of_seqZ in He'. lia.
  - intros Hnot.
    apply (keeps_ok (at_path (label_path dir e)) _ _ _ _
             (for_epochs_at_path _ _ _ _ _ _ _ _ _ (label_path_not_csv _ _)
                ltac:(intros e' He' Hdue' E; apply label_path_inj in E;
                      by subst)) Hrun).
Qed.

(** C7: in every run of the last lines of train.py that completes, [train]
    itself completes, and for each epoch [e] of 1..N: when the interval [k]
    is positive and [e] is a multiple of it, the file labelled [e] is,
    after [train] as after the final save, the sealed archive of the
    parameters, the optimizer state and the history that the trainer had
    when the loop had just finished epoch [e]; otherwise nothing is written
    to the path labelled [e], which holds what it held before the run.  The
    final save leaves in [checkpoint.pkl] the sealed archive of the trainer
    as the run ends.  With 3 epochs and interval 2 the files added are the
    csv table, [2_epoch.pkl] and [checkpoint.pkl] and no other. *)
Theorem periodic_checkpoints (s : machine) (num_epochs : Z)
    (train_loader val_loader : list batch) (epoch_scheduler : option scheduler)
    (verbose k : Z) (dir : string) :
  let ran := train num_epochs train_loader val_loader epoch_scheduler verbose k dir s in
  let out :=
    train_script num_epochs train_loader val_loader epoch_scheduler verbose k dir s in
  fst out = Ok tt ->
  fst ran = Ok tt
  /\ (forall e, (1 <= e <= num_epochs)%Z ->
        let at_e :=
          after_epochs num_epochs train_loader val_loader epoch_scheduler
            verbose k dir e s in
        ((0 < k /\ e mod k = 0)%Z ->
         exists records,
           bundle_of (self at_e) records /\
           fs (world (snd ran)) !! path_join dir (epoch_label e)
             = Some (Archive records true) /\
           fs (world (snd out)) !! path_join dir (epoch_label e)
             = Some (Archive records true))
        /\ (~ (0 < k /\ e mod k = 0)%Z ->
            fs (world (snd ran)) !! path_join dir (epoch_label e)
              = fs (world s) !! path_join dir (epoch_label e) /\
            fs (world (snd out)) !! path_join dir (epoch_label e)
              = fs (world s) !! path_join dir (epoch_label e)))
  /\ (exists records,
        bundle_of (self (snd out)) records /\
        fs (world (snd out)) !! path_join dir "checkpoint.pkl"
          = Some (Archive records true))
  /\ (num_epochs = 3%Z -> k = 2%Z ->
      dom (fs (world (snd out))) =
      dom (fs (world s))
      ∪ {[path_join dir "history.csv"; path_join dir (epoch_label 2);
          path_join dir "checkpoint.pkl"]}).
Proof.
  cbv zeta.
  destruct (train_script _ _ _ _ _ _ _ s) as [r s'] eqn:Hscript.
  cbn [fst snd]. intros ->.
  destruct (train_script_files _ _ _ _ _ _ _ _ _ _ Hscript) as (Hdom & _ & _).
  unfold train_script in Hscript.
  apply bind_ok_inv in Hscript as ([] & s1 & Hloop & Hrest).
  rewrite Hloop. cbn [fst snd]. split; [done|].
  apply bind_ok_inv in Hrest as (? & s2 & Hsave & Hcsv).
  apply history_to_csv_inv in Hcsv as (h2 & Hh2 & ->).
  apply save_checkpoint_inv in Hsave as (m & o & Hm & Ho & ->).
  cbn [self world with_fs fs with_stdout] in *.
  assert (path_join dir "history.csv" <> path_join dir "checkpoint.pkl") as Hne.
  { intros E. by apply path_join_inj in E. }
  split; [|split].
  - intros e He. unfold train in Hloop.
    destruct (for_epochs_label _ _ _ _ _ _ _ _ _ _ e Hloop He) as [Hdue Hnot].
    fold (label_path dir e). fold (csv_path dir).
    split.
    + intros Hde. destruct (Hdue Hde) as (records & Hb & Hfile).
      exists records. split; [done|]. split; [done|].
      rewrite lookup_insert_ne by (symmetry; apply label_path_not_csv).
      by rewrite lookup_insert_ne by (symmetry; apply label_path_not_final).
    + intros Hnde. split; [by apply Hnot|].
      rewrite lookup_insert_ne by (symmetry; apply label_path_not_csv).
      rewrite lookup_insert_ne by (symmetry; apply label_path_not_final).
      by apply Hnot.
  - eexists. split; [exists m, o, h2; by repeat split|].
    rewrite lookup_insert_ne by done. rewrite lookup_insert_eq.
    by rewrite Hh2.
  - intros -> ->. rewrite Hdom. unfold csv_path, label_path. set_solver.
Qed.

End PeriodicCheckpoints.

Section LinearCheckpoints.
Import Linear.
#[local] Open Scope Q_scope.

Lemma periodic_checkpoints_witness :
  let ran := train 3 demo_train demo_val None 1 2 "ck" (start 1 (1 # 10)) in
  let out := train_script 3 demo_train demo_val None 1 2 "ck" (start 1 (1 # 10)) in
  fst out = Ok tt /\
  (exists records,
     bundle_of (self (after_epochs 3 demo_train demo_val None 1 2 "ck" 2
                        (start 1 (1 # 10)))) records /\
     fs (world (snd ran)) !! path_join "ck" (epoch_label 2)
       = Some (Archive records true) /\
     fs (world (snd out)) !! path_join "ck" (epoch_label 2)
       = Some (Archive records true)) /\
  dom (fs (world (snd out))) =
  dom (fs (world (start 1 (1 # 10))))
  ∪ {[path_join "ck" "history.csv"; path_join "ck" (epoch_label 2);
      path_join "ck" "checkpoint.pkl"]}.
Proof.
  assert (fst (train_script 3 demo_train demo_val None 1 2 "ck" (start 1 (1 # 10)))
          = Ok tt) as Hok by (vm_compute; reflexivity).
  split; [exact Hok|].
  pose proof (periodic_checkpoints (start 1 (1 # 10)) 3 demo_train demo_val None 1 2
                "ck" Hok) as (_ & Hlabel & _ & Hdom).
  split.
  - apply (Hlabel 2%Z); [lia|]. by split.
  - by apply Hdom.
Defined.

End LinearCheckpoints.

Section LinearTraining.
Import Linear.
#[local] Open Scope Q_scope.

Lemma train_one_epoch_leaves_eval_mode_witness :
  let out := train_one_epoch 1 demo_train demo_val 1 (start 1 (1 # 10)) in
  training <$> model (self (snd out)) = Some false /\
  grad_enabled (world (snd out)) = false.
Proof.
  apply (train_one_epoch_leaves_eval_mode 1 demo_train demo_val 1 (start 1 (1 # 10))).
  vm_compute. reflexivity.
Defined.

Lemma get_metrics_dict_reads_only_witness :
  let s := start 1 (1 # 10) in
  let out := get_metrics_dict "val/" 1 s in
  loss_logger (self (snd out)) = loss_logger (self s) /\
  members (metrics (self (snd out))) = members (metrics (self s)) /\
  prefix (metrics (self (snd out))) = "val/"%string /\
  model (self (snd out)) = model (self s) /\
  optimizer (self (snd out)) = optimizer (self s) /\
  history (self (snd out)) = history (self s) /\
  fs (world (snd out)) = fs (world s) /\
  stdout (world (snd out)) = stdout (world s) /\
  writer (world (snd out)) =
    writer (world s)
    ++ ("val/" +:+ "loss", CFloat (MeanMetric.compute (loss_logger (self s))), 1%Z)
       :: map (fun nm => ("val/" +:+ fst nm, CMetric (metric_compute (snd nm)), 1%Z))
              (members (metrics (self s))).
Proof.
  apply (get_metrics_dict_reads_only "val/" 1 (start 1 (1 # 10))).
  vm_compute. reflexivity.
Defined.

Lemma get_metrics_dict_columns_witness :
  fst (get_metrics_dict "val/" 1 (start 1 (1 # 10))) =
  Ok ([ ("val/" +:+ "loss",
         CFloat (MeanMetric.compute (loss_logger (self (start 1 (1 # 10))))));
        ("val/" +:+ "time",
         CInt (py_int (fst (timer_stop (timer (self (start 1 (1 # 10)))))))) ]
      ++ map (fun nm => ("val/" +:+ fst nm, CMetric (metric_compute (snd nm))))
             (members (metrics (self (start 1 (1 # 10)))))).
Proof.
  apply (get_metrics_dict_columns "val/" 1 (start 1 (1 # 10))).
  - apply NoDup_singleton.
  - intros Hin. apply list_elem_of_singleton in Hin. discriminate.
  - intros Hin. apply list_elem_of_singleton in Hin. discriminate.
Defined.

Lemma run_pass_progress_lines_witness :
  let out := run_pass Training 1 demo_train 2 (start 1 (1 # 10)) in
  exists lines,
    stdout (world (snd out)) = stdout (world (start 1 (1 # 10))) ++ lines /\
    Forall2 (fun l j => exists eta,
               l = OutProgress Training 1 j (Z.of_nat (length demo_train)) eta)
      lines
      (filter (fun j => (j mod 2 = 0)%Z) (seqZ 1 (Z.of_nat (length demo_train)))).
Proof.
  apply (run_pass_progress_lines Training 1 demo_train 2 (start 1 (1 # 10))).
  - discriminate.
  - vm_compute. reflexivity.
Defined.

Lemma train_history_counts_completed_epochs_witness :
  let out := train 2 demo_train demo_val None 1 0 "ck" (mkMachine seasoned empty_world) in
  exists rows,
    history (self (snd out)) = Some ([[("Epoch"%string, CInt 1)]] ++ rows) /\
    (length rows <= Z.to_nat 2)%nat /\
    (forall (i : nat) (r : row),
        rows !! i = Some r -> dict_get "Epoch" r = Some (CInt (Z.of_nat i + 1))) /\
    (is_ok (fst out) = true -> length rows = Z.to_nat 2).
Proof.
  exact (train_history_counts_completed_epochs (mkMachine seasoned empty_world) 2
           demo_train demo_val None 1 0 "ck" [[("Epoch"%string, CInt 1)]] eq_refl).
Defined.

Lemma train_csv_mirrors_history_witness :
  let out := train 3 demo_train demo_val None 1 2 "ck" (start 1 (1 # 10)) in
  fs (world (snd out)) !! path_join "ck" "history.csv"
  = CsvFile <$> history (self (snd out)).
Proof.
  apply (train_csv_mirrors_history (start 1 (1 # 10)) 3 demo_train demo_val None 1 2 "ck").
  - reflexivity.
  - vm_compute. reflexivity.
Defined.

Lemma labelled_checkpoint_records_its_epoch_witness :
  let out := train 3 demo_train demo_val None 1 2 "ck" (start 1 (1 # 10)) in
  exists ck rows later,
    fs (world (snd out)) !! path_join "ck" (epoch_label 2) = Some (Archive ck true) /\
    dict_get "history" ck = Some (PFrame ([] ++ rows)) /\
    length rows = Z.to_nat 2 /\
    history (self (snd out)) = Some ([] ++ rows ++ later).
Proof.
  apply (labelled_checkpoint_records_its_epoch (start 1 (1 # 10)) 3 demo_train
           demo_val None 1 2 "ck" [] eq_refl).
  - vm_compute. reflexivity.
  - lia.
  - reflexivity.
  - reflexivity.
Defined.

End LinearTraining.

(** * BaseTrainer.test and test_one_batch

    [test] is a generator.  What a caller that drains it observes is the
    sequence of the lines it prints and of the triples it yields, in order,
    up to the point where it raises; that sequence is kept here as a trace
    beside the machine. *)

Section Testing.
Context `{Collaborators} `{!Comparison}.

Inductive test_event : Type :=
  | TestProgress (i n : Z) (eta : string)
  | TestYield (y_pred y_true : tensor) (filenames : list string).

Definition test_one_batch (image : tensor) : M tensor := call_model image.

(** The loop of [test] from batch number [i] on. *)
Fixpoint test_loop (n verbose i : Z) (loader : list batch) (seen : list test_event)
    (s : machine) : result unit * machine * list test_event :=
  match loader with
  | [] => (Ok tt, s, seen)
  | (image, y_true, filenames) :: rest =>
      match py_mod i verbose with
      | Raise e => (Raise e, s, seen)
      | Ok r =>
          let '(s1, seen1) :=
            if Z.eqb r 0
            then let '(txt, tm) := timer_call (timer (self s)) i n in
                 (mkMachine (with_timer tm (self s)) (world s),
                  seen ++ [TestProgress i n txt])
            else (s, seen) in
          match test_one_batch image s1 with
          | (Ok y_pred, s2) =>
              test_loop n verbose (i + 1) rest
                (seen1 ++ [TestYield y_pred y_true filenames]) s2
          | (Raise e, s2) => (Raise e, s2, seen1)
          end
      end
  end.

Definition test (test_loader : list batch) (verbose : Z) (s : machine)
  : result unit * machine * list test_event :=
  match set_train_mode false s with
  | (Ok _, s1) =>
      test_loop (Z.of_nat (length test_loader)) verbose 1 test_loader [] s1
  | (Raise e, s1) => (Raise e, s1, [])
  end.

(** The triples among the events, and the batch numbers of the lines. *)
Definition yields (seen : list test_event) : list (tensor * tensor * list string) :=
  omap (fun ev => match ev with
                  | TestYield p y f => Some (p, y, f)
                  | TestProgress _ _ _ => None
                  end) seen.

Definition announced (seen : list test_event) : list Z :=
  omap (fun ev => match ev with
                  | TestProgress i _ _ => Some i
                  | TestYield _ _ _ => None
                  end) seen.

(** The trainer apart from its timer, and everything around it. *)
Definition untimed (s : machine) :=
  (model (self s), optimizer (self s), metrics (self s), loss_logger (self s),
   history (self s), world s).

Lemma omap_snoc {A B} (f : A -> option B) (l : list A) (x : A) :
  omap f (l ++ [x]) = omap f l ++ match f x with Some y => [y] | None => [] end.
Proof. rewrite omap_app. cbn. by destruct (f x). Qed.

Lemma test_loop_run n verbose i (loader : list batch) seen s m :
  verbose <> 0%Z ->
  model (self s) = Some m ->
  exists s' seen',
    test_loop n verbose i loader seen s = (Ok tt, s', seen') /\
    untimed s' = untimed s /\
    yields seen' =
      yields seen
      ++ map (fun b : batch =>
                (forward (training m) (parameters m) (fst (fst b)), snd (fst b), snd b))
             loader /\
    announced seen' =
      announced seen
      ++ filter (fun j => (j mod verbose = 0)%Z) (seqZ i (Z.of_nat (length loader))).
Proof.
  intros Hv. revert i seen s.
  induction loader as [|[[image y_true] filenames] loader IH]; intros i seen s Hm.
  - exists s, seen. cbn. by rewrite !app_nil_r.
  - cbn [test_loop]. unfold py_mod. destruct (Z.eqb_spec verbose 0) as [|_]; [done|].
    rewrite seqZ_cons by (cbn [length]; lia). rewrite filter_cons.
    cbn [length]. rewrite Nat2Z.inj_succ, Z.pred_succ.
    change (Z.succ i) with (i + 1)%Z.
    destruct (Z.eqb_spec (i mod verbose) 0) as [Hdiv|Hdiv].
    + destruct (timer_call (timer (self s)) i n) as [txt tm].
      unfold test_one_batch, call_model, get_self. rewrite bind_run.
      cbn [self with_timer model]. rewrite Hm. cbn [mret M_ret].
      edestruct (IH (i + 1)%Z) as (s' & seen' & -> & Hsame & Hy & Ha);
        [|exists s', seen'; split; [reflexivity|]].
      { cbn [self with_timer model]. exact Hm. }
      rewrite decide_True by done. split; [by rewrite Hsame|].
      rewrite Hy, Ha. unfold yields, announced. rewrite !omap_snoc.
      cbn [map fst snd]. by rewrite !app_nil_r, <- !app_assoc.
    + unfold test_one_batch, call_model, get_self. rewrite bind_run.
      cbn [self]. rewrite Hm. cbn [mret M_ret].
      edestruct (IH (i + 1)%Z) as (s' & seen' & -> & Hsame & Hy & Ha);
        [exact Hm|exists s', seen'; split; [reflexivity|]].
      rewrite decide_False by done. split; [done|].
      rewrite Hy, Ha. unfold yields, announced. rewrite !omap_snoc.
      cbn [map fst snd]. by rewrite !app_nil_r, <- !app_assoc.
Qed.

End Testing.

Section TestingFacts.
Context `{Collaborators} `{!Comparison}.

(** X22 (test with its default verbose yields nothing): [verbose] defaults to
    0 and the check [i % verbose] comes before the first prediction, so on a
    non-empty loader a drained [test] raises before it prints or yields
    anything; on a trainer with a model the error is ZeroDivisionError and
    the trainer is left in evaluation mode with gradients off. *)
Theorem test_verbose_zero_yields_nothing (b : batch) (loader : list batch) (s : machine) :
  let out := test (b :: loader) 0 s in
  is_ok (fst (fst out)) = false /\
  snd out = [] /\
  (is_Some (model (self s)) ->
   fst (fst out) = Raise ZeroDivisionError /\
   training <$> model (self (snd (fst out))) = Some false /\
   grad_enabled (world (snd (fst out))) = false).
Proof.
  cbv zeta. destruct s as [t w], b as [[image y_true] filenames].
  unfold test, set_train_mode, get_self, attr_of, update_self, update_world, raise.
  mrun. destruct (model t) as [m|]; mrun.
  - cbn. split; [done|]. split; [done|]. by intros _.
  - cbn. split; [done|]. split; [done|]. by intros [? ?].
Qed.

(** X23 (test passes targets and identifiers through): with a non-zero
    [verbose], on a trainer with a model, a drained [test] returns after
    yielding one triple per batch, in the loader's order: the model's
    output on the image in evaluation mode, with the batch's own target and
    file names untouched; it announces exactly the batch numbers [verbose]
    divides, and changes neither the parameters, the optimizer, the
    metrics, the loss accumulator, the history, the files nor the writer. *)
Theorem test_yields_predictions (loader : list batch) (verbose : Z) (s : machine)
    (m : Model) :
  verbose <> 0%Z ->
  model (self s) = Some m ->
  let out := test loader verbose s in
  fst (fst out) = Ok tt /\
  yields (snd out) =
    map (fun b : batch =>
           (forward false (parameters m) (fst (fst b)), snd (fst b), snd b)) loader /\
  announced (snd out) =
    filter (fun j => (j mod verbose = 0)%Z) (seqZ 1 (Z.of_nat (length loader))) /\
  model (self (snd (fst out))) = Some (mkModel false (parameters m)) /\
  optimizer (self (snd (fst out))) = optimizer (self s) /\
  metrics (self (snd (fst out))) = metrics (self s) /\
  loss_logger (self (snd (fst out))) = loss_logger (self s) /\
  history (self (snd (fst out))) = history (self s) /\
  world (snd (fst out)) = with_grad_enabled false (world s).
Proof.
  intros Hv Hm. cbv zeta. destruct s as [t w]. cbn [self world] in *.
  unfold test, set_train_mode, get_self, attr_of, update_self, update_world, raise.
  mrun. rewrite Hm. mrun.
  edestruct (test_loop_run (Z.of_nat (length loader)) verbose 1 loader []
               (mkMachine (with_model (Some (mkModel false (parameters m))) t)
                          (with_grad_enabled false w))
               (mkModel false (parameters m)) Hv eq_refl)
    as (s' & seen' & -> & Hsame & Hy & Ha).
  cbn [fst snd]. split; [done|]. split; [exact Hy|]. split; [exact Ha|].
  unfold untimed in Hsame. cbn [self world with_model model optimizer metrics
    loss_logger history] in Hsame.
  by injection Hsame as -> -> -> -> -> ->.
Qed.

End TestingFacts.

Section LinearTesting.
Import Linear.
#[local] Open Scope Q_scope.

Lemma test_yields_predictions_witness :
  let out := test demo_train 2 (start 3 (1 # 10)) in
  fst (fst out) = Ok tt /\
  yields (snd out) =
    map (fun b : batch =>
           (forward false (parameters (the_model 3)) (fst (fst b)), snd (fst b), snd b))
        demo_train /\
  announced (snd out) =
    filter (fun j => (j mod 2 = 0)%Z) (seqZ 1 (Z.of_nat (length demo_train))) /\
  model (self (snd (fst out))) = Some (mkModel false (parameters (the_model 3))) /\
  optimizer (self (snd (fst out))) = optimizer (self (start 3 (1 # 10))) /\
  metrics (self (snd (fst out))) = metrics (self (start 3 (1 # 10))) /\
  loss_logger (self (snd (fst out))) = loss_logger (self (start 3 (1 # 10))) /\
  history (self (snd (fst out))) = history (self (start 3 (1 # 10))) /\
  world (snd (fst out)) = with_grad_enabled false (world (start 3 (1 # 10))).
Proof.
  apply (test_yields_predictions demo_train 2 (start 3 (1 # 10)) (the_model 3)).
  - discriminate.
  - reflexivity.
Defined.

End LinearTesting.

Section EpochRow.
Context `{Collaborators} `{!Comparison}.

(** X24 (the lr column is the rate the epoch ended with): the record of an
    epoch that returns carries under "lr" the learning rate of the
    optimizer's first parameter group as the two passes left it, read
    before [train] steps the scheduler; no [train/] or [val/] entry can
    overwrite it, and the record is the last row of the history. *)
Theorem train_one_epoch_records_rate (epoch : Z) (train_loader val_loader : list batch)
    (verbose : Z) (s : machine) :
  let out := train_one_epoch epoch train_loader val_loader verbose s in
  is_ok (fst out) = true ->
  exists res o g gs h,
    fst out = Ok res /\
    optimizer (self (snd out)) = Some o /\
    param_groups o = g :: gs /\
    dict_get "lr" res = Some (CFloat (Some (lr g))) /\
    history (self (snd out)) = Some (h ++ [res]).
Proof.
  cbv zeta.
  destruct (train_one_epoch epoch train_loader val_loader verbose s)
    as [[res|e] s'] eqn:Hrun; [intros _|done]. cbn [fst snd].
  unfold train_one_epoch in Hrun.
  apply bind_ok_inv in Hrun as (tr & sa & Hrun1 & Hrun).
  apply bind_ok_inv in Hrun as (vr & sb & Hrun2 & Hrun).
  pose proof (run_pass_prefixed _ _ _ _ _ _ _ Hrun1) as Htr.
  pose proof (run_pass_prefixed _ _ _ _ _ _ _ Hrun2) as Hvr.
  destruct sb as [t w].
  unfold get_self, attr_of, update_self, raise in Hrun. mrun_in Hrun.
  destruct (optimizer t) as [o|] eqn:Ho; mrun_in Hrun; [|done].
  destruct (param_groups o) as [|g gs] eqn:Hg; mrun_in Hrun; [done|].
  destruct (history t) as [h|]; mrun_in Hrun; [|done].
  injection Hrun as <- <-. eexists _, o, g, gs, h.
  split; [reflexivity|]. split; [by destruct t; cbn in *|]. split; [done|].
  split; [|done]. rewrite !dict_get_update.
  rewrite (prefixed_miss "val/" "lr" (rev vr)) by first [by apply Forall_rev | done].
  by rewrite (prefixed_miss "train/" "lr" (rev tr)) by first [by apply Forall_rev | done].
Qed.

End EpochRow.

Section LinearEpochRow.
Import Linear.
#[local] Open Scope Q_scope.

Lemma train_one_epoch_records_rate_witness :
  let out := train_one_epoch 1 demo_train demo_val 1 (start 1 (1 # 10)) in
  exists res o g gs h,
    fst out = Ok res /\
    optimizer (self (snd out)) = Some o /\
    param_groups o = g :: gs /\
    dict_get "lr" res = Some (CFloat (Some (lr g))) /\
    history (self (snd out)) = Some (h ++ [res]).
Proof.
  apply (train_one_epoch_records_rate 1 demo_train demo_val 1 (start 1 (1 # 10))).
  vm_compute. reflexivity.
Defined.

End LinearEpochRow.

(** * train.py: choosing the model and the criterion (lines 128-166)

    [model_name] stands for the name after [model_name.lower()].  Of the
    eight model classes only [EfficientUNet] is among the sources at hand;
    the keyword parameters of the other constructors and the
    [num_feature_maps] of a built FPN are left open. *)
Module Selection.

(** A value read from the yaml file. *)
Inductive cfgval : Type :=
  | VNone
  | VBool (b : bool)
  | VNum (q : Q)
  | VStr (s : string).

(** Python's truth value, as [if single:] takes it. *)
Definition truthy (v : cfgval) : bool :=
  match v with
  | VNone => false
  | VBool b => b
  | VNum q => negb (Qeq_bool q 0)
  | VStr s => negb (String.eqb s "")
  end.

Inductive architecture : Type :=
  | VGGUNet | ResUNet | DenseUNet | EfficientUNet
  | VGGFPN | ResFPN | DenseFPN | EfficientFPN.

Inductive criterion_kind : Type :=
  | Loss
  | MultiScaleLoss (num_scale : nat).

(** [needle in s] on strings. *)
Fixpoint contains (needle s : string) : bool :=
  starts_with needle s ||
  match s with
  | EmptyString => false
  | String _ s' => contains needle s'
  end.

Definition rbind {A B} (r : result A) (f : A -> result B) : result B :=
  match r with
  | Ok a => f a
  | Raise e => Raise e
  end.

Section Select.
Variable keywords : architecture -> list string.
Variable num_feature_maps : architecture -> nat.

(** The keyword parameters of [__init__];
    [EfficientUNet.__init__(self, pretrained=False)] takes one. *)
Definition init_keywords (a : architecture) : list string :=
  match a with
  | EfficientUNet => ["pretrained"%string]
  | _ => keywords a
  end.

(** [Class(k1=..., k2=...)]: the keywords are bound before the body runs,
    and one that [__init__] does not take raises TypeError. *)
Definition construct (a : architecture) (kwargs : list string) : result architecture :=
  if forallb (fun k => existsb (String.eqb k) (init_keywords a)) kwargs
  then Ok a
  else Raise TypeError.

Definition unet_of (model_name : string) : result architecture :=
  let kwargs := ["pretrained"; "norm"; "activation"; "dropout"]%string in
  if String.eqb model_name "vgg_unet" then construct VGGUNet kwargs
  else if String.eqb model_name "res_unet" then construct ResUNet kwargs
  else if String.eqb model_name "dense_unet" then construct DenseUNet kwargs
  else if String.eqb model_name "efficient_unet" then construct EfficientUNet kwargs
  else Raise (ValueError "Invalid model name").

Definition fpn_of (model_name : string) : result architecture :=
  let kwargs := ["pretrained"; "single"]%string in
  if String.eqb model_name "vgg_fpn" then construct VGGFPN kwargs
  else if String.eqb model_name "res_fpn" then construct ResFPN kwargs
  else if String.eqb model_name "dense_fpn" then construct DenseFPN kwargs
  else if String.eqb model_name "efficient_fpn" then construct EfficientFPN kwargs
  else Raise (ValueError "Invalid model name").

Definition select_model (model_name : string) (model_config : dict cfgval)
  : result (architecture * criterion_kind) :=
  if contains "unet" model_name then
    rbind (dict_item "norm" model_config) (fun _ =>
    rbind (dict_item "activation" model_config) (fun _ =>
    rbind (dict_item "dropout" model_config) (fun _ =>
    rbind (unet_of model_name) (fun model =>
    Ok (model, Loss)))))
  else if contains "fpn" model_name then
    rbind (dict_item "single" model_config) (fun single =>
    rbind (fpn_of model_name) (fun model =>
    Ok (model, if truthy single then Loss
               else MultiScaleLoss (num_feature_maps model))))
  else Raise (ValueError "Invalid model name").

End Select.
End Selection.

(** X25 (the efficient_unet configuration cannot be built): train.py calls
    [EfficientUNet] with the keywords [norm], [activation] and [dropout],
    which its constructor does not take; whatever the other classes accept
    and whatever the configuration, selecting "efficient_unet" never
    returns a model: it raises KeyError when one of the three entries is
    missing and TypeError otherwise. *)
Theorem efficient_unet_cannot_be_built (keywords : Selection.architecture -> list string)
    (num_feature_maps : Selection.architecture -> nat)
    (model_config : dict Selection.cfgval) :
  let out :=
    Selection.select_model keywords num_feature_maps "efficient_unet" model_config in
  is_ok out = false /\
  (is_Some (dict_get "norm" model_config) ->
   is_Some (dict_get "activation" model_config) ->
   is_Some (dict_get "dropout" model_config) ->
   out = Raise TypeError).
Proof.
  cbv zeta. unfold Selection.select_model.
  change (Selection.contains "unet" "efficient_unet") with true. cbv iota.
  unfold dict_item, Selection.rbind.
  destruct (dict_get "norm" model_config); [|by split; [|intros [? ?]]].
  destruct (dict_get "activation" model_config); [|by split; [|intros _ [? ?]]].
  destruct (dict_get "dropout" model_config); [|by split; [|intros _ _ [? ?]]].
  done.
Qed.

(** X26 (which names train.py accepts, and with which criterion): when the
    selection returns, the lower-cased name is one of "vgg_unet",
    "res_unet", "dense_unet", "vgg_fpn", "res_fpn", "dense_fpn" and
    "efficient_fpn" and the model is of the class of that name; a UNet is
    paired with [Loss], an FPN with [Loss] when the configuration's
    [single] is true and with [MultiScaleLoss] over the model's feature
    maps otherwise. *)
Theorem select_model_accepts (keywords : Selection.architecture -> list string)
    (num_feature_maps : Selection.architecture -> nat)
    (model_name : string) (model_config : dict Selection.cfgval)
    (a : Selection.architecture) (c : Selection.criterion_kind) :
  Selection.select_model keywords num_feature_maps model_name model_config = Ok (a, c) ->
  (model_name, a) ∈
    [ ("vgg_unet"%string, Selection.VGGUNet); ("res_unet"%string, Selection.ResUNet);
      ("dense_unet"%string, Selection.DenseUNet); ("vgg_fpn"%string, Selection.VGGFPN);
      ("res_fpn"%string, Selection.ResFPN); ("dense_fpn"%string, Selection.DenseFPN);
      ("efficient_fpn"%string, Selection.EfficientFPN) ] /\
  match a with
  | Selection.VGGFPN | Selection.ResFPN | Selection.DenseFPN | Selection.EfficientFPN =>
      exists single,
        dict_get "single" model_config = Some single /\
        c = if Selection.truthy single then Selection.Loss
            else Selection.MultiScaleLoss (num_feature_maps a)
  | _ => c = Selection.Loss
  end.
Proof.
  unfold Selection.select_model, dict_item, Selection.rbind.
  destruct (Selection.contains "unet" model_name).
  - destruct (dict_get "norm" model_config); [|done].
    destruct (dict_get "activation" model_config); [|done].
    destruct (dict_get "dropout" model_config); [|done].
    unfold Selection.unet_of, Selection.construct. cbv zeta.
    destruct (String.eqb_spec model_name "vgg_unet") as [->|_].
    { destruct (forallb _ _); [|done]. intros [= <- <-]. split; [set_solver|done]. }
    destruct (String.eqb_spec model_name "res_unet") as [->|_].
    { destruct (forallb _ _); [|done]. intros [= <- <-]. split; [set_solver|done]. }
    destruct (String.eqb_spec model_name "dense_unet") as [->|_].
    { destruct (forallb _ _); [|done]. intros [= <- <-]. split; [set_solver|done]. }
    destruct (String.eqb_spec model_name "efficient_unet") as [->|_]; done.
  - destruct (Selection.contains "fpn" model_name); [|done].
    destruct (dict_get "single" model_config) as [single|]; [|done].
    unfold Selection.fpn_of, Selection.construct. cbv zeta.
    destruct (String.eqb_spec model_name "vgg_fpn") as [->|_].
    { destruct (forallb _ _); [|done]. intros [= <- <-].
      split; [set_solver|by exists single]. }
    destruct (String.eqb_spec model_name "res_fpn") as [->|_].
    { destruct (forallb _ _); [|done]. intros [= <- <-].
      split; [set_solver|by exists single]. }
    destruct (String.eqb_spec model_name "dense_fpn") as [->|_].
    { destruct (forallb _ _); [|done]. intros [= <- <-].
      split; [set_solver|by exists single]. }
    destruct (String.eqb_spec model_name "efficient_fpn") as [->|_]; [|done].
    destruct (forallb _ _); [|done]. intros [= <- <-].
    split; [set_solver|by exists single].
Qed.

Lemma select_model_accepts_witness :
  ("res_fpn"%string, Selection.ResFPN) ∈
    [ ("vgg_unet"%string, Selection.VGGUNet); ("res_unet"%string, Selection.ResUNet);
      ("dense_unet"%string, Selection.DenseUNet); ("vgg_fpn"%string, Selection.VGGFPN);
      ("res_fpn"%string, Selection.ResFPN); ("dense_fpn"%string, Selection.DenseFPN);
      ("efficient_fpn"%string, Selection.EfficientFPN) ] /\
  exists single,
    dict_get "single" [("single"%string, Selection.VBool false)] = Some single /\
    Selection.MultiScaleLoss 4 =
      if Selection.truthy single then Selection.Loss else Selection.MultiScaleLoss 4.
Proof.
  apply (select_model_accepts (fun _ => ["pretrained"; "single"]%string) (fun _ => 4%nat)
           "res_fpn" [("single"%string, Selection.VBool false)]
           Selection.ResFPN (Selection.MultiScaleLoss 4)).
  reflexivity.
Defined.
